(** * TodoApp: task store, undo history, activity ledger and focus timer

    A shallow embedding of the [TodoApp] class (the revision that carries
    the cached counters, the undo/redo history and the statistics), with
    the properties of its core checked against it.

    Conventions of the embedding.
    - A JavaScript array is a [list]; [slice], [shift], [push], [unshift],
      [splice], [find] and [findIndex] are written out in [Module Js].
    - Object fields that hold integers are [Z].  The three fields that can
      hold [NaN] (the timer's [timerDuration] and [timeRemaining], and
      [stats.totalFocusTime]) are [Js.Num].
    - A calendar day, as produced by [new Date().toDateString()], is the
      number of that day ([Z]); [Date.now()] is a [Z] of milliseconds.
    - [JSON.parse(JSON.stringify(x))] on a task list is a deep copy; the
      values of the embedding are immutable, so it is [Js.jsonClone], the
      identity.
    - What the environment supplies (the clock, the contents of the form
      fields, the answer to [prompt] and [confirm], the notification
      permission, the contents of [localStorage] at start-up) is an
      argument of the operation that reads it.
    - Writes to [localStorage] and to the DOM are not part of the state:
      nothing reads them back during a session.  The fields of the
      presentation (the filter, the keyboard selection, the celebration
      flag, the set of notified tasks) are left out: no operation below
      reads them. *)

From Stdlib Require Import ZArith String Ascii Bool Lia List Permutation.
From Stdlib Require Import DecimalString.
Import ListNotations.
Local Open Scope Z_scope.

(* ------------------------------------------------------------------ *)
(** * JavaScript primitives used by the class *)

Module Js.

(** ** Arrays *)

Definition len {A} (l : list A) : Z := Z.of_nat (length l).

(** A relative index of [slice] and [splice]: negative counts from the end,
    and the result is clamped to [0 .. length]. *)
Definition relIndex {A} (i : Z) (l : list A) : nat :=
  Z.to_nat (if i <? 0 then Z.max (len l + i) 0 else Z.min i (len l)).

(** [l.slice(b, e)] *)
Definition slice {A} (b e : Z) (l : list A) : list A :=
  firstn (relIndex e l - relIndex b l) (skipn (relIndex b l) l).

(** [l.shift()], for the array that remains *)
Definition shift {A} (l : list A) : list A := tl l.

(** [l.push(x)] *)
Definition push {A} (l : list A) (x : A) : list A := l ++ [x].

(** [l.unshift(x)] *)
Definition unshift {A} (x : A) (l : list A) : list A := x :: l.

(** [l[i]]: [None] is [undefined] *)
Definition index {A} (l : list A) (i : Z) : option A :=
  if i <? 0 then None else nth_error l (Z.to_nat i).

(** [l.findIndex(p)]: [-1] when no element satisfies [p] *)
Fixpoint findIndexFrom {A} (p : A -> bool) (l : list A) (k : Z) : Z :=
  match l with
  | [] => -1
  | x :: r => if p x then k else findIndexFrom p r (k + 1)
  end.

Definition findIndex {A} (p : A -> bool) (l : list A) : Z :=
  findIndexFrom p l 0.

(** [l.splice(start, 1)]: the removed elements and the array that remains *)
Definition spliceOut {A} (start : Z) (l : list A) : list A * list A :=
  let k := relIndex start l in
  (firstn 1 (skipn k l), firstn k l ++ skipn (S k) l).

(** [l.splice(start, 0, x)] *)
Definition spliceIn {A} (start : Z) (x : A) (l : list A) : list A :=
  let k := relIndex start l in
  firstn k l ++ x :: skipn k l.

(** [find] followed by assignments to the fields of the object found: the
    first element that satisfies [p] is replaced by its image under [f]. *)
Fixpoint updateFirst {A} (p : A -> bool) (f : A -> A) (l : list A) : list A :=
  match l with
  | [] => []
  | x :: r => if p x then f x :: r else x :: updateFirst p f r
  end.

(** The last element, [l[l.length - 1]] *)
Definition lastElt {A} (l : list A) : option A := index l (len l - 1).

(** [JSON.parse(JSON.stringify(x))] *)
Definition jsonClone {A} (x : A) : A := x.

(** ** Numbers that may be [NaN] *)

Inductive Num := NaN | Int (z : Z).

Definition decr (n : Num) : Num :=
  match n with NaN => NaN | Int z => Int (z - 1) end.

Definition times (n : Num) (k : Z) : Num :=
  match n with NaN => NaN | Int z => Int (z * k) end.

Definition plus (a b : Num) : Num :=
  match a, b with Int x, Int y => Int (x + y) | _, _ => NaN end.

(** [Number.MAX_SAFE_INTEGER].  The numbers of the code are doubles: up to
    this bound an integer, and a sum, difference or product of integers
    that stays within it, is held exactly, as [Num] has it; beyond it the
    code rounds. *)
Definition maxSafeInteger : Z := 2 ^ 53 - 1.

(** [NaN], or an integer that [Number.isSafeInteger] accepts. *)
Definition safe (n : Num) : bool :=
  match n with
  | NaN => true
  | Int z => (- maxSafeInteger <=? z) && (z <=? maxSafeInteger)
  end.

(** [n <= 0] (false on [NaN]) *)
Definition leZero (n : Num) : bool :=
  match n with NaN => false | Int z => z <=? 0 end.

(** [Math.round(n / 60)]: [Math.round] is [floor (x + 1/2)] *)
Definition roundDiv60 (n : Num) : Num :=
  match n with NaN => NaN | Int z => Int ((z + 30) / 60) end.

(** ** Strings *)

Definition chars (s : string) : list ascii := list_ascii_of_string s.

(** White space and line terminators among the 8-bit characters:
    TAB, LF, VT, FF, CR, SP and NBSP. *)
Definition isWhite (c : ascii) : bool :=
  let n := Z.of_nat (nat_of_ascii c) in
  ((9 <=? n) && (n <=? 13)) || (n =? 32) || (n =? 160).

Fixpoint dropWhile {A} (p : A -> bool) (l : list A) : list A :=
  match l with
  | [] => []
  | x :: r => if p x then dropWhile p r else l
  end.

Fixpoint takeWhile {A} (p : A -> bool) (l : list A) : list A :=
  match l with
  | [] => []
  | x :: r => if p x then x :: takeWhile p r else []
  end.

Definition trimStart (l : list ascii) : list ascii := dropWhile isWhite l.

Definition trimChars (l : list ascii) : list ascii :=
  rev (dropWhile isWhite (rev (dropWhile isWhite l))).

(** [s.trim()] *)
Definition trim (s : string) : string := string_of_list_ascii (trimChars (chars s)).

(** [!s] for a string: only the empty string is falsy *)
Definition falsy (s : string) : bool :=
  match s with EmptyString => true | _ => false end.

(** [s || null] *)
Definition orNull (s : string) : option string :=
  if falsy s then None else Some s.

(** [z.toString()] for an integer *)
Definition toString (z : Z) : string := NilZero.string_of_int (Z.to_int z).

(** The value of a digit in a radix up to 16 *)
Definition digitValue (radix : Z) (c : ascii) : option Z :=
  let n := Z.of_nat (nat_of_ascii c) in
  let v := if (48 <=? n) && (n <=? 57) then n - 48
           else if (97 <=? n) && (n <=? 102) then n - 87
           else if (65 <=? n) && (n <=? 70) then n - 55
           else 16 in
  if v <? radix then Some v else None.

Definition isDigitIn (radix : Z) (c : ascii) : bool :=
  match digitValue radix c with Some _ => true | None => false end.

Definition digitsValue (radix : Z) (l : list ascii) : Z :=
  fold_left (fun acc c =>
               match digitValue radix c with
               | Some v => acc * radix + v
               | None => acc
               end) l 0.

(** The result of [StringToNumber] before it is rounded to a double:
    not a number, an infinity, or the decimal [(-1)^neg * m * 10^e]. *)
Inductive Number := NotANumber | Infinite (neg : bool) | Dec (neg : bool) (m : Z) (e : Z).

(** [ExponentPart_opt] followed by the end of the literal *)
Definition exponentPart (l : list ascii) : option Z :=
  match l with
  | [] => Some 0
  | c :: r =>
      if (Ascii.eqb c "e" || Ascii.eqb c "E")%bool then
        let '(neg, ds) :=
          match r with
          | s :: r' =>
              if Ascii.eqb s "-" then (true, r')
              else if Ascii.eqb s "+" then (false, r')
              else (false, r)
          | [] => (false, r)
          end in
        match ds with
        | [] => None
        | _ => if forallb (isDigitIn 10) ds
               then Some (if neg then - digitsValue 10 ds else digitsValue 10 ds)
               else None
        end
      else None
  end.

(** [StrUnsignedDecimalLiteral] *)
Definition unsignedDecimal (neg : bool) (l : list ascii) : Number :=
  if list_eq_dec ascii_dec l (chars "Infinity") then Infinite neg
  else
    let ip := takeWhile (isDigitIn 10) l in
    let r := dropWhile (isDigitIn 10) l in
    let '(fp, dot, r') :=
      match r with
      | c :: t =>
          if Ascii.eqb c "." then
            (takeWhile (isDigitIn 10) t, true, dropWhile (isDigitIn 10) t)
          else ([], false, r)
      | [] => ([], false, r)
      end in
    match ip, fp with
    | [], [] => NotANumber
    | _, _ =>
        match exponentPart r' with
        | Some e => Dec neg (digitsValue 10 (ip ++ fp)) (e - len fp)
        | None => NotANumber
        end
    end.

(** [NonDecimalIntegerLiteral]: [0x], [0o] and [0b] literals, unsigned *)
Definition nonDecimal (l : list ascii) : option Number :=
  match l with
  | z :: p :: ds =>
      if Ascii.eqb z "0" then
        let radix :=
          if (Ascii.eqb p "x" || Ascii.eqb p "X")%bool then 16
          else if (Ascii.eqb p "o" || Ascii.eqb p "O")%bool then 8
          else if (Ascii.eqb p "b" || Ascii.eqb p "B")%bool then 2
          else 0 in
        if radix =? 0 then None
        else match ds with
             | [] => Some NotANumber
             | _ => if forallb (isDigitIn radix) ds
                    then Some (Dec false (digitsValue radix ds) 0)
                    else Some NotANumber
             end
      else None
  | _ => None
  end.

(** [StringToNumber]: the conversion applied to a string by [isNaN] and by
    a comparison with a number. *)
Definition toNumber (s : string) : Number :=
  let l := trimChars (chars s) in
  match l with
  | [] => Dec false 0 0
  | c :: r =>
      match nonDecimal l with
      | Some n => n
      | None =>
          if Ascii.eqb c "-" then unsignedDecimal true r
          else if Ascii.eqb c "+" then unsignedDecimal false r
          else unsignedDecimal false l
      end
  end.

(** [isNaN(s)] *)
Definition isNaN (s : string) : bool :=
  match toNumber s with NotANumber => true | _ => false end.

(** A positive decimal [m * 10^e] that rounds to the double [0]: it is at
    most [2^-1075], half of the least positive double. *)
Definition roundsToZero (m e : Z) : bool :=
  (e <? 0) && (m * 2 ^ 1075 <=? 10 ^ (- e)).

(** [s <= 0] for a string [s] (false on [NaN]) *)
Definition stringLeZero (s : string) : bool :=
  match toNumber s with
  | NotANumber => false
  | Infinite neg => neg
  | Dec neg m e => neg || (m =? 0) || roundsToZero m e
  end.

(** [parseInt(s)] with no radix: leading white space, a sign, an optional
    [0x] prefix, then the longest run of digits; [NaN] when that is empty. *)
Definition parseInt (s : string) : Num :=
  let l := trimStart (chars s) in
  let '(neg, l1) :=
    match l with
    | c :: r =>
        if Ascii.eqb c "-" then (true, r)
        else if Ascii.eqb c "+" then (false, r)
        else (false, l)
    | [] => (false, l)
    end in
  let '(radix, l2) :=
    match l1 with
    | z :: p :: r =>
        if (Ascii.eqb z "0" && (Ascii.eqb p "x" || Ascii.eqb p "X"))%bool
        then (16, r) else (10, l1)
    | _ => (10, l1)
    end in
  match takeWhile (isDigitIn radix) l2 with
  | [] => NaN
  | ds => Int (if neg then - digitsValue radix ds else digitsValue radix ds)
  end.

End Js.


(* ------------------------------------------------------------------ *)
(** * Data model *)

(** A task object, as built by [addTask]. *)
Record Task := mkTask {
  id : string;
  text : string;
  completed : bool;
  createdAt : Z;
  dueDate : option string;
  dueTime : option string;
  location : option string }.

(** One entry of [stats.contributionData]. *)
Module Day.
Record t := mk {
  date : Z;
  tasks : Z;
  pomodoros : Z;
  totalActivity : Z }.
End Day.

(** [this.stats] *)
Record Stats := mkStats {
  tasksCompletedToday : Z;
  totalFocusTime : Js.Num;
  streak : Z;
  lastStatsDate : Z;
  contributionData : list Day.t }.

(** The fields of a [TodoApp] that the task store, the history, the
    statistics and the focus timer own.  [timerInterval] and
    [liveClockInterval] record whether the interval is armed;
    [currentTask] is a reference to a task object, kept as its value. *)
Record App := mkApp {
  tasks : list Task;
  recentLocations : list string;
  editingTaskId : option string;
  focusModeActive : bool;
  timerInterval : bool;
  liveClockInterval : bool;
  timerDuration : Js.Num;
  timeRemaining : Js.Num;
  timerPaused : bool;
  currentTask : option Task;
  isBreakTime : bool;
  pomodoroCount : Z;
  pomodorosToday : Z;
  _activeCount : Z;
  _completedCount : Z;
  history : list (list Task);
  historyIndex : Z;
  stats : Stats }.

Definition maxHistorySize : Z := 50.

(** ** Field updates *)

Definition withCompleted (b : bool) (t : Task) : Task :=
  mkTask (id t) (text t) b (createdAt t) (dueDate t) (dueTime t) (location t).

Definition withTasksCompletedToday (v : Z) (st : Stats) : Stats :=
  mkStats v (totalFocusTime st) (streak st) (lastStatsDate st) (contributionData st).

Definition withTotalFocusTime (v : Js.Num) (st : Stats) : Stats :=
  mkStats (tasksCompletedToday st) v (streak st) (lastStatsDate st) (contributionData st).

Definition withStreak (v : Z) (st : Stats) : Stats :=
  mkStats (tasksCompletedToday st) (totalFocusTime st) v (lastStatsDate st) (contributionData st).

Definition withLastStatsDate (v : Z) (st : Stats) : Stats :=
  mkStats (tasksCompletedToday st) (totalFocusTime st) (streak st) v (contributionData st).

Definition withContributionData (v : list Day.t) (st : Stats) : Stats :=
  mkStats (tasksCompletedToday st) (totalFocusTime st) (streak st) (lastStatsDate st) v.

Definition withTasks (v : list Task) (s : App) : App :=
  mkApp v (recentLocations s) (editingTaskId s) (focusModeActive s)
    (timerInterval s) (liveClockInterval s) (timerDuration s) (timeRemaining s)
    (timerPaused s) (currentTask s) (isBreakTime s) (pomodoroCount s)
    (pomodorosToday s) (_activeCount s) (_completedCount s) (history s)
    (historyIndex s) (stats s).

Definition withRecentLocations (v : list string) (s : App) : App :=
  mkApp (tasks s) v (editingTaskId s) (focusModeActive s)
    (timerInterval s) (liveClockInterval s) (timerDuration s) (timeRemaining s)
    (timerPaused s) (currentTask s) (isBreakTime s) (pomodoroCount s)
    (pomodorosToday s) (_activeCount s) (_completedCount s) (history s)
    (historyIndex s) (stats s).

Definition withEditingTaskId (v : option string) (s : App) : App :=
  mkApp (tasks s) (recentLocations s) v (focusModeActive s)
    (timerInterval s) (liveClockInterval s) (timerDuration s) (timeRemaining s)
    (timerPaused s) (currentTask s) (isBreakTime s) (pomodoroCount s)
    (pomodorosToday s) (_activeCount s) (_completedCount s) (history s)
    (historyIndex s) (stats s).

(** The fields written by the focus timer, in the order of the record. *)
Definition withTimer (active interval clock : bool) (duration remaining : Js.Num)
  (paused : bool) (task : option Task) (break : bool) (s : App) : App :=
  mkApp (tasks s) (recentLocations s) (editingTaskId s) active
    interval clock duration remaining
    paused task break (pomodoroCount s)
    (pomodorosToday s) (_activeCount s) (_completedCount s) (history s)
    (historyIndex s) (stats s).

Definition withTimeRemaining (v : Js.Num) (s : App) : App :=
  withTimer (focusModeActive s) (timerInterval s) (liveClockInterval s)
    (timerDuration s) v (timerPaused s) (currentTask s) (isBreakTime s) s.

Definition withTimerPaused (v : bool) (s : App) : App :=
  withTimer (focusModeActive s) (timerInterval s) (liveClockInterval s)
    (timerDuration s) (timeRemaining s) v (currentTask s) (isBreakTime s) s.

Definition withPomodoros (count today : Z) (s : App) : App :=
  mkApp (tasks s) (recentLocations s) (editingTaskId s) (focusModeActive s)
    (timerInterval s) (liveClockInterval s) (timerDuration s) (timeRemaining s)
    (timerPaused s) (currentTask s) (isBreakTime s) count
    today (_activeCount s) (_completedCount s) (history s)
    (historyIndex s) (stats s).

Definition withCounters (active done : Z) (s : App) : App :=
  mkApp (tasks s) (recentLocations s) (editingTaskId s) (focusModeActive s)
    (timerInterval s) (liveClockInterval s) (timerDuration s) (timeRemaining s)
    (timerPaused s) (currentTask s) (isBreakTime s) (pomodoroCount s)
    (pomodorosToday s) active done (history s)
    (historyIndex s) (stats s).

Definition withHistory (h : list (list Task)) (i : Z) (s : App) : App :=
  mkApp (tasks s) (recentLocations s) (editingTaskId s) (focusModeActive s)
    (timerInterval s) (liveClockInterval s) (timerDuration s) (timeRemaining s)
    (timerPaused s) (currentTask s) (isBreakTime s) (pomodoroCount s)
    (pomodorosToday s) (_activeCount s) (_completedCount s) h
    i (stats s).

Definition withStats (v : Stats) (s : App) : App :=
  mkApp (tasks s) (recentLocations s) (editingTaskId s) (focusModeActive s)
    (timerInterval s) (liveClockInterval s) (timerDuration s) (timeRemaining s)
    (timerPaused s) (currentTask s) (isBreakTime s) (pomodoroCount s)
    (pomodorosToday s) (_activeCount s) (_completedCount s) (history s)
    (historyIndex s) v.

(** [t => t.id === i] *)
Definition hasId (i : string) (t : Task) : bool := String.eqb (id t) i.

(** [d => d.date === day] *)
Definition isDate (day : Z) (d : Day.t) : bool := Day.date d =? day.

(* ------------------------------------------------------------------ *)
(** * Statistics: the contribution window and the streak *)

Definition daysToShow : nat := 84.

(** The loop of [initContributionData], [i] running from [n - 1] down to 0. *)
Fixpoint initContributionLoop (n : nat) (today : Z) : list Day.t :=
  match n with
  | O => []
  | S i => Day.mk (today - Z.of_nat i) 0 0 0 :: initContributionLoop i today
  end.

Definition initContributionData (today : Z) : list Day.t :=
  initContributionLoop daysToShow today.

(** The loop of [updateStreak]: [n] is [i + 1], and the loop stops at the
    first entry without activity. *)
Fixpoint streakLoop (cd : list Day.t) (n : nat) (acc : Z) : Z :=
  match n with
  | O => acc
  | S i =>
      match nth_error cd i with
      | Some d => if 0 <? Day.totalActivity d then streakLoop cd i (acc + 1) else acc
      | None => acc
      end
  end.

Definition updateStreak (st : Stats) : Stats :=
  withStreak (streakLoop (contributionData st) (length (contributionData st)) 0) st.

(** [None] is the [TypeError] of reading [.date] of the last entry of an
    empty window. *)
Definition updateContributionData (today : Z) (st : Stats) : option Stats :=
  match Js.lastElt (contributionData st) with
  | None => None
  | Some lastDay =>
      if negb (Day.date lastDay =? today) then
        Some (withContributionData
                (Js.push (Js.shift (contributionData st)) (Day.mk today 0 0 0)) st)
      else Some st
  end.

Definition checkDailyReset (today : Z) (st : Stats) : option Stats :=
  if negb (lastStatsDate st =? today) then
    updateContributionData today
      (withLastStatsDate today (withTasksCompletedToday 0 st))
  else Some st.

Definition incrementTasksCompleted (today : Z) (st : Stats) : Stats :=
  let st := withTasksCompletedToday (tasksCompletedToday st + 1) st in
  let bump (d : Day.t) :=
    Day.mk (Day.date d) (Day.tasks d + 1) (Day.pomodoros d)
      (Day.tasks d + 1 + Day.pomodoros d) in
  let st := withContributionData
              (Js.updateFirst (isDate today) bump (contributionData st)) st in
  updateStreak st.

Definition decrementTasksCompleted (today : Z) (st : Stats) : Stats :=
  if 0 <? tasksCompletedToday st then
    let st := withTasksCompletedToday (tasksCompletedToday st - 1) st in
    let drop (d : Day.t) :=
      if 0 <? Day.tasks d then
        Day.mk (Day.date d) (Day.tasks d - 1) (Day.pomodoros d)
          (Day.tasks d - 1 + Day.pomodoros d)
      else d in
    withContributionData
      (Js.updateFirst (isDate today) drop (contributionData st)) st
  else st.

Definition incrementPomodoros (today : Z) (st : Stats) : Stats :=
  let bump (d : Day.t) :=
    Day.mk (Day.date d) (Day.tasks d) (Day.pomodoros d + 1)
      (Day.tasks d + (Day.pomodoros d + 1)) in
  withContributionData
    (Js.updateFirst (isDate today) bump (contributionData st)) st.

Definition addFocusTime (minutes : Js.Num) (st : Stats) : Stats :=
  withTotalFocusTime (Js.plus (totalFocusTime st) minutes) st.

(** [stats.contributionData.find(d => d.date === today).tasks] *)
Definition todayTasks (today : Z) (st : Stats) : option Z :=
  option_map Day.tasks (find (isDate today) (contributionData st)).

(* ------------------------------------------------------------------ *)
(** * Undo/redo history *)

Definition saveState (s : App) : App :=
  let state := Js.jsonClone (tasks s) in
  let h :=
    if historyIndex s <? Js.len (history s) - 1
    then Js.slice 0 (historyIndex s + 1) (history s)
    else history s in
  let h := Js.push h state in
  if maxHistorySize <? Js.len h
  then withHistory (Js.shift h) (historyIndex s) s
  else withHistory h (historyIndex s + 1) s.

(** The loop of [recalculateCounters], with the two counters it builds. *)
Fixpoint recalculateLoop (l : list Task) (active done : Z) : Z * Z :=
  match l with
  | [] => (active, done)
  | t :: r =>
      if completed t then recalculateLoop r active (done + 1)
      else recalculateLoop r (active + 1) done
  end.

Definition recalculateCounters (s : App) : App :=
  let '(active, done) := recalculateLoop (tasks s) 0 0 in
  withCounters active done s.

(** [history[historyIndex]] is [undefined] only outside the bounds of the
    history; the JSON round trip then throws, after the cursor has moved
    and before [tasks] is assigned. *)
Definition restoreAt (i : Z) (s : App) : App :=
  let s := withHistory (history s) i s in
  match Js.index (history s) i with
  | Some snapshot => recalculateCounters (withTasks (Js.jsonClone snapshot) s)
  | None => s
  end.

Definition undo (s : App) : App :=
  if historyIndex s <=? 0 then s
  else restoreAt (historyIndex s - 1) s.

Definition redo (s : App) : App :=
  if Js.len (history s) - 1 <=? historyIndex s then s
  else restoreAt (historyIndex s + 1) s.

(* ------------------------------------------------------------------ *)
(** * Task store *)

Definition addRecentLocation (loc : string) (s : App) : App :=
  let trimmed := Js.trim loc in
  if Js.falsy trimmed then s
  else
    let l := filter (fun x => negb (String.eqb x trimmed)) (recentLocations s) in
    withRecentLocations (Js.slice 0 10 (Js.unshift trimmed l)) s.

(** [addTask], reading the four form fields and [Date.now()]. *)
Definition addTask (taskInput dueDateInput dueTimeInput locationInput : string)
  (now : Z) (s : App) : App :=
  let txt := Js.trim taskInput in
  if Js.falsy txt then s
  else
    let s := saveState s in
    let task := mkTask (Js.toString now) txt false now
                  (Js.orNull dueDateInput) (Js.orNull dueTimeInput)
                  (Js.orNull (Js.trim locationInput)) in
    let s := withTasks (Js.unshift task (tasks s)) s in
    let s := withCounters (_activeCount s + 1) (_completedCount s) s in
    match location task with
    | Some loc => addRecentLocation loc s
    | None => s
    end.

Definition deleteTask (i : string) (s : App) : App :=
  let s := saveState s in
  let task := find (hasId i) (tasks s) in
  let s :=
    match task with
    | Some t =>
        if completed t
        then withCounters (_activeCount s) (_completedCount s - 1) s
        else withCounters (_activeCount s - 1) (_completedCount s) s
    | None => s
    end in
  withTasks (filter (fun t => negb (hasId i t)) (tasks s)) s.

Definition toggleTask (today : Z) (i : string) (s : App) : App :=
  let s := saveState s in
  match find (hasId i) (tasks s) with
  | Some task =>
      let wasCompleted := completed task in
      let s := withTasks
                 (Js.updateFirst (hasId i)
                    (fun t => withCompleted (negb (completed t)) t) (tasks s)) s in
      let nowCompleted := negb wasCompleted in
      if negb wasCompleted && nowCompleted then
        withStats (incrementTasksCompleted today (stats s))
          (withCounters (_activeCount s - 1) (_completedCount s + 1) s)
      else if wasCompleted && negb nowCompleted then
        withStats (decrementTasksCompleted today (stats s))
          (withCounters (_activeCount s + 1) (_completedCount s - 1) s)
      else s
  | None => s
  end.

(** The first [forEach] of [toggleAllTasks]: every completed task is marked
    incomplete and reported to the statistics, in list order. *)
Fixpoint markAllIncomplete (today : Z) (l : list Task) (st : Stats)
  : list Task * Stats :=
  match l with
  | [] => ([], st)
  | t :: r =>
      if completed t then
        let '(r', st') := markAllIncomplete today r (decrementTasksCompleted today st) in
        (withCompleted false t :: r', st')
      else
        let '(r', st') := markAllIncomplete today r st in
        (t :: r', st')
  end.

(** The second [forEach] of [toggleAllTasks]. *)
Fixpoint markAllComplete (today : Z) (l : list Task) (st : Stats)
  : list Task * Stats :=
  match l with
  | [] => ([], st)
  | t :: r =>
      if negb (completed t) then
        let '(r', st') := markAllComplete today r (incrementTasksCompleted today st) in
        (withCompleted true t :: r', st')
      else
        let '(r', st') := markAllComplete today r st in
        (t :: r', st')
  end.

Definition toggleAllTasks (today : Z) (s : App) : App :=
  let s := saveState s in
  let allCompleted := _completedCount s =? Js.len (tasks s) in
  if allCompleted then
    let '(l, st) := markAllIncomplete today (tasks s) (stats s) in
    let s := withStats st (withTasks l s) in
    withCounters (Js.len (tasks s)) 0 s
  else
    let '(l, st) := markAllComplete today (tasks s) (stats s) in
    let s := withStats st (withTasks l s) in
    withCounters 0 (Js.len (tasks s)) s.

Definition clearCompletedTasks (s : App) : App :=
  let s := saveState s in
  let s := withTasks (filter (fun t => negb (completed t)) (tasks s)) s in
  withCounters (_activeCount s) 0 s.

Definition saveEdit (i newText newDueDate newDueTime newLocation : string)
  (s : App) : App :=
  let trimmedText := Js.trim newText in
  if Js.falsy trimmedText then deleteTask i s
  else
    let s := saveState s in
    let loc := Js.orNull (Js.trim newLocation) in
    let s :=
      match find (hasId i) (tasks s) with
      | Some _ =>
          let edit (t : Task) :=
            mkTask (id t) trimmedText (completed t) (createdAt t)
              (Js.orNull newDueDate) (Js.orNull newDueTime) loc in
          let s := withTasks (Js.updateFirst (hasId i) edit (tasks s)) s in
          match loc with
          | Some l => addRecentLocation l s
          | None => s
          end
      | None => s
      end in
    withEditingTaskId None s.

(** A [.task-item] element of the rendered list: the identity of the node
    and its [data-id]. *)
Record Element := mkElement { node : nat; dataId : string }.

Definition sameNode (a b : Element) : bool := Nat.eqb (node a) (node b).

(** [handleDrop], reading [this.draggedElement] and the [.task-item] that
    encloses the event's target.  With no dragged element the read of
    [draggedElement.dataset] throws after [saveState].  On an empty task
    list the first [splice] removes nothing and the source would insert
    [undefined], a value no [list Task] holds: that case is left as the
    state reached after [saveState]; it needs a rendered task item and
    does not arise while the rendered list mirrors a non-empty [tasks]. *)
Definition handleDrop (draggedElement dropTarget : option Element) (s : App) : App :=
  match dropTarget with
  | None => s
  | Some target =>
      let same := match draggedElement with
                  | Some d => sameNode target d
                  | None => false
                  end in
      if same then s
      else
        let s := saveState s in
        match draggedElement with
        | None => s
        | Some dragged =>
            let draggedId := dataId dragged in
            let targetId := dataId target in
            let draggedIndex := Js.findIndex (hasId draggedId) (tasks s) in
            let targetIndex := Js.findIndex (hasId targetId) (tasks s) in
            let '(removed, rest) := Js.spliceOut draggedIndex (tasks s) in
            match removed with
            | x :: _ => withTasks (Js.spliceIn targetIndex x rest) s
            | [] => s
            end
        end
  end.

(* ------------------------------------------------------------------ *)
(** * Start-up: the constructor and [loadFromStorage] *)

(** The result of [localStorage.getItem] followed by [JSON.parse]: no item,
    an item that does not parse, or the parsed value, of the shape that the
    application stores under that key.  An item that parses to a value of
    another shape is not described. *)
Inductive Saved (A : Type) : Type :=
| Missing
| Garbled
| Parsed (a : A).
Arguments Missing {A}.
Arguments Garbled {A}.
Arguments Parsed {A} a.

(** An entry of the older [weeklyData]; a missing counter is [None]. *)
Record WeekDay := mkWeekDay {
  weekDate : Z;
  weekTasks : option Z;
  weekPomodoros : option Z }.

(** The stored statistics: [contributionData] and [weeklyData] may be
    missing. *)
Record SavedStats := mkSavedStats {
  savedTasksCompletedToday : Z;
  savedTotalFocusTime : Js.Num;
  savedStreak : Z;
  savedLastStatsDate : Z;
  savedContributionData : option (list Day.t);
  savedWeeklyData : option (list WeekDay) }.

Record Storage := mkStorage {
  savedTasks : Saved (list Task);
  savedLocations : Saved (list string);
  savedStats : Saved SavedStats }.

(** [n || 0] *)
Definition orZero (n : option Z) : Z :=
  match n with Some z => z | None => 0 end.

(** The [forEach] that copies [weeklyData] into a fresh window. *)
Definition migrateWeeklyData (week : list WeekDay) (cd : list Day.t) : list Day.t :=
  fold_left
    (fun cd day =>
       let copy (c : Day.t) :=
         Day.mk (Day.date c) (orZero (weekTasks day)) (orZero (weekPomodoros day))
           (orZero (weekTasks day) + orZero (weekPomodoros day)) in
       Js.updateFirst (isDate (weekDate day)) copy cd)
    week cd.

Definition loadStats (today : Z) (ss : SavedStats) : Stats :=
  let cd :=
    match savedContributionData ss, savedWeeklyData ss with
    | Some cd, _ => cd
    | None, Some week => migrateWeeklyData week (initContributionData today)
    | None, None => initContributionData today
    end in
  mkStats (savedTasksCompletedToday ss) (savedTotalFocusTime ss) (savedStreak ss)
    (savedLastStatsDate ss) cd.

(** [None]: the [TypeError] of [updateContributionData] on an empty window
    leaves the constructor, and no application object is built. *)
Definition loadFromStorage (ls : Storage) (today : Z) (s : App) : option App :=
  let s :=
    match savedTasks ls with
    | Missing => s
    | Parsed l => recalculateCounters (withTasks l s)
    | Garbled => withCounters 0 0 (withTasks [] s)
    end in
  let s :=
    match savedLocations ls with
    | Missing => s
    | Parsed l => withRecentLocations l s
    | Garbled => withRecentLocations [] s
    end in
  let s :=
    match savedStats ls with
    | Missing | Garbled => s
    | Parsed ss => withStats (loadStats today ss) s
    end in
  match checkDailyReset today (stats s) with
  | Some st => Some (withStats st s)
  | None => None
  end.

(** The state the constructor assigns before it loads the storage. *)
Definition initialApp (today : Z) : App :=
  mkApp [] [] None false false false (Js.Int 0) (Js.Int 0) false None false
    0 0 0 0 [] (-1)
    (mkStats 0 (Js.Int 0) 0 today (initContributionData today)).

Definition constructor (ls : Storage) (today : Z) : option App :=
  loadFromStorage ls today (initialApp today).

Definition emptyStorage : Storage := mkStorage Missing Missing Missing.

(* ------------------------------------------------------------------ *)
(** * Focus timer *)

(** What a timer callback shows to the user, in the order it happens. *)
Inductive Event :=
| Notification (title body : string)
| Confirm (breakMinutes : Z)
| Alert
| UncaughtTypeError.

(** [startFocusMode], reading the answer to [prompt] ([None] is [null],
    the prompt cancelled). *)
Definition startFocusMode (taskId : string) (answer : option string) (s : App) : App :=
  match find (hasId taskId) (tasks s) with
  | None => s
  | Some task =>
      match answer with
      | None => s
      | Some minutes =>
          if Js.falsy minutes || Js.isNaN minutes || Js.stringLeZero minutes then s
          else
            let duration := Js.times (Js.parseInt minutes) 60 in
            withTimer true true true duration duration false (Some task)
              (isBreakTime s) s
      end
  end.

Definition pauseFocusTimer (s : App) : App := withTimerPaused true s.

Definition resumeFocusTimer (s : App) : App := withTimerPaused false s.

Definition cleanupFocusMode (s : App) : App :=
  withTimer false false false (Js.Int 0) (Js.Int 0) false None false s.


Definition startBreak (minutes : Z) (s : App) : App :=
  let duration := Js.Int (minutes * 60) in
  withTimer true true true duration duration false (currentTask s) true s.

(** [timerComplete], reading the day, whether [Notification.permission] is
    ['granted'], and the answer to the [confirm] that offers the break.
    The body of the first notification reads [this.currentTask.text]. *)
Definition timerComplete (today : Z) (granted takeBreak : bool) (s : App)
  : App * list Event :=
  if negb (isBreakTime s) then
    let s := withPomodoros (pomodoroCount s + 1) (pomodorosToday s + 1) s in
    let s := withStats (incrementPomodoros today (stats s)) s in
    let sessionMinutes := Js.roundDiv60 (timerDuration s) in
    let s := withStats (addFocusTime sessionMinutes (stats s)) s in
    let isLongBreak := Z.rem (pomodoroCount s) 4 =? 0 in
    let breakDuration := if isLongBreak then 15 else 5 in
    let s := cleanupFocusMode s in
    let offer (shown : list Event) :=
      if takeBreak
      then (startBreak breakDuration s, shown ++ [Confirm breakDuration])
      else (s, shown ++ [Confirm breakDuration]) in
    if granted then
      match currentTask s with
      | None => (s, [UncaughtTypeError])
      | Some task =>
          offer [Notification "Focus Session Complete!"
                   ("You completed: " ++ text task)]
      end
    else offer []
  else
    let s := cleanupFocusMode s in
    if granted
    then (s, [Notification "Break Complete!" "Time to get back to work! 💪"; Alert])
    else (s, [Alert]).

(** The callback that [startCountdown] hands to [setInterval]; it runs only
    while the interval is armed.  The interval is the one that
    [this.timerInterval] holds: [startCountdown] does not clear an interval
    it replaces, and the callbacks of such an interval are not among the
    ones this function describes. *)
Definition tick (today : Z) (granted takeBreak : bool) (s : App)
  : App * list Event :=
  if negb (timerInterval s) then (s, [])
  else if negb (timerPaused s) then
    let s := withTimeRemaining (Js.decr (timeRemaining s)) s in
    if Js.leZero (timeRemaining s)
    then timerComplete today granted takeBreak s
    else (s, [])
  else (s, []).

(** [n] firings of the callback, with what they showed. *)
Fixpoint ticks (n : nat) (today : Z) (granted takeBreak : bool) (s : App)
  : App * list Event :=
  match n with
  | O => (s, [])
  | S k =>
      let '(s1, e1) := tick today granted takeBreak s in
      let '(s2, e2) := ticks k today granted takeBreak s1 in
      (s2, e1 ++ e2)
  end.

(* ------------------------------------------------------------------ *)
(** * Sequences of task-store operations *)

Inductive Op :=
| AddTask (taskInput dueDateInput dueTimeInput locationInput : string) (now : Z)
| DeleteTask (i : string)
| ToggleTask (today : Z) (i : string)
| SaveEdit (i newText newDueDate newDueTime newLocation : string)
| ToggleAllTasks (today : Z)
| ClearCompletedTasks
| HandleDrop (draggedElement dropTarget : option Element)
| Undo
| Redo.

Definition step (o : Op) (s : App) : App :=
  match o with
  | AddTask t d h l now => addTask t d h l now s
  | DeleteTask i => deleteTask i s
  | ToggleTask today i => toggleTask today i s
  | SaveEdit i t d h l => saveEdit i t d h l s
  | ToggleAllTasks today => toggleAllTasks today s
  | ClearCompletedTasks => clearCompletedTasks s
  | HandleDrop d t => handleDrop d t s
  | Undo => undo s
  | Redo => redo s
  end.

Definition run (ops : list Op) (s : App) : App :=
  fold_left (fun s o => step o s) ops s.

(** The states of an application: built by the constructor from some
    storage, then driven by any operations.  The functions of the focus
    timer are not among them: they write neither the task list, nor the
    counters, nor the history ([tick_frame], [startFocusMode_frame]). *)
Definition reachable (s : App) : Prop :=
  exists ls today s0 ops, constructor ls today = Some s0 /\ s = run ops s0.

(** ** The properties of the state *)

Definition completedOf (l : list Task) : Z :=
  Js.len (filter completed l).

Definition countersConsistent (s : App) : Prop :=
  _activeCount s + _completedCount s = Js.len (tasks s) /\
  _completedCount s = completedOf (tasks s).

Definition historyBounded (s : App) : Prop :=
  -1 <= historyIndex s < Js.len (history s) /\
  Js.len (history s) <= maxHistorySize /\
  (historyIndex s = -1 -> history s = []).

(** The history and its cursor, as one value. *)
Definition historyOf (s : App) : list (list Task) * Z := (history s, historyIndex s).

Definition ids (l : list Task) : list string := map id l.

(** No two tasks of the list, and no two tasks of any snapshot, share an
    id. *)
Definition distinctIds (s : App) : Prop :=
  NoDup (ids (tasks s)) /\ Forall (fun l => NoDup (ids l)) (history s).

(** An operation whose inputs keep ids distinct and the rendered list in
    step with [tasks]: a task is added at a clock reading that is not the
    id of a task of the list, and a drop lands on a rendered task item. *)
Definition opAdmissible (s : App) (o : Op) : Prop :=
  match o with
  | AddTask _ _ _ _ now => ~ In (Js.toString now) (ids (tasks s))
  | HandleDrop _ (Some target) => In (dataId target) (ids (tasks s))
  | _ => True
  end.

Fixpoint admissible (s : App) (ops : list Op) : Prop :=
  match ops with
  | [] => True
  | o :: r => opAdmissible s o /\ admissible (step o s) r
  end.

(** The last six entries of a window, oldest first. *)
Definition lastSix (cd : list Day.t) : list Day.t :=
  skipn (length cd - 6) cd.

(** A stored task list in which no two tasks share an id. *)
Definition storageDistinct (ls : Storage) : Prop :=
  match savedTasks ls with
  | Parsed l => NoDup (ids l)
  | _ => True
  end.

(* ------------------------------------------------------------------ *)
(** * The filtered view, the statistics display and the notifications *)

(** [handleRouting], for the filter it stores: reading [location.hash]. *)
Definition handleRouting (hash : string) : string :=
  if String.eqb hash "#/active" then "active"
  else if String.eqb hash "#/completed" then "completed"
  else "all".

(** [getFilteredTasks], reading [this.currentFilter]. *)
Definition getFilteredTasks (currentFilter : string) (s : App) : list Task :=
  if String.eqb currentFilter "active" then
    filter (fun task => negb (completed task)) (tasks s)
  else if String.eqb currentFilter "completed" then
    filter (fun task => completed task) (tasks s)
  else tasks s.

(** [checkForCompletion], reading and writing [hasShownCelebration]: whether
    [showCelebration] is called, and the flag afterwards. *)
Definition checkForCompletion (hasShownCelebration : bool) (s : App) : bool * bool :=
  let activeTasks := filter (fun t => negb (completed t)) (tasks s) in
  let completedTasks := filter (fun t => completed t) (tasks s) in
  let celebrate :=
    (0 <? Js.len completedTasks) && (Js.len activeTasks =? 0)
    && negb hasShownCelebration in
  let flag := if celebrate then true else hasShownCelebration in
  let flag := if 0 <? Js.len activeTasks then false else flag in
  (celebrate, flag).

(** [checkForCompletion] after each of a run of states, as [updateUI] calls
    it: the calls of [showCelebration], and the last flag. *)
Fixpoint checkForCompletions (flag : bool) (states : list App) : list bool * bool :=
  match states with
  | [] => ([], flag)
  | s :: r =>
      let '(celebrate, flag1) := checkForCompletion flag s in
      let '(rest, flag2) := checkForCompletions flag1 r in
      (celebrate :: rest, flag2)
  end.

(** [Math.max(...contributionData.map(d => d.totalActivity), 1)] *)
Definition maxActivity (cd : list Day.t) : Z :=
  fold_left Z.max (map Day.totalActivity cd) 1.

(** The level of a day in [renderContributionGraph].  The source compares
    the quotient [totalActivity / maxActivity] with 0.25, 0.5 and 0.75;
    these three are doubles, the division is correctly rounded, and for
    integers below [2^52] no quotient other than the bound itself rounds to
    the bound, so each comparison is the comparison of the integers. *)
Definition activityLevel (maxAct : Z) (d : Day.t) : Z :=
  if 0 <? Day.totalActivity d then
    if 4 * Day.totalActivity d <=? maxAct then 1
    else if 2 * Day.totalActivity d <=? maxAct then 2
    else if 4 * Day.totalActivity d <=? 3 * maxAct then 3
    else 4
  else 0.

(** The levels that [renderContributionGraph] gives the days of the window. *)
Definition contributionLevels (st : Stats) : list Z :=
  map (activityLevel (maxActivity (contributionData st))) (contributionData st).

(** [activeDays] of [updateStatsDisplay] *)
Definition activeDays (st : Stats) : Z :=
  Js.len (filter (fun d => 0 <? Day.totalActivity d) (contributionData st)).

(** A JavaScript [Set] of strings, in insertion order. *)
Definition setHas (x : string) (l : list string) : bool :=
  existsb (String.eqb x) l.

Definition setAdd (x : string) (l : list string) : list string :=
  if setHas x l then l else l ++ [x].

(** The options of [sendNotification] that depend on the task: its body. *)
Definition sendNotification (task : Task) : Event :=
  Notification "Task Due"
    (match location task with
     | Some loc => text task ++ String "010"%char ("📍 " ++ loc)
     | None => text task
     end).

(** The guards of the [forEach] of [checkDueTasks], in their order: the
    task is not completed, has a due date and a due time, is not in the set
    of notified ids, and is due within a minute of the clock ([nowTime]).
    [dueInstant] is [new Date(date + 'T' + time).getTime()], [NaN] for a
    date that does not parse; no comparison holds of [NaN]. *)
Definition isDue (nowTime : Z) (dueInstant : string -> string -> Js.Num)
  (notifiedTasks : list string) (task : Task) : bool :=
  if completed task then false
  else
    match dueDate task, dueTime task with
    | Some date, Some time =>
        if Js.falsy date || Js.falsy time then false
        else if setHas (id task) notifiedTasks then false
        else
          match dueInstant date time with
          | Js.Int dueAt =>
              let timeDiff := dueAt - nowTime in
              (timeDiff <=? 60000) && (-60000 <=? timeDiff)
          | Js.NaN => false
          end
    | _, _ => false
    end.

(** The [forEach] of [checkDueTasks]: the set of notified ids afterwards
    and the tasks handed to [sendNotification], in order. *)
Fixpoint checkDueLoop (nowTime : Z) (dueInstant : string -> string -> Js.Num)
  (l : list Task) (notifiedTasks : list string) : list string * list Task :=
  match l with
  | [] => (notifiedTasks, [])
  | task :: r =>
      if isDue nowTime dueInstant notifiedTasks task then
        let '(n, sent) :=
          checkDueLoop nowTime dueInstant r (setAdd (id task) notifiedTasks) in
        (n, task :: sent)
      else checkDueLoop nowTime dueInstant r notifiedTasks
  end.

(** [checkDueTasks], reading whether [Notification.permission] is
    ['granted']. *)
Definition checkDueTasks (granted : bool) (nowTime : Z)
  (dueInstant : string -> string -> Js.Num)
  (notifiedTasks : list string) (s : App) : list string * list Task :=
  if negb granted then (notifiedTasks, [])
  else checkDueLoop nowTime dueInstant (tasks s) notifiedTasks.

(** Dates that follow one another day by day. *)
Fixpoint consecutiveDays (l : list Z) : Prop :=
  match l with
  | [] => True
  | d :: r =>
      match r with
      | [] => True
      | e :: _ => e = d + 1 /\ consecutiveDays r
      end
  end.

(** [n] applications of [undo]. *)
Fixpoint undoTimes (n : nat) (s : App) : App :=
  match n with
  | O => s
  | S k => undoTimes k (undo s)
  end.

(** Reduction of a field read from a field update. *)
Ltac fields :=
  cbn [tasks recentLocations editingTaskId focusModeActive timerInterval
       liveClockInterval timerDuration timeRemaining timerPaused currentTask
       isBreakTime pomodoroCount pomodorosToday _activeCount _completedCount
       history historyIndex stats
       withTasks withRecentLocations withEditingTaskId withTimer
       withTimeRemaining withTimerPaused withPomodoros withCounters
       withHistory withStats] in *.

(* ================================================================== *)
(** * Properties *)

(** ** The conversions of strings, on samples *)

Example toNumber_samples :
  Js.toNumber "25" = Js.Dec false 25 0 /\
  Js.toNumber " -5 " = Js.Dec true 5 0 /\
  Js.toNumber "abc" = Js.NotANumber /\
  Js.toNumber "2.50e1" = Js.Dec false 250 (-1) /\
  Js.toNumber "0x1f" = Js.Dec false 31 0 /\
  Js.toNumber "-0x1f" = Js.NotANumber /\
  Js.toNumber "5." = Js.Dec false 5 0 /\
  Js.toNumber "." = Js.NotANumber /\
  Js.toNumber "25abc" = Js.NotANumber /\
  Js.toNumber "-Infinity" = Js.Infinite true /\
  Js.toNumber "   " = Js.Dec false 0 0.
Proof. vm_compute. repeat split. Qed.

Example stringLeZero_samples :
  Js.stringLeZero "0" = true /\
  Js.stringLeZero "-0.5" = true /\
  Js.stringLeZero "1e-400" = true /\
  Js.stringLeZero "1e-300" = false /\
  Js.stringLeZero "0.5" = false /\
  Js.stringLeZero "abc" = false.
Proof. vm_compute. repeat split. Qed.

Example parseInt_samples :
  Js.parseInt "25" = Js.Int 25 /\
  Js.parseInt " 25 min" = Js.Int 25 /\
  Js.parseInt "2.5" = Js.Int 2 /\
  Js.parseInt "0x10" = Js.Int 16 /\
  Js.parseInt "0.5" = Js.Int 0 /\
  Js.parseInt ".5" = Js.NaN /\
  Js.parseInt "Infinity" = Js.NaN.
Proof. vm_compute. repeat split. Qed.

Example toString_trim_samples :
  Js.toString 1700000000000 = "1700000000000"%string /\
  Js.trim "  a b  " = "a b"%string /\
  Js.trim "   " = ""%string /\
  Js.orNull "" = None /\
  Js.orNull "2024-01-01" = Some "2024-01-01"%string.
Proof. vm_compute. repeat split. Qed.

(** ** Lists and the array primitives *)

Lemma len_nonneg {A} (l : list A) : 0 <= Js.len l.
Proof. unfold Js.len. lia. Qed.

Lemma len_app {A} (l1 l2 : list A) : Js.len (l1 ++ l2) = Js.len l1 + Js.len l2.
Proof. unfold Js.len. rewrite length_app. lia. Qed.

Lemma len_cons {A} (x : A) (l : list A) : Js.len (x :: l) = Js.len l + 1.
Proof. unfold Js.len. cbn [length]. lia. Qed.

Lemma len_nil_inv {A} (l : list A) : Js.len l = 0 -> l = [].
Proof. destruct l; [easy|]. rewrite len_cons. pose proof (len_nonneg l). lia. Qed.

Lemma len_firstn {A} (n : Z) (l : list A) :
  0 <= n <= Js.len l -> Js.len (firstn (Z.to_nat n) l) = n.
Proof. unfold Js.len. intros H. rewrite length_firstn. lia. Qed.

Lemma len_tl {A} (l : list A) : l <> [] -> Js.len (tl l) = Js.len l - 1.
Proof. destruct l; [easy|]. intros _. cbn [tl]. rewrite len_cons. lia. Qed.

Lemma slice_prefix {A} (n : Z) (l : list A) :
  0 <= n <= Js.len l -> Js.slice 0 n l = firstn (Z.to_nat n) l.
Proof.
  intros H. unfold Js.slice, Js.relIndex.
  replace (0 <? 0) with false by reflexivity.
  destruct (n <? 0) eqn:E; [apply Z.ltb_lt in E; lia|].
  pose proof (len_nonneg l).
  rewrite (Z.min_l 0) by lia. rewrite (Z.min_l n) by lia.
  cbn [Z.to_nat skipn]. now rewrite Nat.sub_0_r.
Qed.

Lemma index_firstn {A} (l : list A) (n i : Z) :
  0 <= i < n -> Js.index (firstn (Z.to_nat n) l) i = Js.index l i.
Proof.
  intros H. unfold Js.index.
  destruct (i <? 0) eqn:E; [apply Z.ltb_lt in E; lia|].
  rewrite nth_error_firstn.
  destruct (Nat.ltb_spec (Z.to_nat i) (Z.to_nat n)); [reflexivity|lia].
Qed.

Lemma index_in_bounds {A} (l : list A) (i : Z) :
  0 <= i < Js.len l -> exists x, Js.index l i = Some x.
Proof.
  intros H. unfold Js.index.
  destruct (i <? 0) eqn:E; [apply Z.ltb_lt in E; lia|].
  destruct (nth_error l (Z.to_nat i)) eqn:N; [eauto|].
  apply nth_error_None in N. unfold Js.len in H. lia.
Qed.

Lemma index_In {A} (l : list A) (i : Z) (x : A) : Js.index l i = Some x -> In x l.
Proof.
  unfold Js.index. destruct (i <? 0); [easy|]. apply nth_error_In.
Qed.

Lemma lastElt_push {A} (l : list A) (x : A) : Js.lastElt (Js.push l x) = Some x.
Proof.
  unfold Js.lastElt, Js.push, Js.index. rewrite len_app.
  replace (Js.len [x]) with 1 by reflexivity.
  pose proof (len_nonneg l).
  destruct (Js.len l + 1 - 1 <? 0) eqn:E; [apply Z.ltb_lt in E; lia|].
  replace (Z.to_nat (Js.len l + 1 - 1)) with (length l) by (unfold Js.len; lia).
  rewrite nth_error_app2 by lia. now rewrite Nat.sub_diag.
Qed.

Lemma lastElt_tl_push {A} (l : list A) (x : A) :
  l <> [] -> Js.lastElt (tl (l ++ [x])) = Some x.
Proof.
  destruct l as [|y r]; [easy|]. intros _. cbn [app tl]. apply lastElt_push.
Qed.

Lemma find_none_filter (i : string) (l : list Task) :
  find (hasId i) l = None -> filter (fun t => negb (hasId i t)) l = l.
Proof.
  induction l as [|t r IH]; [reflexivity|]. cbn [find filter].
  destruct (hasId i t); [discriminate|]. intros H. cbn [negb]. now rewrite IH.
Qed.

Lemma find_updateFirst {A} (p : A -> bool) (f : A -> A) (l : list A) (x : A) :
  find p l = Some x -> p (f x) = true ->
  find p (Js.updateFirst p f l) = Some (f x).
Proof.
  induction l as [|y r IH]; [discriminate|]. cbn [find Js.updateFirst].
  destruct (p y) eqn:E.
  - intros [= <-] H. cbn [find]. now rewrite H.
  - intros H1 H2. cbn [find]. rewrite E. auto.
Qed.

Lemma updateFirst_twice {A} (p : A -> bool) (f g : A -> A) (l : list A) :
  (forall x, p x = true -> p (f x) = true) ->
  (forall x, p x = true -> g (f x) = x) ->
  Js.updateFirst p g (Js.updateFirst p f l) = l.
Proof.
  intros Hp Hg. induction l as [|y r IH]; [reflexivity|]. cbn [Js.updateFirst].
  destruct (p y) eqn:E; cbn [Js.updateFirst].
  - rewrite (Hp y E). now rewrite Hg.
  - rewrite E. now rewrite IH.
Qed.

(** ** The history *)

Lemma saveState_tasks (s : App) : tasks (saveState s) = tasks s.
Proof. unfold saveState. now destruct (maxHistorySize <? _). Qed.

Lemma saveState_counters (s : App) :
  _activeCount (saveState s) = _activeCount s /\
  _completedCount (saveState s) = _completedCount s.
Proof. unfold saveState. now destruct (maxHistorySize <? _). Qed.

Lemma saveState_stats (s : App) : stats (saveState s) = stats s.
Proof. unfold saveState. now destruct (maxHistorySize <? _). Qed.

(** What [saveState] leaves in the history when the cursor is in bounds:
    the entries up to the cursor, then the snapshot, less the oldest entry
    when that makes more than [maxHistorySize]. *)
Lemma saveState_history (s : App) :
  -1 <= historyIndex s < Js.len (history s) ->
  let h := firstn (Z.to_nat (historyIndex s + 1)) (history s) ++ [tasks s] in
  (historyIndex s + 2 <= maxHistorySize ->
     history (saveState s) = h /\ historyIndex (saveState s) = historyIndex s + 1) /\
  (maxHistorySize < historyIndex s + 2 ->
     history (saveState s) = tl h /\ historyIndex (saveState s) = historyIndex s).
Proof.
  intros H h. unfold saveState, Js.jsonClone, Js.push.
  assert (E : (if historyIndex s <? Js.len (history s) - 1
               then Js.slice 0 (historyIndex s + 1) (history s)
               else history s)
              = firstn (Z.to_nat (historyIndex s + 1)) (history s)).
  { destruct (historyIndex s <? Js.len (history s) - 1) eqn:C.
    - apply slice_prefix. lia.
    - apply Z.ltb_ge in C. symmetry. apply firstn_all2. unfold Js.len in *. lia. }
  rewrite E. fold h.
  assert (L : Js.len h = historyIndex s + 2).
  { unfold h. rewrite len_app, len_firstn by lia. change (Js.len [tasks s]) with 1. lia. }
  rewrite L. split; intros B.
  - destruct (maxHistorySize <? historyIndex s + 2) eqn:C;
      [apply Z.ltb_lt in C; lia|]. now cbn.
  - destruct (maxHistorySize <? historyIndex s + 2) eqn:C;
      [|apply Z.ltb_ge in C; lia]. now cbn.
Qed.

Lemma saveState_bounded (s : App) : historyBounded s -> historyBounded (saveState s).
Proof.
  intros (B & M & _).
  destruct (saveState_history s B) as [Hle Hgt].
  set (h := firstn (Z.to_nat (historyIndex s + 1)) (history s) ++ [tasks s]) in *.
  assert (L : Js.len h = historyIndex s + 2).
  { unfold h. rewrite len_app, len_firstn by lia. change (Js.len [tasks s]) with 1. lia. }
  assert (N : h <> []) by (unfold h; destruct (firstn _ _); discriminate).
  unfold historyBounded.
  destruct (Z_le_gt_dec (historyIndex s + 2) maxHistorySize) as [C|C].
  - destruct (Hle C) as [-> ->]. rewrite L. repeat split; lia.
  - destruct (Hgt ltac:(lia)) as [-> ->]. rewrite len_tl, L by exact N.
    unfold maxHistorySize in *. repeat split; lia.
Qed.

Lemma saveState_cursor_last (s : App) :
  historyBounded s -> historyIndex (saveState s) = Js.len (history (saveState s)) - 1.
Proof.
  intros (B & M & _).
  destruct (saveState_history s B) as [Hle Hgt].
  set (h := firstn (Z.to_nat (historyIndex s + 1)) (history s) ++ [tasks s]) in *.
  assert (L : Js.len h = historyIndex s + 2).
  { unfold h. rewrite len_app, len_firstn by lia. change (Js.len [tasks s]) with 1. lia. }
  assert (N : h <> []) by (unfold h; destruct (firstn _ _); discriminate).
  destruct (Z_le_gt_dec (historyIndex s + 2) maxHistorySize) as [C|C].
  - destruct (Hle C) as [-> ->]. lia.
  - destruct (Hgt ltac:(lia)) as [-> ->]. rewrite len_tl, L by exact N. lia.
Qed.

Lemma addRecentLocation_frame (loc : string) (s : App) :
  historyOf (addRecentLocation loc s) = historyOf s /\
  tasks (addRecentLocation loc s) = tasks s /\
  _activeCount (addRecentLocation loc s) = _activeCount s /\
  _completedCount (addRecentLocation loc s) = _completedCount s /\
  stats (addRecentLocation loc s) = stats s.
Proof. unfold addRecentLocation. now destruct (Js.falsy _). Qed.

Lemma restoreAt_history (i : Z) (s : App) :
  historyOf (restoreAt i s) = (history s, i).
Proof.
  unfold restoreAt, recalculateCounters. cbn [history withHistory].
  destruct (Js.index (history s) i); [|reflexivity].
  now destruct (recalculateLoop _ 0 0).
Qed.

Lemma withEditingTaskId_history (v : option string) (s : App) :
  historyOf (withEditingTaskId v s) = historyOf s.
Proof. reflexivity. Qed.

(** Every operation leaves the history as it was, or as [saveState], [undo]
    or [redo] leave it. *)
Lemma step_history (o : Op) (s : App) :
  historyOf (step o s) = historyOf s \/
  historyOf (step o s) = historyOf (saveState s) \/
  historyOf (step o s) = historyOf (undo s) \/
  historyOf (step o s) = historyOf (redo s).
Proof.
  destruct o; cbn [step];
    [ | | | | | now (right; left) | | now (right; right; left)
    | now (right; right; right) ].
  - unfold addTask. destruct (Js.falsy _); [now left|]. right; left.
    cbn [location]. destruct (Js.orNull _); [|reflexivity].
    now rewrite (proj1 (addRecentLocation_frame _ _)).
  - right; left. unfold deleteTask.
    destruct (find _ _) as [t|]; [destruct (completed t)|]; reflexivity.
  - right; left. unfold toggleTask.
    destruct (find _ _) as [t|]; [destruct (completed t)|]; reflexivity.
  - unfold saveEdit. destruct (Js.falsy _).
    + right; left. unfold deleteTask.
      destruct (find _ _) as [t|]; [destruct (completed t)|]; reflexivity.
    + right; left. rewrite withEditingTaskId_history.
      destruct (find _ _); [|reflexivity].
      destruct (Js.orNull _); [|reflexivity].
      now rewrite (proj1 (addRecentLocation_frame _ _)).
  - right; left. unfold toggleAllTasks.
    destruct (_ =? _).
    + now destruct (markAllIncomplete _ _ _).
    + now destruct (markAllComplete _ _ _).
  - unfold handleDrop. destruct dropTarget as [target|]; [|now left].
    destruct (match draggedElement with Some d => sameNode target d | None => false end);
      [now left|].
    right; left. destruct draggedElement; [|reflexivity].
    destruct (Js.spliceOut _ _) as [[|x r] rest]; reflexivity.
Qed.

Lemma undo_bounded (s : App) : historyBounded s -> historyBounded (undo s).
Proof.
  intros (B & M & E). unfold undo.
  destruct (historyIndex s <=? 0) eqn:C; [easy|]. apply Z.leb_gt in C.
  pose proof (restoreAt_history (historyIndex s - 1) s) as H.
  unfold historyOf in H. injection H as H1 H2.
  unfold historyBounded. rewrite H1, H2. repeat split; lia.
Qed.

Lemma redo_bounded (s : App) : historyBounded s -> historyBounded (redo s).
Proof.
  intros (B & M & E). unfold redo.
  destruct (Js.len (history s) - 1 <=? historyIndex s) eqn:C; [easy|].
  apply Z.leb_gt in C.
  pose proof (restoreAt_history (historyIndex s + 1) s) as H.
  unfold historyOf in H. injection H as H1 H2.
  unfold historyBounded. rewrite H1, H2. repeat split; lia.
Qed.

Lemma historyBounded_ext (s s' : App) :
  historyOf s' = historyOf s -> historyBounded s -> historyBounded s'.
Proof.
  unfold historyOf, historyBounded. intros [= -> ->]. auto.
Qed.

Lemma step_bounded (o : Op) (s : App) : historyBounded s -> historyBounded (step o s).
Proof.
  intros H. destruct (step_history o s) as [E|[E|[E|E]]];
    apply (historyBounded_ext _ _ E);
    auto using saveState_bounded, undo_bounded, redo_bounded.
Qed.

Lemma run_bounded (ops : list Op) (s : App) : historyBounded s -> historyBounded (run ops s).
Proof.
  revert s. induction ops as [|o r IH]; intros s H; [exact H|].
  cbn [run fold_left]. apply IH. now apply step_bounded.
Qed.

Lemma loadFromStorage_history (ls : Storage) (today : Z) (s s' : App) :
  loadFromStorage ls today s = Some s' -> historyOf s' = historyOf s.
Proof.
  unfold loadFromStorage.
  destruct (checkDailyReset _ _); [|discriminate]. intros [= <-].
  unfold historyOf. cbn [history historyIndex withStats].
  destruct (savedStats ls); destruct (savedLocations ls); destruct (savedTasks ls);
    cbn [history historyIndex withStats withRecentLocations withCounters withTasks];
    try reflexivity;
    unfold recalculateCounters; now destruct (recalculateLoop _ 0 0).
Qed.

Lemma reachable_bounded (s : App) : reachable s -> historyBounded s.
Proof.
  intros (ls & today & s0 & ops & C & ->). apply run_bounded.
  apply (historyBounded_ext (initialApp today)).
  - exact (loadFromStorage_history _ _ _ _ C).
  - unfold historyBounded, initialApp, maxHistorySize. cbn. repeat split; lia.
Qed.

Lemma reachable_step (o : Op) (s : App) : reachable s -> reachable (step o s).
Proof.
  intros (ls & today & s0 & ops & C & ->).
  exists ls, today, s0, (ops ++ [o]). split; [exact C|].
  unfold run. now rewrite fold_left_app.
Qed.

Lemma saveState_evicts (s : App) :
  historyBounded s -> maxHistorySize < historyIndex s + 2 ->
  history (saveState s) = tl (history s) ++ [tasks s] /\
  historyIndex (saveState s) = historyIndex s /\
  Js.len (history (saveState s)) = maxHistorySize.
Proof.
  intros (B & M & _) C.
  destruct (proj2 (saveState_history s B) C) as [H1 H2].
  assert (F : firstn (Z.to_nat (historyIndex s + 1)) (history s) = history s).
  { apply firstn_all2. unfold Js.len in *. lia. }
  rewrite F in H1.
  assert (N : history s <> []).
  { intros E. rewrite E in B. unfold maxHistorySize in C. cbn in B. lia. }
  assert (T : tl (history s ++ [tasks s]) = tl (history s) ++ [tasks s]).
  { destruct (history s); [easy|reflexivity]. }
  rewrite T in H1. rewrite H1, H2. repeat split.
  rewrite len_app, len_tl by exact N. change (Js.len [tasks s]) with 1. lia.
Qed.

Lemma saveState_snapshot_last (s : App) :
  historyBounded s -> Js.lastElt (history (saveState s)) = Some (tasks s).
Proof.
  intros HB. destruct (Z_le_gt_dec (historyIndex s + 2) maxHistorySize) as [C|C].
  - destruct HB as (B & _). destruct (proj1 (saveState_history s B) C) as [-> _].
    apply lastElt_push.
  - destruct (saveState_evicts s HB ltac:(lia)) as (-> & _ & _).
    destruct HB as (B & _).
    destruct (history s) as [|x r] eqn:E;
      [unfold maxHistorySize in C; cbn in B; lia|].
    cbn [tl]. apply lastElt_push.
Qed.

Lemma withTasks_same (s : App) : withTasks (tasks s) s = s.
Proof. now destruct s. Qed.

Lemma deleteTask_absent (i : string) (s : App) :
  find (hasId i) (tasks s) = None -> deleteTask i s = saveState s.
Proof.
  intros H. unfold deleteTask. rewrite saveState_tasks, H.
  rewrite find_none_filter by now rewrite saveState_tasks.
  apply withTasks_same.
Qed.

Lemma toggleTask_absent (today : Z) (i : string) (s : App) :
  find (hasId i) (tasks s) = None -> toggleTask today i s = saveState s.
Proof.
  intros H. unfold toggleTask. now rewrite saveState_tasks, H.
Qed.

Lemma restoreAt_tasks (i : Z) (s : App) (l : list Task) :
  Js.index (history s) i = Some l -> tasks (restoreAt i s) = l.
Proof.
  intros H. unfold restoreAt, recalculateCounters. cbn [history withHistory].
  rewrite H. unfold Js.jsonClone. now destruct (recalculateLoop _ 0 0).
Qed.

(** [undo] right after a snapshot returns to the entry under the cursor
    before that snapshot: the list saved by the mutation before the last. *)
Lemma undo_after_saveState (s : App) (l : list Task) :
  historyBounded s -> historyIndex s + 2 <= maxHistorySize ->
  Js.index (history s) (historyIndex s) = Some l ->
  tasks (undo (saveState s)) = l.
Proof.
  intros (B & M & E) C H.
  destruct (proj1 (saveState_history s B) C) as [H1 H2].
  assert (P : 0 <= historyIndex s).
  { unfold Js.index in H. destruct (historyIndex s <? 0) eqn:N;
      [discriminate|now apply Z.ltb_ge in N]. }
  unfold undo. rewrite H2.
  destruct (historyIndex s + 1 <=? 0) eqn:N; [apply Z.leb_le in N; lia|].
  apply restoreAt_tasks. rewrite H1.
  replace (historyIndex s + 1 - 1) with (historyIndex s) by lia.
  unfold Js.index in *. destruct (historyIndex s <? 0); [discriminate|].
  rewrite nth_error_app1.
  - rewrite nth_error_firstn.
    destruct (Nat.ltb_spec (Z.to_nat (historyIndex s)) (Z.to_nat (historyIndex s + 1)));
      [exact H|lia].
  - rewrite length_firstn. unfold Js.len in B. lia.
Qed.

(** [undo] then [redo] returns to the snapshot under the cursor, whatever
    the current list is. *)
Lemma undo_redo_cursor_snapshot (s : App) (l : list Task) :
  historyBounded s -> 0 < historyIndex s ->
  Js.index (history s) (historyIndex s) = Some l ->
  tasks (redo (undo s)) = l.
Proof.
  intros (B & M & E) P H. unfold undo.
  destruct (historyIndex s <=? 0) eqn:N; [apply Z.leb_le in N; lia|].
  pose proof (restoreAt_history (historyIndex s - 1) s) as R.
  unfold historyOf in R. injection R as R1 R2.
  unfold redo. rewrite R1, R2.
  destruct (Js.len (history s) - 1 <=? historyIndex s - 1) eqn:K;
    [apply Z.leb_le in K; lia|].
  apply restoreAt_tasks. rewrite R1.
  now replace (historyIndex s - 1 + 1) with (historyIndex s) by lia.
Qed.

(** C4: in every reachable state the cursor satisfies
    -1 <= historyIndex < |history| <= 50, and it is -1 only when the
    history is empty; after [saveState] no redo is available; a
    [saveState] with the cursor before the last entry keeps the entries up
    to the cursor and puts the snapshot after them; and a [saveState] that
    would make more than 50 entries drops the oldest one and leaves the
    cursor where it was. *)
Theorem history_cursor_bounded (s : App) :
  reachable s ->
  historyBounded s /\
  redo (saveState s) = saveState s /\
  (historyIndex s < Js.len (history s) - 1 ->
     history (saveState s)
       = firstn (Z.to_nat (historyIndex s + 1)) (history s) ++ [tasks s] /\
     historyIndex (saveState s) = historyIndex s + 1) /\
  (maxHistorySize < historyIndex s + 2 ->
     history (saveState s) = tl (history s) ++ [tasks s] /\
     historyIndex (saveState s) = historyIndex s /\
     Js.len (history (saveState s)) = maxHistorySize).
Proof.
  intros R. pose proof (reachable_bounded s R) as HB.
  split; [exact HB|]. split; [|split].
  - unfold redo. rewrite (saveState_cursor_last s HB).
    now rewrite Z.leb_refl.
  - intros C. destruct HB as (B & M & _).
    apply (proj1 (saveState_history s B)). lia.
  - intros C. now apply saveState_evicts.
Qed.

Lemma history_cursor_bounded_witness :
  (let s := run [AddTask "a" "" "" "" 1; AddTask "b" "" "" "" 2; Undo] (initialApp 100) in
   historyIndex s < Js.len (history s) - 1 /\
   historyIndex (saveState s) = historyIndex s + 1 /\
   redo (saveState s) = saveState s) /\
  (let s := run (repeat (DeleteTask "x") 50) (initialApp 100) in
   maxHistorySize < historyIndex s + 2 /\
   historyIndex (saveState s) = historyIndex s).
Proof.
  split.
  - intros s.
    assert (R : reachable s).
    { exists emptyStorage, 100, (initialApp 100),
        [AddTask "a" "" "" "" 1; AddTask "b" "" "" "" 2; Undo].
      split; reflexivity. }
    assert (C : historyIndex s < Js.len (history s) - 1) by (vm_compute; reflexivity).
    destruct (history_cursor_bounded s R) as (_ & Hr & H1 & _).
    split; [exact C|]. split; [exact (proj2 (H1 C))|exact Hr].
  - intros s.
    assert (R : reachable s).
    { exists emptyStorage, 100, (initialApp 100), (repeat (DeleteTask "x") 50).
      split; reflexivity. }
    assert (C : maxHistorySize < historyIndex s + 2) by (vm_compute; reflexivity).
    destruct (history_cursor_bounded s R) as (_ & _ & _ & H2).
    split; [exact C|exact (proj1 (proj2 (H2 C)))].
Defined.

(** C10, as amended: with an id that no task has, [deleteTask] and
    [toggleTask] leave the task list and both counters as they were and
    still put a snapshot of the list at the end of the history, the cursor
    on it.  The cursor advances by one, and the state changes, while that
    makes at most 50 entries; with the cursor on the last of 50 entries
    the oldest entry is dropped and the cursor stays where it was. *)
Theorem absent_id_records_snapshot (today : Z) (i : string) (s : App) :
  reachable s ->
  find (hasId i) (tasks s) = None ->
  let d := deleteTask i s in
  toggleTask today i s = d /\
  tasks d = tasks s /\
  _activeCount d = _activeCount s /\
  _completedCount d = _completedCount s /\
  Js.lastElt (history d) = Some (tasks s) /\
  historyIndex d = Js.len (history d) - 1 /\
  (historyIndex s + 2 <= maxHistorySize ->
     historyIndex d = historyIndex s + 1 /\ d <> s) /\
  (maxHistorySize < historyIndex s + 2 ->
     historyIndex d = historyIndex s /\
     history d = tl (history s) ++ [tasks s]).
Proof.
  intros R H d. pose proof (reachable_bounded s R) as HB.
  unfold d. rewrite (deleteTask_absent i s H), (toggleTask_absent today i s H).
  destruct (saveState_counters s) as [Ha Hc].
  repeat match goal with |- _ /\ _ => split end;
    auto using saveState_tasks, saveState_snapshot_last, saveState_cursor_last.
  - intros C. destruct HB as (B & _).
    destruct (proj1 (saveState_history s B) C) as [_ E].
    split; [exact E|]. intros Q. rewrite Q in E. lia.
  - intros C. destruct (saveState_evicts s HB C) as (E1 & E2 & _). now split.
Qed.

Lemma absent_id_records_snapshot_witness :
  let s := run [AddTask "a" "" "" "" 1] (initialApp 100) in
  find (hasId "x") (tasks s) = None /\
  tasks (deleteTask "x" s) = tasks s /\
  historyIndex (deleteTask "x" s) = historyIndex s + 1 /\
  toggleTask 100 "x" s = deleteTask "x" s.
Proof.
  intros s.
  assert (R : reachable s).
  { exists emptyStorage, 100, (initialApp 100), [AddTask "a" "" "" "" 1].
    split; reflexivity. }
  assert (H : find (hasId "x") (tasks s) = None) by reflexivity.
  assert (C : historyIndex s + 2 <= maxHistorySize) by (vm_compute; discriminate).
  destruct (absent_id_records_snapshot 100 "x" s R H)
    as (E & T & _ & _ & _ & _ & A & _).
  split; [exact H|]. split; [exact T|]. split; [exact (proj1 (A C))|exact E].
Defined.

(** C10, as stated, fails: after fifty calls of [deleteTask] with an id
    that no task has, one more such call, or such a call of [toggleTask],
    leaves the whole state as it was, the cursor included. *)
Lemma absent_id_can_leave_state_unchanged :
  let s := run (repeat (DeleteTask "x") 50) (initialApp 100) in
  reachable s /\
  find (hasId "x") (tasks s) = None /\
  deleteTask "x" s = s /\
  toggleTask 100 "x" s = s /\
  historyIndex (deleteTask "x" s) <> historyIndex s + 1.
Proof.
  intros s. split.
  - exists emptyStorage, 100, (initialApp 100), (repeat (DeleteTask "x") 50).
    split; reflexivity.
  - vm_compute. repeat split; discriminate.
Qed.

(** C2, on the scenario of the claim: three tasks are added, the second
    is deleted, and one [undo] follows.  The list that [undo] installs is
    the one saved before the third task was added, with two tasks, and not
    the list before the deletion. *)
Theorem undo_after_delete_skips_a_state :
  let added := run [AddTask "first" "" "" "" 1; AddTask "second" "" "" "" 2;
                    AddTask "third" "" "" "" 3] (initialApp 100) in
  let deleted := deleteTask "2" added in
  ids (tasks added) = ["3"; "2"; "1"]%string /\
  ids (tasks deleted) = ["3"; "1"]%string /\
  ids (tasks (undo deleted)) = ["2"; "1"]%string /\
  tasks (undo deleted) <> tasks added.
Proof.
  vm_compute. repeat split; discriminate.
Qed.

(** C3, on a reachable state where [undo] succeeds: after two tasks are
    added, [undo] then [redo] installs the list saved before the second
    task was added, not the list that was current before the [undo]. *)
Theorem undo_then_redo_loses_current_list :
  let s := run [AddTask "first" "" "" "" 1; AddTask "second" "" "" "" 2]
             (initialApp 100) in
  reachable s /\
  0 < historyIndex s /\
  ids (tasks s) = ["2"; "1"]%string /\
  ids (tasks (undo s)) = [] /\
  ids (tasks (redo (undo s))) = ["1"]%string /\
  tasks (redo (undo s)) <> tasks s.
Proof.
  intros s. split.
  - exists emptyStorage, 100, (initialApp 100),
      [AddTask "first" "" "" "" 1; AddTask "second" "" "" "" 2].
    split; reflexivity.
  - vm_compute. repeat split; discriminate.
Qed.

(** ** The cached counters *)

Lemma hasId_true (i : string) (t : Task) : hasId i t = true <-> id t = i.
Proof. unfold hasId. apply String.eqb_eq. Qed.

Lemma find_hasId_absent (i : string) (l : list Task) :
  ~ In i (ids l) -> find (hasId i) l = None.
Proof.
  induction l as [|t r IH]; [reflexivity|]. cbn [ids map In find]. intros H.
  destruct (hasId i t) eqn:E.
  - apply hasId_true in E. tauto.
  - apply IH. unfold ids. tauto.
Qed.

Lemma completedOf_cons (t : Task) (l : list Task) :
  completedOf (t :: l) = completedOf l + (if completed t then 1 else 0).
Proof.
  unfold completedOf. cbn [filter]. destruct (completed t); rewrite ?len_cons; lia.
Qed.

Lemma completedOf_app (l1 l2 : list Task) :
  completedOf (l1 ++ l2) = completedOf l1 + completedOf l2.
Proof. unfold completedOf. now rewrite filter_app, len_app. Qed.

Lemma completedOf_bounds (l : list Task) : 0 <= completedOf l <= Js.len l.
Proof.
  induction l as [|t r IH]; [unfold completedOf; cbn; lia|].
  rewrite completedOf_cons, len_cons. destruct (completed t); lia.
Qed.

Lemma recalculateLoop_counts (l : list Task) (a c : Z) :
  recalculateLoop l a c = (a + (Js.len l - completedOf l), c + completedOf l).
Proof.
  revert a c. induction l as [|t r IH]; intros a c; cbn [recalculateLoop].
  - unfold completedOf. cbn. f_equal; lia.
  - rewrite completedOf_cons, len_cons.
    destruct (completed t); rewrite IH; f_equal; lia.
Qed.

Lemma recalculateCounters_view (s : App) :
  tasks (recalculateCounters s) = tasks s /\
  _activeCount (recalculateCounters s) = Js.len (tasks s) - completedOf (tasks s) /\
  _completedCount (recalculateCounters s) = completedOf (tasks s).
Proof.
  unfold recalculateCounters. rewrite recalculateLoop_counts.
  cbn [tasks _activeCount _completedCount withCounters]. repeat split; lia.
Qed.

Lemma recalculateCounters_consistent (s : App) :
  countersConsistent (recalculateCounters s).
Proof.
  destruct (recalculateCounters_view s) as (T & A & C).
  unfold countersConsistent. rewrite T, A, C. split; lia.
Qed.

(** Deleting by id from a list without repeated ids removes the task that
    [find] returns and no other. *)
Lemma delete_counts (i : string) (l : list Task) :
  NoDup (ids l) ->
  let l' := filter (fun t => negb (hasId i t)) l in
  match find (hasId i) l with
  | Some t =>
      Js.len l' = Js.len l - 1 /\
      completedOf l' = completedOf l - (if completed t then 1 else 0)
  | None => l' = l
  end.
Proof.
  induction l as [|t r IH]; intros ND; [reflexivity|].
  cbn [ids map] in ND. apply NoDup_cons_iff in ND as [NI ND].
  cbn [find filter]. destruct (hasId i t) eqn:E; cbn [negb].
  - apply hasId_true in E. rewrite E in NI.
    rewrite (find_none_filter i r (find_hasId_absent i r NI)).
    rewrite completedOf_cons, len_cons. split; lia.
  - specialize (IH ND). cbn zeta in IH.
    destruct (find (hasId i) r) as [u|].
    + rewrite !completedOf_cons, !len_cons. lia.
    + now rewrite IH.
Qed.

Lemma ids_filter_NoDup (p : Task -> bool) (l : list Task) :
  NoDup (ids l) -> NoDup (ids (filter p l)).
Proof.
  induction l as [|t r IH]; [easy|]. cbn [ids map filter]. intros ND.
  apply NoDup_cons_iff in ND as [NI ND].
  destruct (p t); [|now apply IH]. cbn [map]. apply NoDup_cons; [|now apply IH].
  intros H. apply NI. apply in_map_iff in H as (u & <- & Hu).
  apply in_map. now apply filter_In in Hu.
Qed.

Lemma updateFirst_ids (p : Task -> bool) (f : Task -> Task) (l : list Task) :
  (forall t, id (f t) = id t) -> ids (Js.updateFirst p f l) = ids l.
Proof.
  intros H. induction l as [|t r IH]; [reflexivity|]. cbn [Js.updateFirst].
  destruct (p t); cbn [ids map]; [now rewrite H|]. f_equal. exact IH.
Qed.

Lemma updateFirst_len {A} (p : A -> bool) (f : A -> A) (l : list A) :
  Js.len (Js.updateFirst p f l) = Js.len l.
Proof.
  induction l as [|t r IH]; [reflexivity|]. cbn [Js.updateFirst].
  destruct (p t); rewrite !len_cons; lia.
Qed.

Lemma updateFirst_completedOf_same (p : Task -> bool) (f : Task -> Task) (l : list Task) :
  (forall t, completed (f t) = completed t) ->
  completedOf (Js.updateFirst p f l) = completedOf l.
Proof.
  intros H. induction l as [|t r IH]; [reflexivity|]. cbn [Js.updateFirst].
  destruct (p t); rewrite !completedOf_cons; [now rewrite H|lia].
Qed.

Lemma updateFirst_completedOf_flip (p : Task -> bool) (l : list Task) (t : Task) :
  find p l = Some t ->
  completedOf (Js.updateFirst p (fun u => withCompleted (negb (completed u)) u) l)
  = completedOf l + (if completed t then -1 else 1).
Proof.
  induction l as [|u r IH]; [discriminate|]. cbn [find Js.updateFirst].
  destruct (p u).
  - intros [= <-]. rewrite !completedOf_cons. cbn [completed withCompleted].
    destruct (completed u); cbn [negb]; lia.
  - intros H. rewrite !completedOf_cons, (IH H). lia.
Qed.

Lemma markAllComplete_tasks (today : Z) (l : list Task) (st : Stats) :
  let l' := fst (markAllComplete today l st) in
  ids l' = ids l /\ Js.len l' = Js.len l /\ completedOf l' = Js.len l.
Proof.
  revert st. induction l as [|t r IH]; intros st; [now cbn|].
  cbn [markAllComplete]. destruct (completed t) eqn:E; cbn [negb].
  - specialize (IH st). destruct (markAllComplete today r st) as [r' st'].
    cbn [fst] in *. destruct IH as (I1 & I2 & I3).
    rewrite completedOf_cons, !len_cons, E. unfold ids in *. cbn [map].
    rewrite I1. repeat split; lia.
  - specialize (IH (incrementTasksCompleted today st)).
    destruct (markAllComplete today r _) as [r' st'].
    cbn [fst] in *. destruct IH as (I1 & I2 & I3).
    rewrite completedOf_cons, !len_cons. unfold ids in *.
    cbn [map completed withCompleted id]. rewrite I1. repeat split; lia.
Qed.

Lemma markAllIncomplete_tasks (today : Z) (l : list Task) (st : Stats) :
  let l' := fst (markAllIncomplete today l st) in
  ids l' = ids l /\ Js.len l' = Js.len l /\ completedOf l' = 0.
Proof.
  revert st. induction l as [|t r IH]; intros st; [now cbn|].
  cbn [markAllIncomplete]. destruct (completed t) eqn:E.
  - specialize (IH (decrementTasksCompleted today st)).
    destruct (markAllIncomplete today r _) as [r' st'].
    cbn [fst] in *. destruct IH as (I1 & I2 & I3).
    rewrite completedOf_cons, !len_cons. unfold ids in *.
    cbn [map completed withCompleted id]. rewrite I1. repeat split; lia.
  - specialize (IH st). destruct (markAllIncomplete today r st) as [r' st'].
    cbn [fst] in *. destruct IH as (I1 & I2 & I3).
    rewrite completedOf_cons, !len_cons, E. unfold ids in *. cbn [map].
    rewrite I1. repeat split; lia.
Qed.

Lemma clear_counts (l : list Task) :
  let l' := filter (fun t => negb (completed t)) l in
  Js.len l' = Js.len l - completedOf l /\ completedOf l' = 0.
Proof.
  induction l as [|t r IH]; [now cbn|]. cbn zeta in *. cbn [filter].
  rewrite completedOf_cons, len_cons.
  destruct (completed t) eqn:E; cbn [negb]; [lia|].
  rewrite completedOf_cons, len_cons, E. lia.
Qed.

Lemma completedOf_Permutation (l l' : list Task) :
  Permutation l l' -> completedOf l = completedOf l'.
Proof.
  induction 1; rewrite ?completedOf_cons in *; lia.
Qed.

Lemma len_Permutation {A} (l l' : list A) : Permutation l l' -> Js.len l = Js.len l'.
Proof. intros H. unfold Js.len. now rewrite (Permutation_length H). Qed.

(** The two [splice] calls of [handleDrop] permute the list. *)
Lemma splice_Permutation {A} (i j : Z) (l rest : list A) (x : A) (tl' : list A) :
  Js.spliceOut i l = (x :: tl', rest) ->
  Permutation l (Js.spliceIn j x rest).
Proof.
  unfold Js.spliceOut, Js.spliceIn. intros [= H <-].
  set (k := Js.relIndex i l) in *.
  set (rest := firstn k l ++ skipn (S k) l).
  assert (S1 : skipn k l = x :: skipn (S k) l).
  { destruct (skipn k l) as [|y r] eqn:E; [discriminate|].
    cbn in H. injection H as ->.
    f_equal. change (S k) with (1 + k)%nat. rewrite <- skipn_skipn, E. reflexivity. }
  transitivity (x :: rest).
  - rewrite <- (firstn_skipn k l) at 1. rewrite S1. unfold rest.
    symmetry. apply Permutation_middle.
  - rewrite <- (firstn_skipn (Js.relIndex j rest) rest) at 1.
    apply Permutation_middle.
Qed.

Lemma In_firstn {A} (n : nat) (l : list A) (x : A) : In x (firstn n l) -> In x l.
Proof.
  intros H. rewrite <- (firstn_skipn n l). apply in_or_app. now left.
Qed.

Lemma In_skipn {A} (n : nat) (l : list A) (x : A) : In x (skipn n l) -> In x l.
Proof.
  intros H. rewrite <- (firstn_skipn n l). apply in_or_app. now right.
Qed.

Lemma In_tl {A} (l : list A) (x : A) : In x (tl l) -> In x l.
Proof. destruct l; [easy|]. cbn. auto. Qed.

Lemma saveState_history_In (s : App) (l : list Task) :
  In l (history (saveState s)) -> In l (history s) \/ l = tasks s.
Proof.
  unfold saveState, Js.push, Js.shift, Js.jsonClone, Js.slice.
  assert (P : forall h, (forall x, In x h -> In x (history s)) ->
                        In l (h ++ [tasks s]) -> In l (history s) \/ l = tasks s).
  { intros h Hh H. apply in_app_or in H as [H|[H|[]]]; auto. }
  destruct (historyIndex s <? Js.len (history s) - 1);
    destruct (maxHistorySize <? _); fields; intros H;
    try apply In_tl in H; revert H; apply P; auto.
  all: intros x Hx; apply In_firstn in Hx; now apply In_skipn in Hx.
Qed.

Lemma step_history_distinct (o : Op) (s : App) :
  distinctIds s -> Forall (fun l => NoDup (ids l)) (history (step o s)).
Proof.
  intros [ND F].
  assert (U : history (undo s) = history s).
  { unfold undo. destruct (_ <=? _); [reflexivity|].
    pose proof (restoreAt_history (historyIndex s - 1) s) as H.
    unfold historyOf in H. now injection H. }
  assert (R : history (redo s) = history s).
  { unfold redo. destruct (_ <=? _); [reflexivity|].
    pose proof (restoreAt_history (historyIndex s + 1) s) as H.
    unfold historyOf in H. now injection H. }
  destruct (step_history o s) as [E|[E|[E|E]]]; unfold historyOf in E;
    injection E as E _; rewrite E, ?U, ?R; try exact F.
  apply Forall_forall. intros l H.
  apply saveState_history_In in H as [H| ->]; [|exact ND].
  revert l H. now apply Forall_forall.
Qed.

Lemma addTask_view (ti dd dt li : string) (now : Z) (s : App) :
  Js.falsy (Js.trim ti) = false ->
  let s' := addTask ti dd dt li now s in
  ids (tasks s') = Js.toString now :: ids (tasks s) /\
  completedOf (tasks s') = completedOf (tasks s) /\
  Js.len (tasks s') = Js.len (tasks s) + 1 /\
  _activeCount s' = _activeCount s + 1 /\
  _completedCount s' = _completedCount s.
Proof.
  intros E s'. unfold s', addTask. rewrite E. cbn [location].
  destruct (saveState_counters s) as [Ha Hc].
  assert (V : forall x : App,
             tasks x = tasks (withCounters (_activeCount (saveState s) + 1)
                                (_completedCount (saveState s))
                                (withTasks (Js.unshift
                                   (mkTask (Js.toString now) (Js.trim ti) false now
                                      (Js.orNull dd) (Js.orNull dt)
                                      (Js.orNull (Js.trim li)))
                                   (tasks (saveState s))) (saveState s))) ->
             _activeCount x = _activeCount (saveState s) + 1 ->
             _completedCount x = _completedCount (saveState s) ->
             ids (tasks x) = Js.toString now :: ids (tasks s) /\
             completedOf (tasks x) = completedOf (tasks s) /\
             Js.len (tasks x) = Js.len (tasks s) + 1 /\
             _activeCount x = _activeCount s + 1 /\
             _completedCount x = _completedCount s).
  { intros x T A C. rewrite T, A, C, Ha, Hc. fields. rewrite saveState_tasks.
    unfold Js.unshift. rewrite completedOf_cons, len_cons. cbn [ids map id completed].
    repeat split; lia. }
  destruct (Js.orNull (Js.trim li)) as [loc|].
  - destruct (addRecentLocation_frame loc
                (withCounters (_activeCount (saveState s) + 1)
                   (_completedCount (saveState s))
                   (withTasks (Js.unshift
                      (mkTask (Js.toString now) (Js.trim ti) false now
                         (Js.orNull dd) (Js.orNull dt) (Some loc))
                      (tasks (saveState s))) (saveState s))))
      as (_ & T & A & C & _).
    apply V; [exact T|exact A|exact C].
  - apply V; reflexivity.
Qed.

Lemma deleteTask_view (i : string) (s : App) :
  let s' := deleteTask i s in
  tasks s' = filter (fun t => negb (hasId i t)) (tasks s) /\
  match find (hasId i) (tasks s) with
  | Some t =>
      if completed t
      then _activeCount s' = _activeCount s /\ _completedCount s' = _completedCount s - 1
      else _activeCount s' = _activeCount s - 1 /\ _completedCount s' = _completedCount s
  | None => _activeCount s' = _activeCount s /\ _completedCount s' = _completedCount s
  end.
Proof.
  cbn zeta. unfold deleteTask. rewrite saveState_tasks.
  destruct (saveState_counters s) as [Ha Hc].
  destruct (find (hasId i) (tasks s)) as [t|]; [destruct (completed t)|];
    fields; rewrite ?saveState_tasks, ?Ha, ?Hc; auto.
Qed.

Lemma toggleTask_view (today : Z) (i : string) (s : App) :
  let s' := toggleTask today i s in
  match find (hasId i) (tasks s) with
  | Some t =>
      tasks s' = Js.updateFirst (hasId i)
                   (fun u => withCompleted (negb (completed u)) u) (tasks s) /\
      if completed t
      then _activeCount s' = _activeCount s + 1 /\
           _completedCount s' = _completedCount s - 1 /\
           stats s' = decrementTasksCompleted today (stats s)
      else _activeCount s' = _activeCount s - 1 /\
           _completedCount s' = _completedCount s + 1 /\
           stats s' = incrementTasksCompleted today (stats s)
  | None => s' = saveState s
  end.
Proof.
  cbn zeta. unfold toggleTask. rewrite saveState_tasks.
  destruct (saveState_counters s) as [Ha Hc].
  destruct (find (hasId i) (tasks s)) as [t|]; [|reflexivity].
  destruct (completed t); cbn [negb andb]; fields;
    rewrite ?saveState_tasks, ?Ha, ?Hc, ?saveState_stats; auto.
Qed.

Lemma toggleAllTasks_view (today : Z) (s : App) :
  let s' := toggleAllTasks today s in
  ids (tasks s') = ids (tasks s) /\
  Js.len (tasks s') = Js.len (tasks s) /\
  countersConsistent s'.
Proof.
  cbn zeta. unfold toggleAllTasks, countersConsistent. rewrite saveState_tasks.
  destruct (_ =? _).
  - pose proof (markAllIncomplete_tasks today (tasks s) (stats (saveState s))) as H.
    cbn zeta in H. destruct (markAllIncomplete _ _ _) as [l st].
    cbn [fst] in H. destruct H as (I1 & I2 & I3). fields.
    rewrite I3. repeat split; auto; lia.
  - pose proof (markAllComplete_tasks today (tasks s) (stats (saveState s))) as H.
    cbn zeta in H. destruct (markAllComplete _ _ _) as [l st].
    cbn [fst] in H. destruct H as (I1 & I2 & I3). fields.
    rewrite I3. repeat split; auto; lia.
Qed.

Lemma clearCompletedTasks_view (s : App) :
  let s' := clearCompletedTasks s in
  tasks s' = filter (fun t => negb (completed t)) (tasks s) /\
  _activeCount s' = _activeCount s /\ _completedCount s' = 0.
Proof.
  cbn zeta. unfold clearCompletedTasks. fields.
  rewrite saveState_tasks. now destruct (saveState_counters s) as [-> _].
Qed.

Lemma saveEdit_view (i t d h l : string) (s : App) :
  Js.falsy (Js.trim t) = false ->
  let s' := saveEdit i t d h l s in
  ids (tasks s') = ids (tasks s) /\
  Js.len (tasks s') = Js.len (tasks s) /\
  completedOf (tasks s') = completedOf (tasks s) /\
  _activeCount s' = _activeCount s /\ _completedCount s' = _completedCount s.
Proof.
  intros E. cbn zeta. unfold saveEdit. rewrite E. fields.
  rewrite saveState_tasks. destruct (saveState_counters s) as [Ha Hc].
  destruct (find (hasId i) (tasks s));
    [|rewrite saveState_tasks, Ha, Hc; repeat split].
  set (edit := fun u : Task => mkTask (id u) (Js.trim t) (completed u) (createdAt u)
                                 (Js.orNull d) (Js.orNull h) (Js.orNull (Js.trim l))).
  assert (V : forall x : App,
             tasks x = Js.updateFirst (hasId i) edit (tasks s) ->
             _activeCount x = _activeCount s -> _completedCount x = _completedCount s ->
             ids (tasks x) = ids (tasks s) /\
             Js.len (tasks x) = Js.len (tasks s) /\
             completedOf (tasks x) = completedOf (tasks s) /\
             _activeCount x = _activeCount s /\ _completedCount x = _completedCount s).
  { intros x -> -> ->.
    rewrite updateFirst_ids, updateFirst_len, updateFirst_completedOf_same;
      auto. }
  destruct (Js.orNull (Js.trim l)) as [loc|].
  - match goal with
    | |- context [addRecentLocation loc ?x] =>
        destruct (addRecentLocation_frame loc x) as (_ & T & A & C & _)
    end.
    apply V; [rewrite T|rewrite A|rewrite C]; fields;
      rewrite ?saveState_tasks; auto.
  - apply V; fields; rewrite ?saveState_tasks; auto.
Qed.

Lemma handleDrop_view (d t : option Element) (s : App) :
  _activeCount (handleDrop d t s) = _activeCount s /\
  _completedCount (handleDrop d t s) = _completedCount s /\
  Permutation (tasks s) (tasks (handleDrop d t s)).
Proof.
  unfold handleDrop. destruct (saveState_counters s) as [Ha Hc].
  pose proof (saveState_tasks s) as Ht.
  destruct t as [target|]; [|now repeat split].
  destruct (match d with Some e => sameNode target e | None => false end);
    [now repeat split|].
  destruct d as [dragged|]; [|rewrite Ha, Hc, Ht; now repeat split].
  destruct (Js.spliceOut _ _) as [[|x r] rest] eqn:E;
    [rewrite Ha, Hc, Ht; now repeat split|].
  fields. rewrite Ha, Hc. repeat split.
  rewrite <- Ht at 1. exact (splice_Permutation _ _ _ _ _ _ E).
Qed.

Lemma restoreAt_view (i : Z) (s : App) :
  (exists l, In l (history s) /\ tasks (restoreAt i s) = l /\
             countersConsistent (restoreAt i s)) \/
  (tasks (restoreAt i s) = tasks s /\
   _activeCount (restoreAt i s) = _activeCount s /\
   _completedCount (restoreAt i s) = _completedCount s).
Proof.
  unfold restoreAt. fields. destruct (Js.index (history s) i) as [l|] eqn:E.
  - left. exists l. split; [exact (index_In _ _ _ E)|]. split.
    + now destruct (recalculateCounters_view
                      (withTasks (Js.jsonClone l) (withHistory (history s) i s))).
    + apply recalculateCounters_consistent.
  - right. now repeat split.
Qed.

Lemma restoreAt_invariant (i : Z) (s : App) :
  countersConsistent s -> distinctIds s ->
  countersConsistent (restoreAt i s) /\ NoDup (ids (tasks (restoreAt i s))).
Proof.
  intros C [ND F].
  destruct (restoreAt_view i s) as [(l & Hl & T & K)|(T & A & D)].
  - split; [exact K|]. rewrite T. clear T K. revert l Hl. now apply Forall_forall.
  - unfold countersConsistent in *. now rewrite T, A, D.
Qed.

(** One admissible operation keeps the counters equal to a scan of the
    list, and the ids distinct. *)
Lemma step_invariant (o : Op) (s : App) :
  countersConsistent s -> distinctIds s -> opAdmissible s o ->
  countersConsistent (step o s) /\ distinctIds (step o s).
Proof.
  intros C D Ad. pose proof (step_history_distinct o s D) as F.
  destruct D as [ND FH]. pose proof C as [C1 C2].
  assert (Del : forall i, countersConsistent (deleteTask i s) /\
                          NoDup (ids (tasks (deleteTask i s)))).
  { intros i. destruct (deleteTask_view i s) as [T V]. split.
    - pose proof (delete_counts i (tasks s) ND) as P. cbn zeta in P.
      unfold countersConsistent. rewrite T.
      destruct (find (hasId i) (tasks s)) as [t|].
      + destruct P as [P1 P2]. rewrite P1, P2.
        destruct (completed t); destruct V as [-> ->]; lia.
      + rewrite P. destruct V as [-> ->]. auto.
    - rewrite T. now apply ids_filter_NoDup. }
  cut (countersConsistent (step o s) /\ NoDup (ids (tasks (step o s)))).
  { intros [K N]. split; [exact K|]. split; [exact N|exact F]. }
  clear F. destruct o; cbn [step opAdmissible] in *.
  - (* addTask *)
    destruct (Js.falsy (Js.trim taskInput)) eqn:E.
    + unfold addTask. rewrite E. auto.
    + destruct (addTask_view taskInput dueDateInput dueTimeInput locationInput now s E)
        as (I & Q & L & A & K).
      unfold countersConsistent. rewrite I, Q, L, A, K.
      split; [lia|]. now apply NoDup_cons.
  - (* deleteTask *) apply Del.
  - (* toggleTask *)
    pose proof (toggleTask_view today i s) as V. cbn zeta in V.
    destruct (find (hasId i) (tasks s)) as [t|] eqn:E.
    + destruct V as [T V]. unfold countersConsistent. rewrite T.
      rewrite updateFirst_len, (updateFirst_completedOf_flip _ _ _ E),
        updateFirst_ids by reflexivity.
      split; [|exact ND].
      destruct (completed t); destruct V as (-> & -> & _); lia.
    + rewrite V. unfold countersConsistent.
      rewrite saveState_tasks. now destruct (saveState_counters s) as [-> ->].
  - (* saveEdit *)
    destruct (Js.falsy (Js.trim newText)) eqn:E.
    + unfold saveEdit. rewrite E. apply Del.
    + destruct (saveEdit_view i newText newDueDate newDueTime newLocation s E)
        as (I & L & Q & A & K).
      unfold countersConsistent. rewrite I, L, Q, A, K. auto.
  - (* toggleAllTasks *)
    destruct (toggleAllTasks_view today s) as (I & L & K).
    split; [exact K|now rewrite I].
  - (* clearCompletedTasks *)
    destruct (clearCompletedTasks_view s) as (T & A & K).
    destruct (clear_counts (tasks s)) as [P1 P2].
    unfold countersConsistent. rewrite T, A, K, P1, P2.
    split; [lia|]. now apply ids_filter_NoDup.
  - (* handleDrop *)
    destruct (handleDrop_view draggedElement dropTarget s) as (A & K & P).
    unfold countersConsistent.
    rewrite A, K, <- (len_Permutation _ _ P), <- (completedOf_Permutation _ _ P).
    split; [auto|]. apply (Permutation_NoDup (l := ids (tasks s))); [|exact ND].
    now apply Permutation_map.
  - (* undo *)
    unfold undo. destruct (_ <=? _); [auto|].
    apply restoreAt_invariant; [exact C|now split].
  - (* redo *)
    unfold redo. destruct (_ <=? _); [auto|].
    apply restoreAt_invariant; [exact C|now split].
Qed.

Lemma run_invariant (ops : list Op) (s : App) :
  countersConsistent s -> distinctIds s -> admissible s ops ->
  countersConsistent (run ops s) /\ distinctIds (run ops s).
Proof.
  revert s. induction ops as [|o r IH]; intros s C D Ad; [now split|].
  destruct Ad as [Ao Ar]. cbn [run fold_left].
  destruct (step_invariant o s C D Ao) as [C' D']. now apply IH.
Qed.

Lemma recalculateCounters_history (s : App) :
  history (recalculateCounters s) = history s.
Proof. unfold recalculateCounters. now destruct (recalculateLoop _ 0 0). Qed.

Lemma constructor_invariant (ls : Storage) (today : Z) (s0 : App) :
  storageDistinct ls -> constructor ls today = Some s0 ->
  countersConsistent s0 /\ distinctIds s0.
Proof.
  unfold constructor, loadFromStorage, storageDistinct. intros SD H.
  destruct (savedTasks ls) as [| |l]; destruct (savedLocations ls);
    destruct (savedStats ls);
    (destruct (checkDailyReset _ _); [|discriminate]); injection H as <-;
    unfold countersConsistent, distinctIds; fields;
    rewrite ?recalculateCounters_history;
    try (destruct (recalculateCounters_view (withTasks l (initialApp today)))
           as (-> & -> & ->));
    fields; cbn [initialApp tasks _activeCount _completedCount history];
    repeat split; try constructor; try exact SD; try reflexivity; try lia.
Qed.

(** While no two tasks share an id (in the stored list, and each task is
    added at a clock reading that is not the id of a task of the list),
    the counters agree with a scan of the list after every operation. *)
Lemma counters_consistent_with_distinct_ids
  (ls : Storage) (today : Z) (s0 : App) (ops : list Op) :
  storageDistinct ls -> constructor ls today = Some s0 -> admissible s0 ops ->
  countersConsistent (run ops s0).
Proof.
  intros SD C Ad. destruct (constructor_invariant ls today s0 SD C) as [K D].
  now destruct (run_invariant ops s0 K D Ad).
Qed.

(** C1, on a sequence of operations the counters do not survive: two
    tasks are added at the same reading of the clock, which gives both the
    same id, and that id is deleted.  [deleteTask] takes one task off the
    counters and both tasks off the list: the list is empty and
    [_activeCount] is 1. *)
Theorem counters_drift_on_shared_id :
  let s := run [AddTask "first" "" "" "" 5; AddTask "second" "" "" "" 5;
                DeleteTask "5"] (initialApp 100) in
  reachable s /\
  tasks s = [] /\
  _activeCount s = 1 /\ _completedCount s = 0 /\
  _activeCount s + _completedCount s <> Js.len (tasks s) /\
  ~ countersConsistent s.
Proof.
  intros s. split.
  - exists emptyStorage, 100, (initialApp 100),
      [AddTask "first" "" "" "" 5; AddTask "second" "" "" "" 5; DeleteTask "5"].
    split; reflexivity.
  - assert (E : _activeCount s + _completedCount s <> Js.len (tasks s))
      by (vm_compute; discriminate).
    repeat split; try reflexivity; [exact E|].
    intros [K _]. exact (E K).
Qed.

(** ** The contribution window and the streak *)

Lemma isDate_true (day : Z) (d : Day.t) : isDate day d = true <-> Day.date d = day.
Proof. unfold isDate. apply Z.eqb_eq. Qed.

Lemma incrementTasksCompleted_view (today : Z) (st : Stats) (d : Day.t) :
  find (isDate today) (contributionData st) = Some d ->
  tasksCompletedToday (incrementTasksCompleted today st) = tasksCompletedToday st + 1 /\
  find (isDate today) (contributionData (incrementTasksCompleted today st))
  = Some (Day.mk (Day.date d) (Day.tasks d + 1) (Day.pomodoros d)
            (Day.tasks d + 1 + Day.pomodoros d)).
Proof.
  intros H. unfold incrementTasksCompleted, updateStreak.
  cbn [tasksCompletedToday contributionData withStreak withContributionData
       withTasksCompletedToday].
  split; [reflexivity|].
  rewrite (find_updateFirst (isDate today) _ _ d H); [reflexivity|].
  apply find_some in H as [_ H]. exact H.
Qed.

Lemma decrementTasksCompleted_view (today : Z) (st : Stats) (d : Day.t) :
  find (isDate today) (contributionData st) = Some d ->
  0 < tasksCompletedToday st -> 0 < Day.tasks d ->
  tasksCompletedToday (decrementTasksCompleted today st) = tasksCompletedToday st - 1 /\
  find (isDate today) (contributionData (decrementTasksCompleted today st))
  = Some (Day.mk (Day.date d) (Day.tasks d - 1) (Day.pomodoros d)
            (Day.tasks d - 1 + Day.pomodoros d)).
Proof.
  intros H P Q. unfold decrementTasksCompleted.
  destruct (0 <? tasksCompletedToday st) eqn:E; [|apply Z.ltb_ge in E; lia].
  cbn [tasksCompletedToday contributionData withContributionData
       withTasksCompletedToday].
  split; [reflexivity|].
  rewrite (find_updateFirst (isDate today) _ _ d H).
  - destruct (0 <? Day.tasks d) eqn:F; [reflexivity|apply Z.ltb_ge in F; lia].
  - apply find_some in H as [_ H].
    destruct (0 <? Day.tasks d); exact H.
Qed.

(** C7, as amended: for a task of the list that is not completed, on a day
    that has its entry in the window, with the task counter of that entry
    and [tasksCompletedToday] at 0 or above, [toggleTask] takes one from
    [_activeCount], adds one to [_completedCount] and adds exactly one to
    the day's task counter; toggling the same task again on the same day
    puts both counters, the day's task counter and the task list back to
    what they were. *)
Theorem toggleTask_round_trip (today : Z) (i : string) (s : App) (t : Task) (d : Day.t) :
  find (hasId i) (tasks s) = Some t ->
  completed t = false ->
  find (isDate today) (contributionData (stats s)) = Some d ->
  0 <= Day.tasks d ->
  0 <= tasksCompletedToday (stats s) ->
  let s1 := toggleTask today i s in
  let s2 := toggleTask today i s1 in
  (option_map completed (find (hasId i) (tasks s1)) = Some true /\
   _activeCount s1 = _activeCount s - 1 /\
   _completedCount s1 = _completedCount s + 1 /\
   todayTasks today (stats s1) = Some (Day.tasks d + 1) /\
   tasksCompletedToday (stats s1) = tasksCompletedToday (stats s) + 1) /\
  (tasks s2 = tasks s /\
   _activeCount s2 = _activeCount s /\
   _completedCount s2 = _completedCount s /\
   todayTasks today (stats s2) = Some (Day.tasks d) /\
   tasksCompletedToday (stats s2) = tasksCompletedToday (stats s)).
Proof.
  intros H Hc Hd Pd Pt s1 s2.
  set (flip := fun u : Task => withCompleted (negb (completed u)) u).
  assert (Hi : hasId i t = true) by (apply find_some in H; tauto).
  pose proof (toggleTask_view today i s) as V1. cbn zeta in V1.
  rewrite H, Hc in V1. destruct V1 as (T1 & A1 & C1 & S1). fold s1 flip in T1, A1, C1, S1.
  assert (F1 : find (hasId i) (tasks s1) = Some (withCompleted true t)).
  { rewrite T1, (find_updateFirst (hasId i) flip _ t H); unfold flip.
    - now rewrite Hc.
    - exact Hi. }
  pose proof (toggleTask_view today i s1) as V2. cbn zeta in V2.
  rewrite F1 in V2. cbn [completed withCompleted] in V2.
  destruct V2 as (T2 & A2 & C2 & S2). fold s2 flip in T2, A2, C2, S2.
  destruct (incrementTasksCompleted_view today (stats s) d Hd) as [I1 I2].
  rewrite <- S1 in I1, I2.
  destruct (decrementTasksCompleted_view today (stats s1) _ I2) as [D1 D2];
    [lia|cbn [Day.tasks]; lia|].
  rewrite <- S2 in D1, D2. cbn [Day.tasks Day.date Day.pomodoros] in D2.
  split; [|split]; repeat split.
  - now rewrite F1.
  - exact A1.
  - exact C1.
  - unfold todayTasks. now rewrite I2.
  - exact I1.
  - rewrite T2, T1. apply updateFirst_twice.
    + intros x Hx. exact Hx.
    + intros [xi xt xc xa xd xh xl] _. unfold flip. cbn. now rewrite negb_involutive.
  - lia.
  - lia.
  - unfold todayTasks. rewrite D2. cbn [option_map Day.tasks]. f_equal. lia.
  - lia.
Qed.

Lemma toggleTask_round_trip_witness :
  let s := run [AddTask "Buy milk" "" "" "" 7] (initialApp 100) in
  let s1 := toggleTask 100 "7" s in
  let s2 := toggleTask 100 "7" s1 in
  (_activeCount s = 1 /\ _completedCount s = 0) /\
  (_activeCount s1 = 0 /\ _completedCount s1 = 1 /\
   todayTasks 100 (stats s1) = Some 1) /\
  (_activeCount s2 = 1 /\ _completedCount s2 = 0 /\
   todayTasks 100 (stats s2) = Some 0 /\ tasks s2 = tasks s).
Proof.
  intros s s1 s2.
  destruct (toggleTask_round_trip 100 "7" s
              (mkTask "7" "Buy milk" false 7 None None None)
              (Day.mk 100 0 0 0))
    as ((_ & A1 & C1 & L1 & _) & (T2 & A2 & C2 & L2 & _));
    [reflexivity|reflexivity|reflexivity|now vm_compute|now vm_compute|].
  fold s1 in A1, C1, L1, T2, A2, C2, L2. fold s2 in T2, A2, C2, L2.
  split; [split; reflexivity|]. split.
  - split; [exact A1|]. split; [exact C1|exact L1].
  - split; [exact A2|]. split; [exact C2|]. split; [exact L2|exact T2].
Defined.

(** C7, as stated, fails.  [checkDailyReset] runs at start-up only, so an
    application that was opened on day 100 and is still open on day 101
    has no entry for day 101 in its window.  There, completing a task moves
    both counters and changes no entry of the window; and a task completed
    on day 100 and toggled back on day 101 leaves the task counter of day
    100 at 1, where it was 0.  And with a stored [tasksCompletedToday]
    below 0, toggling back on the same day takes nothing back: the guard of
    [decrementTasksCompleted] sees 0. *)
Lemma toggleTask_after_midnight_misses_ledger :
  let milk := mkTask "7" "Buy milk" false 7 None None None in
  let s := run [AddTask "Buy milk" "" "" "" 7] (initialApp 100) in
  let late := toggleTask 101 "7" s in
  let back := toggleTask 101 "7" (toggleTask 100 "7" s) in
  let stored := mkStorage (Parsed [milk]) Missing
                  (Parsed (mkSavedStats (-1) (Js.Int 0) 0 100 None None)) in
  (reachable s /\ find (hasId "7") (tasks s) = Some milk) /\
  (_activeCount late = _activeCount s - 1 /\
   _completedCount late = _completedCount s + 1 /\
   todayTasks 101 (stats late) = None /\
   contributionData (stats late) = contributionData (stats s)) /\
  (tasks back = tasks s /\
   todayTasks 100 (stats s) = Some 0 /\
   todayTasks 100 (stats back) = Some 1) /\
  (exists s0, constructor stored 100 = Some s0 /\
     find (hasId "7") (tasks s0) = Some milk /\
     todayTasks 100 (stats s0) = Some 0 /\
     todayTasks 100 (stats (toggleTask 100 "7" (toggleTask 100 "7" s0))) = Some 1).
Proof.
  intros milk s late back stored. split; [split|split; [|split]].
  - exists emptyStorage, 100, (initialApp 100), [AddTask "Buy milk" "" "" "" 7].
    split; reflexivity.
  - reflexivity.
  - now vm_compute.
  - now vm_compute.
  - eexists. split; [reflexivity|]. now vm_compute.
Qed.

Lemma lastSix_nth (cd : list Day.t) (k : nat) :
  nth_error cd (length cd - 6 + k) = nth_error (lastSix cd) k.
Proof. unfold lastSix. now rewrite nth_error_skipn. Qed.

(** C5, as amended: when the six most recent days of the window have the
    total activities 0, 1, 1, 1, 0, 1 (oldest first), the streak is 1: the
    scan counts the most recent day and stops at the day before it, which
    has no activity. *)
Theorem streak_of_example_window (st : Stats) :
  map Day.totalActivity (lastSix (contributionData st)) = [0; 1; 1; 1; 0; 1] ->
  streak (updateStreak st) = 1.
Proof.
  intros H. unfold updateStreak. cbn [streak withStreak].
  set (cd := contributionData st) in *.
  assert (L : length (lastSix cd) = 6%nat).
  { rewrite <- (length_map Day.totalActivity), H. reflexivity. }
  assert (N : (6 <= length cd)%nat).
  { unfold lastSix in L. rewrite length_skipn in L. lia. }
  pose proof (lastSix_nth cd 5) as N5.
  pose proof (lastSix_nth cd 4) as N4.
  destruct (lastSix cd) as [|a [|b [|c [|d [|e [|f [|]]]]]]]; try discriminate.
  cbn [map] in H. injection H as _ _ _ _ He Hf. cbn [nth_error] in N5, N4.
  replace (length cd) with (S (S (length cd - 6 + 4))) by lia.
  cbn [streakLoop].
  replace (S (length cd - 6 + 4)) with (length cd - 6 + 5)%nat by lia.
  rewrite N5, Hf. cbn [Z.ltb Z.compare].
  replace (length cd - 6 + 5)%nat with (S (length cd - 6 + 4)) by lia.
  cbn [streakLoop]. rewrite N4, He. reflexivity.
Qed.

Lemma streak_of_example_window_witness :
  let cd := firstn 78 (initContributionData 100)
            ++ [Day.mk 95 0 0 0; Day.mk 96 1 0 1; Day.mk 97 0 1 1;
                Day.mk 98 1 0 1; Day.mk 99 0 0 0; Day.mk 100 1 0 1] in
  length cd = 84%nat /\
  map Day.totalActivity (lastSix cd) = [0; 1; 1; 1; 0; 1] /\
  streak (updateStreak (mkStats 1 (Js.Int 0) 0 100 cd)) = 1.
Proof.
  intros cd. split; [reflexivity|]. split; [reflexivity|].
  apply (streak_of_example_window (mkStats 1 (Js.Int 0) 0 100 cd)). reflexivity.
Defined.

(** C5, as stated, fails: on a window of 84 days whose six most recent
    days have the total activities 0, 1, 1, 1, 0, 1, the streak that
    [updateStreak] stores is 1 and not 3. *)
Lemma streak_of_example_window_is_not_three :
  let cd := firstn 78 (initContributionData 100)
            ++ [Day.mk 95 0 0 0; Day.mk 96 1 0 1; Day.mk 97 0 1 1;
                Day.mk 98 1 0 1; Day.mk 99 0 0 0; Day.mk 100 1 0 1] in
  length cd = 84%nat /\
  map Day.totalActivity (lastSix cd) = [0; 1; 1; 1; 0; 1] /\
  streak (updateStreak (mkStats 1 (Js.Int 0) 0 100 cd)) <> 3.
Proof.
  vm_compute. repeat split; discriminate.
Qed.

Lemma lastElt_some_nonempty {A} (l : list A) (x : A) : Js.lastElt l = Some x -> l <> [].
Proof. intros H E. rewrite E in H. discriminate. Qed.

(** The day rollover keeps the length of a window and leaves it ending
    today. *)
Lemma updateContributionData_window (today : Z) (st st' : Stats) :
  updateContributionData today st = Some st' ->
  length (contributionData st') = length (contributionData st) /\
  option_map Day.date (Js.lastElt (contributionData st')) = Some today.
Proof.
  unfold updateContributionData.
  destruct (Js.lastElt (contributionData st)) as [lastDay|] eqn:E; [|discriminate].
  destruct (Day.date lastDay =? today) eqn:C; cbn [negb]; intros [= <-].
  - rewrite E. apply Z.eqb_eq in C. cbn [option_map]. now rewrite C.
  - cbn [contributionData withContributionData].
    rewrite lastElt_push. split; [|reflexivity].
    unfold Js.push, Js.shift. rewrite length_app.
    apply lastElt_some_nonempty in E.
    destruct (contributionData st); [easy|]. cbn [tl length]. lia.
Qed.

Lemma checkDailyReset_window (today : Z) (st st' : Stats) :
  lastStatsDate st <> today ->
  checkDailyReset today st = Some st' ->
  length (contributionData st') = length (contributionData st) /\
  option_map Day.date (Js.lastElt (contributionData st')) = Some today /\
  lastStatsDate st' = today /\ tasksCompletedToday st' = 0.
Proof.
  intros N. unfold checkDailyReset.
  destruct (lastStatsDate st =? today) eqn:E; [apply Z.eqb_eq in E; easy|].
  cbn [negb]. intros H.
  destruct (updateContributionData_window _ _ _ H) as [L D].
  cbn [contributionData withLastStatsDate withTasksCompletedToday] in L.
  split; [exact L|]. split; [exact D|].
  unfold updateContributionData in H.
  destruct (Js.lastElt _); [|discriminate].
  destruct (negb _); injection H as <-; now split.
Qed.

Lemma initContributionLoop_length (n : nat) (today : Z) :
  length (initContributionLoop n today) = n.
Proof. induction n as [|n IH]; [reflexivity|]. cbn [initContributionLoop length]. now rewrite IH. Qed.

Lemma existsb_false_not_In (x : Z) (l : list Z) :
  existsb (Z.eqb x) l = false -> ~ In x l.
Proof.
  intros H HI.
  assert (T : existsb (Z.eqb x) l = true).
  { apply existsb_exists. exists x. split; [exact HI|apply Z.eqb_refl]. }
  congruence.
Qed.

(** C6, on a rollover after three days: the window that ended on day 100
    is rolled over on day 103.  It still has 84 entries and ends today,
    but only one entry was shifted in: days 101 and 102 have no entry, and
    the entry before today's is that of day 100. *)
Theorem rollover_leaves_skipped_days_out :
  exists st',
    checkDailyReset 103 (stats (initialApp 100)) = Some st' /\
    length (contributionData st') = 84%nat /\
    option_map Day.date (Js.lastElt (contributionData st')) = Some 103 /\
    map Day.date (lastSix (contributionData st')) = [96; 97; 98; 99; 100; 103] /\
    ~ In 101 (map Day.date (contributionData st')) /\
    ~ In 102 (map Day.date (contributionData st')).
Proof.
  eexists. split; [vm_compute; reflexivity|].
  repeat split; try reflexivity;
    apply existsb_false_not_In; vm_compute; reflexivity.
Qed.

(** ** The focus timer *)

(** C8: a duration that is not a number, or is a number that is not above
    zero, is rejected: [startFocusMode] returns the state it was given, so
    no timer field changes and no session starts. *)
Theorem startFocusMode_rejects_bad_duration (taskId minutes : string) (s : App) :
  Js.isNaN minutes = true \/ Js.stringLeZero minutes = true ->
  startFocusMode taskId (Some minutes) s = s.
Proof.
  intros H. unfold startFocusMode.
  destruct (find (hasId taskId) (tasks s)); [|reflexivity].
  destruct H as [H|H]; rewrite H, ?orb_true_r; reflexivity.
Qed.

Lemma startFocusMode_rejects_bad_duration_witness :
  let s := run [AddTask "Write report" "" "" "" 7] (initialApp 100) in
  (exists t, find (hasId "7") (tasks s) = Some t) /\
  focusModeActive s = false /\
  Js.stringLeZero "-5" = true /\
  Js.isNaN "abc" = true /\
  startFocusMode "7" (Some "-5"%string) s = s /\
  startFocusMode "7" (Some "abc"%string) s = s.
Proof.
  intros s. split; [eexists; reflexivity|].
  split; [reflexivity|]. split; [reflexivity|]. split; [reflexivity|].
  split.
  - apply (startFocusMode_rejects_bad_duration "7" "-5" s). right. reflexivity.
  - apply (startFocusMode_rejects_bad_duration "7" "abc" s). left. reflexivity.
Defined.

Lemma withTimeRemaining_same (s : App) : withTimeRemaining (timeRemaining s) s = s.
Proof. now destruct s. Qed.

Lemma ticks_app (a b : nat) (today : Z) (g tb : bool) (s : App) :
  ticks (a + b) today g tb s =
  let '(s1, e1) := ticks a today g tb s in
  let '(s2, e2) := ticks b today g tb s1 in
  (s2, e1 ++ e2).
Proof.
  revert s. induction a as [|a IH]; intros s.
  - cbn [Nat.add ticks]. now destruct (ticks b today g tb s).
  - cbn [Nat.add ticks]. destruct (tick today g tb s) as [s1 e1]. rewrite IH.
    destruct (ticks a today g tb s1) as [s2 e2].
    destruct (ticks b today g tb s2) as [s3 e3]. now rewrite app_assoc.
Qed.

(** While more seconds remain than callbacks fire, each callback takes one
    second off and shows nothing. *)
Lemma ticks_countdown (n : nat) (today : Z) (g tb : bool) (s : App) (k : Z) :
  timerInterval s = true -> timerPaused s = false ->
  timeRemaining s = Js.Int k -> Z.of_nat n < k ->
  ticks n today g tb s = (withTimeRemaining (Js.Int (k - Z.of_nat n)) s, []).
Proof.
  revert s k. induction n as [|n IH]; intros s k I P R L.
  - cbn [ticks]. replace (k - Z.of_nat 0) with k by lia.
    now rewrite <- R, withTimeRemaining_same.
  - cbn [ticks]. unfold tick. rewrite I, P, R. cbn [negb Js.decr].
    fields. cbn [Js.leZero].
    destruct (k - 1 <=? 0) eqn:E; [apply Z.leb_le in E; lia|].
    rewrite (IH _ (k - 1)); [|exact I|exact P|reflexivity|lia].
    cbn [app]. f_equal. unfold withTimeRemaining. fields.
    replace (k - 1 - Z.of_nat n) with (k - Z.of_nat (S n)) by lia. reflexivity.
Qed.

Lemma startFocusMode_frame (taskId : string) (answer : option string) (s : App) :
  let s' := startFocusMode taskId answer s in
  tasks s' = tasks s /\ _activeCount s' = _activeCount s /\
  _completedCount s' = _completedCount s /\ historyOf s' = historyOf s.
Proof.
  cbn zeta. unfold startFocusMode.
  destruct (find _ _); [|now repeat split].
  destruct answer as [minutes|]; [|now repeat split].
  destruct (_ || _); now repeat split.
Qed.

Lemma tick_frame (today : Z) (granted takeBreak : bool) (s : App) :
  let s' := fst (tick today granted takeBreak s) in
  tasks s' = tasks s /\ _activeCount s' = _activeCount s /\
  _completedCount s' = _completedCount s /\ historyOf s' = historyOf s.
Proof.
  cbn zeta. unfold tick, timerComplete, cleanupFocusMode, startBreak.
  destruct (timerInterval s); cbn [negb]; [|now repeat split].
  destruct (timerPaused s); cbn [negb]; [now repeat split|].
  destruct (Js.leZero _); [|now repeat split].
  fields. destruct (isBreakTime s); cbn [negb];
    destruct granted; destruct takeBreak; now repeat split.
Qed.

(** A work session of 25 minutes: 1500 seconds are loaded, the first 1499
    callbacks show nothing and complete nothing, and the 1500th completes
    the session, which counts one pomodoro and 25 minutes.  Without the
    notification permission the break is then offered, 15 minutes when the
    count of sessions is a multiple of 4 and 5 minutes otherwise; with the
    permission the callback stops on a [TypeError] before the offer. *)
Lemma work_session_of_25_minutes
  (today : Z) (taskId : string) (t : Task) (granted takeBreak : bool) (s : App) :
  find (hasId taskId) (tasks s) = Some t ->
  isBreakTime s = false ->
  let s1 := startFocusMode taskId (Some "25"%string) s in
  timeRemaining s1 = Js.Int 1500 /\
  (forall n, (n < 1500)%nat ->
     snd (ticks n today granted takeBreak s1) = [] /\
     pomodoroCount (fst (ticks n today granted takeBreak s1)) = pomodoroCount s /\
     focusModeActive (fst (ticks n today granted takeBreak s1)) = true) /\
  pomodoroCount (fst (ticks 1500 today granted takeBreak s1)) = pomodoroCount s + 1 /\
  totalFocusTime (stats (fst (ticks 1500 today granted takeBreak s1)))
  = Js.plus (totalFocusTime (stats s)) (Js.Int 25) /\
  snd (ticks 1500 today granted takeBreak s1)
  = if granted then [UncaughtTypeError]
    else [Confirm (if Z.rem (pomodoroCount s + 1) 4 =? 0 then 15 else 5)].
Proof.
  intros H B s1.
  assert (E1 : (Js.falsy "25" || Js.isNaN "25" || Js.stringLeZero "25") = false)
    by reflexivity.
  assert (E2 : Js.times (Js.parseInt "25") 60 = Js.Int 1500) by reflexivity.
  assert (S1 : s1 = withTimer true true true (Js.Int 1500) (Js.Int 1500) false
                      (Some t) (isBreakTime s) s).
  { unfold s1, startFocusMode. now rewrite H, E1, E2. }
  assert (C : forall n, (n < 1500)%nat ->
              ticks n today granted takeBreak s1
              = (withTimeRemaining (Js.Int (1500 - Z.of_nat n)) s1, [])).
  { intros n L. apply ticks_countdown; rewrite ?S1; try reflexivity. lia. }
  split; [now rewrite S1|]. split.
  - intros n L. rewrite (C n L), S1. now repeat split.
  - change 1500%nat with (1499 + 1)%nat. rewrite ticks_app, (C 1499%nat) by lia.
    cbn [ticks]. unfold tick. rewrite S1. fields. cbn [negb Js.decr Js.leZero].
    replace (1500 - Z.of_nat 1499 - 1 <=? 0) with true by reflexivity.
    unfold timerComplete. fields. rewrite B. cbn [negb]. fields.
    unfold cleanupFocusMode, startBreak, addFocusTime. fields.
    cbn [totalFocusTime withTotalFocusTime incrementPomodoros withContributionData
         Js.roundDiv60].
    replace ((1500 + 30) / 60) with 25 by reflexivity.
    destruct granted; [now repeat split|].
    destruct takeBreak; fields; cbn [fst snd app totalFocusTime withTotalFocusTime];
      now repeat split.
Qed.

(** C9, with the notification permission granted: a session of 25 minutes
    is started and the callback fires 1500 times.  The session completes
    at the 1500th callback and not before, one pomodoro and 25 minutes are
    counted, and the callback then stops on the [TypeError] of reading
    [currentTask.text] after [cleanupFocusMode] has cleared [currentTask]:
    no break is offered.  Without the permission the same run offers the
    5-minute break. *)
Theorem granted_notification_loses_break_offer :
  let s := run [AddTask "Write report" "" "" "" 7] (initialApp 100) in
  let s1 := startFocusMode "7" (Some "25"%string) s in
  timeRemaining s1 = Js.Int 1500 /\
  snd (ticks 1499 100 true true s1) = [] /\
  pomodoroCount (fst (ticks 1499 100 true true s1)) = 0 /\
  pomodoroCount (fst (ticks 1500 100 true true s1)) = 1 /\
  totalFocusTime (stats (fst (ticks 1500 100 true true s1))) = Js.Int 25 /\
  snd (ticks 1500 100 true true s1) = [UncaughtTypeError] /\
  focusModeActive (fst (ticks 1500 100 true true s1)) = false /\
  snd (ticks 1500 100 false true s1) = [Confirm 5].
Proof.
  vm_compute. repeat split.
Qed.

(* ================================================================== *)
(** * Further properties of the task store *)

Lemma dropWhile_all {A} (p : A -> bool) (l : list A) :
  forallb p l = true -> Js.dropWhile p l = [].
Proof.
  induction l as [|x r IH]; [reflexivity|]. cbn [forallb Js.dropWhile].
  destruct (p x); [exact IH|discriminate].
Qed.

Lemma dropWhile_keeps {A} (p : A -> bool) (l : list A) (x : A) :
  In x l -> p x = false -> In x (Js.dropWhile p l).
Proof.
  induction l as [|y r IH]; [easy|]. cbn [Js.dropWhile]. intros [->|H] E.
  - rewrite E. now left.
  - destruct (p y); [now apply IH|now right].
Qed.

Lemma trim_blank (t : string) :
  forallb Js.isWhite (Js.chars t) = true -> Js.trim t = ""%string.
Proof.
  intros H. unfold Js.trim, Js.trimChars. now rewrite (dropWhile_all _ _ H).
Qed.

Lemma trim_not_blank (t : string) :
  existsb (fun c => negb (Js.isWhite c)) (Js.chars t) = true ->
  Js.falsy (Js.trim t) = false.
Proof.
  intros H. apply existsb_exists in H as (c & Hc & Hw).
  apply negb_true_iff in Hw.
  assert (I : In c (Js.trimChars (Js.chars t))).
  { unfold Js.trimChars. rewrite <- in_rev. apply dropWhile_keeps; [|exact Hw].
    rewrite <- in_rev. now apply dropWhile_keeps. }
  unfold Js.trim. destruct (Js.trimChars (Js.chars t)); [easy|reflexivity].
Qed.

(** X1: a text made of white space only (the empty text included) adds
    nothing: [addTask] returns the state it was given, history included. *)
Theorem addTask_ignores_blank_text
  (taskInput dueDateInput dueTimeInput locationInput : string) (now : Z) (s : App) :
  forallb Js.isWhite (Js.chars taskInput) = true ->
  addTask taskInput dueDateInput dueTimeInput locationInput now s = s.
Proof.
  intros H. unfold addTask. now rewrite (trim_blank _ H).
Qed.

Lemma addTask_ignores_blank_text_witness :
  let s := run [AddTask "a" "" "" "" 1] (initialApp 100) in
  forallb Js.isWhite (Js.chars "   ") = true /\
  addTask "   " "2024-05-01" "10:00" "Home" 2 s = s /\
  addTask "" "" "" "" 2 s = s.
Proof.
  intros s. split; [reflexivity|]. split.
  - apply (addTask_ignores_blank_text "   " "2024-05-01" "10:00" "Home" 2 s).
    reflexivity.
  - apply (addTask_ignores_blank_text "" "" "" "" 2 s). reflexivity.
Defined.

Lemma addRecentLocation_history (loc : string) (s : App) :
  history (addRecentLocation loc s) = history s.
Proof. unfold addRecentLocation. now destruct (Js.falsy _). Qed.

(** X2: a text with a character that is not white space puts one task at
    the head of the list, before the tasks that were there, in their
    order: its id is the clock reading, its text is trimmed, it is not
    completed, and empty form fields are stored as [null].  One is added
    to [_activeCount], and the list as it was is the last snapshot of the
    history. *)
Theorem addTask_prepends_task
  (taskInput dueDateInput dueTimeInput locationInput : string) (now : Z) (s : App) :
  existsb (fun c => negb (Js.isWhite c)) (Js.chars taskInput) = true ->
  historyBounded s ->
  let s' := addTask taskInput dueDateInput dueTimeInput locationInput now s in
  tasks s' = mkTask (Js.toString now) (Js.trim taskInput) false now
               (Js.orNull dueDateInput) (Js.orNull dueTimeInput)
               (Js.orNull (Js.trim locationInput)) :: tasks s /\
  _activeCount s' = _activeCount s + 1 /\
  _completedCount s' = _completedCount s /\
  Js.lastElt (history s') = Some (tasks s).
Proof.
  intros H HB s'. unfold s', addTask. rewrite (trim_not_blank _ H).
  cbn [location]. destruct (saveState_counters s) as [Ha Hc].
  pose proof (saveState_snapshot_last s HB) as L.
  destruct (Js.orNull (Js.trim locationInput)) as [loc|].
  - match goal with
    | |- context [addRecentLocation loc ?x] =>
        destruct (addRecentLocation_frame loc x) as (_ & T & A & C & _)
    end.
    rewrite T, A, C, addRecentLocation_history. fields.
    rewrite saveState_tasks, Ha, Hc. now repeat split.
  - fields. rewrite saveState_tasks, Ha, Hc. now repeat split.
Qed.

Lemma addTask_prepends_task_witness :
  let s := run [AddTask "a" "" "" "" 1] (initialApp 100) in
  let s' := addTask "  Buy milk " "" "09:30" " Shop " 2 s in
  tasks s' = mkTask "2" "Buy milk" false 2 None (Some "09:30"%string)
               (Some "Shop"%string) :: tasks s /\
  _activeCount s' = 2 /\
  Js.lastElt (history s') = Some (tasks s).
Proof.
  intros s s'.
  assert (HB : historyBounded s).
  { apply reachable_bounded.
    exists emptyStorage, 100, (initialApp 100), [AddTask "a" "" "" "" 1].
    split; reflexivity. }
  destruct (addTask_prepends_task "  Buy milk " "" "09:30" " Shop " 2 s)
    as (T & A & _ & L); [reflexivity|exact HB|].
  split; [exact T|]. split; [exact A|exact L].
Defined.

Lemma find_filter_none {A} (p : A -> bool) (l : list A) :
  find p (filter (fun x => negb (p x)) l) = None.
Proof.
  induction l as [|x r IH]; [reflexivity|]. cbn [filter].
  destruct (p x) eqn:E; cbn [negb]; [exact IH|]. cbn [find]. now rewrite E.
Qed.

(** X3: after [deleteTask] no task of the list has the id; the tasks with
    another id stay, in their order; and deleting the same id again
    changes neither the list nor the counters. *)
Theorem deleteTask_removes_id (i : string) (s : App) :
  let s' := deleteTask i s in
  tasks s' = filter (fun t => negb (hasId i t)) (tasks s) /\
  find (hasId i) (tasks s') = None /\
  ~ In i (ids (tasks s')) /\
  tasks (deleteTask i s') = tasks s' /\
  _activeCount (deleteTask i s') = _activeCount s' /\
  _completedCount (deleteTask i s') = _completedCount s'.
Proof.
  intros s'. destruct (deleteTask_view i s) as [T _]. fold s' in T.
  assert (F : find (hasId i) (tasks s') = None).
  { rewrite T. apply find_filter_none. }
  destruct (deleteTask_view i s') as [T2 V2]. rewrite F in V2.
  split; [exact T|]. split; [exact F|]. split.
  - intros H. apply in_map_iff in H as (t & E & Ht).
    apply (find_none _ _ F) in Ht. apply hasId_true in E. congruence.
  - rewrite T2, (find_none_filter i _ F). now destruct V2.
Qed.

Lemma completedOf_filter_completed (l : list Task) :
  completedOf (filter (fun t => negb (completed t)) l) = 0 /\
  Forall (fun t => completed t = false) (filter (fun t => negb (completed t)) l).
Proof.
  split; [apply clear_counts|].
  apply Forall_forall. intros t H. apply filter_In in H as [_ H].
  now apply negb_true_iff in H.
Qed.

(** X4: [clearCompletedTasks] leaves exactly the tasks of the active view,
    in their order, none of them completed, with [_completedCount] 0;
    counters that agreed with the list before agree with it after. *)
Theorem clearCompletedTasks_keeps_active (s : App) :
  countersConsistent s ->
  let s' := clearCompletedTasks s in
  tasks s' = getFilteredTasks "active" s /\
  Forall (fun t => completed t = false) (tasks s') /\
  _completedCount s' = 0 /\
  _activeCount s' = Js.len (tasks s') /\
  countersConsistent s'.
Proof.
  intros [C1 C2] s'. destruct (clearCompletedTasks_view s) as (T & A & K).
  fold s' in T, A, K. destruct (clear_counts (tasks s)) as [P1 P2].
  destruct (completedOf_filter_completed (tasks s)) as [_ F].
  unfold countersConsistent. rewrite T, A, K, P1, P2.
  repeat split; try exact F; lia.
Qed.

Lemma clearCompletedTasks_keeps_active_witness :
  let s := toggleTask 100 "2"
             (run [AddTask "a" "" "" "" 1; AddTask "b" "" "" "" 2;
                   AddTask "c" "" "" "" 3] (initialApp 100)) in
  countersConsistent s /\
  ids (tasks (clearCompletedTasks s)) = ["3"; "1"]%string /\
  _completedCount (clearCompletedTasks s) = 0 /\
  _activeCount (clearCompletedTasks s) = 2.
Proof.
  intros s.
  assert (C : countersConsistent s) by (split; reflexivity).
  destruct (clearCompletedTasks_keeps_active s C) as (_ & _ & K & _ & _).
  split; [exact C|]. split; [reflexivity|]. split; [exact K|reflexivity].
Defined.

Lemma completedOf_all (l : list Task) :
  completedOf l = Js.len l <-> forallb completed l = true.
Proof.
  induction l as [|t r IH]; [now cbn|].
  rewrite completedOf_cons, len_cons. cbn [forallb].
  pose proof (completedOf_bounds r) as B.
  destruct (completed t); cbn [andb].
  - rewrite <- IH. lia.
  - split; [lia|discriminate].
Qed.

Lemma withCompleted_same (t : Task) : withCompleted (completed t) t = t.
Proof. now destruct t. Qed.

Lemma markAllComplete_map (today : Z) (l : list Task) (st : Stats) :
  fst (markAllComplete today l st) = map (withCompleted true) l.
Proof.
  revert st. induction l as [|t r IH]; intros st; [reflexivity|].
  cbn [markAllComplete map]. destruct (completed t) eqn:E; cbn [negb].
  - specialize (IH st). destruct (markAllComplete today r st) as [r' st'].
    cbn [fst] in *. now rewrite IH, <- E, withCompleted_same.
  - specialize (IH (incrementTasksCompleted today st)).
    destruct (markAllComplete today r _) as [r' st']. cbn [fst] in *. now rewrite IH.
Qed.

Lemma markAllIncomplete_map (today : Z) (l : list Task) (st : Stats) :
  fst (markAllIncomplete today l st) = map (withCompleted false) l.
Proof.
  revert st. induction l as [|t r IH]; intros st; [reflexivity|].
  cbn [markAllIncomplete map]. destruct (completed t) eqn:E.
  - specialize (IH (decrementTasksCompleted today st)).
    destruct (markAllIncomplete today r _) as [r' st']. cbn [fst] in *. now rewrite IH.
  - specialize (IH st). destruct (markAllIncomplete today r st) as [r' st'].
    cbn [fst] in *. now rewrite IH, <- E, withCompleted_same.
Qed.

Lemma toggleAllTasks_tasks (today : Z) (s : App) :
  tasks (toggleAllTasks today s)
  = map (withCompleted (negb (_completedCount s =? Js.len (tasks s)))) (tasks s).
Proof.
  unfold toggleAllTasks. rewrite saveState_tasks.
  destruct (saveState_counters s) as [_ ->].
  destruct (_completedCount s =? Js.len (tasks s)); cbn [negb].
  - pose proof (markAllIncomplete_map today (tasks s) (stats (saveState s))) as M.
    destruct (markAllIncomplete _ _ _) as [l st]. now fields.
  - pose proof (markAllComplete_map today (tasks s) (stats (saveState s))) as M.
    destruct (markAllComplete _ _ _) as [l st]. now fields.
Qed.

(** X5: with counters that agree with the list, [toggleAllTasks] marks
    every task incomplete when all tasks were completed (an empty list
    counts as all completed and stays empty) and marks every task
    completed otherwise; nothing else of a task changes, and the order is
    kept. *)
Theorem toggleAllTasks_sets_every_flag (today : Z) (s : App) :
  countersConsistent s ->
  let s' := toggleAllTasks today s in
  tasks s' = map (withCompleted (negb (forallb completed (tasks s)))) (tasks s) /\
  Forall (fun t => completed t = negb (forallb completed (tasks s))) (tasks s') /\
  ids (tasks s') = ids (tasks s).
Proof.
  intros [C1 C2] s'. unfold s'.
  assert (E : (_completedCount s =? Js.len (tasks s)) = forallb completed (tasks s)).
  { destruct (forallb completed (tasks s)) eqn:F.
    - apply Z.eqb_eq. rewrite C2. now apply completedOf_all.
    - apply Z.eqb_neq. rewrite C2. intros H. apply completedOf_all in H. congruence. }
  rewrite toggleAllTasks_tasks, E. split; [reflexivity|]. split.
  - apply Forall_forall. intros t H. apply in_map_iff in H as (u & <- & _). reflexivity.
  - unfold ids. rewrite map_map. reflexivity.
Qed.

Lemma toggleAllTasks_sets_every_flag_witness :
  let s := toggleTask 100 "2"
             (run [AddTask "a" "" "" "" 1; AddTask "b" "" "" "" 2] (initialApp 100)) in
  countersConsistent s /\
  map completed (tasks s) = [true; false] /\
  map completed (tasks (toggleAllTasks 100 s)) = [true; true] /\
  map completed (tasks (toggleAllTasks 100 (toggleAllTasks 100 s))) = [false; false].
Proof.
  intros s.
  assert (C : countersConsistent s) by (split; reflexivity).
  destruct (toggleAllTasks_sets_every_flag 100 s C) as (T & _ & _).
  split; [exact C|]. split; [reflexivity|]. split; [now rewrite T|reflexivity].
Defined.

(** X6: [toggleAllTasks] leaves counters that agree with the list,
    whatever the counters were before: it sets both from the length of
    the list it has just marked. *)
Theorem toggleAllTasks_restores_counters (today : Z) (s : App) :
  countersConsistent (toggleAllTasks today s) /\
  Js.len (tasks (toggleAllTasks today s)) = Js.len (tasks s).
Proof.
  destruct (toggleAllTasks_view today s) as (_ & L & K). now split.
Qed.

Lemma incrementTasksCompleted_date (today : Z) (st : Stats) :
  map Day.date (contributionData (incrementTasksCompleted today st))
  = map Day.date (contributionData st).
Proof.
  unfold incrementTasksCompleted, updateStreak.
  cbn [contributionData withStreak withContributionData withTasksCompletedToday].
  induction (contributionData st) as [|d r IH]; [reflexivity|].
  cbn [Js.updateFirst]. destruct (isDate today d); cbn [map Day.date]; congruence.
Qed.

(** What the second loop of [toggleAllTasks] reports to the statistics:
    one completion for each task that was not completed. *)
Lemma markAllComplete_stats (today : Z) (l : list Task) (st : Stats) (d : Day.t) :
  find (isDate today) (contributionData st) = Some d ->
  let st' := snd (markAllComplete today l st) in
  tasksCompletedToday st' = tasksCompletedToday st + (Js.len l - completedOf l) /\
  todayTasks today st' = Some (Day.tasks d + (Js.len l - completedOf l)).
Proof.
  revert st d. induction l as [|t r IH]; intros st d H.
  - cbn. unfold todayTasks. rewrite H. cbn. split; [lia|f_equal; lia].
  - cbn [markAllComplete]. rewrite completedOf_cons, len_cons.
    destruct (completed t); cbn [negb].
    + specialize (IH st d H). cbn zeta in IH.
      destruct (markAllComplete today r st) as [r' st']. cbn [snd] in *.
      destruct IH as [I1 I2]. rewrite I1, I2. split; [lia|f_equal; lia].
    + destruct (incrementTasksCompleted_view today st d H) as [V1 V2].
      specialize (IH _ _ V2). cbn zeta in IH.
      destruct (markAllComplete today r _) as [r' st']. cbn [snd] in *.
      destruct IH as [I1 I2]. rewrite I1, I2, V1. cbn [Day.tasks].
      split; [lia|f_equal; lia].
Qed.

(** X7: when [toggleAllTasks] marks the tasks completed, on a day that
    has its entry in the window, the day's task counter and
    [tasksCompletedToday] both grow by the number of tasks that were not
    completed: each completion is counted once, and tasks already
    completed are not counted again. *)
Theorem toggleAllTasks_counts_each_completion (today : Z) (s : App) (d : Day.t) :
  countersConsistent s ->
  forallb completed (tasks s) = false ->
  find (isDate today) (contributionData (stats s)) = Some d ->
  let s' := toggleAllTasks today s in
  let fresh := Js.len (tasks s) - completedOf (tasks s) in
  todayTasks today (stats s') = Some (Day.tasks d + fresh) /\
  tasksCompletedToday (stats s') = tasksCompletedToday (stats s) + fresh /\
  0 < fresh.
Proof.
  intros [C1 C2] F H s' fresh.
  assert (E : (_completedCount s =? Js.len (tasks s)) = false).
  { apply Z.eqb_neq. rewrite C2. intros K. apply completedOf_all in K. congruence. }
  assert (P : 0 < fresh).
  { unfold fresh. pose proof (completedOf_bounds (tasks s)) as B.
    apply Z.eqb_neq in E. lia. }
  unfold s', toggleAllTasks. rewrite saveState_tasks.
  destruct (saveState_counters s) as [_ ->]. rewrite E.
  pose proof (markAllComplete_stats today (tasks s) (stats (saveState s)) d) as M.
  rewrite saveState_stats in *. specialize (M H). cbn zeta in M.
  destruct (markAllComplete today (tasks s) (stats s)) as [l st].
  cbn [snd] in M. fields. destruct M as [M1 M2]. now repeat split.
Qed.

Lemma toggleAllTasks_counts_each_completion_witness :
  let s := toggleTask 100 "2"
             (run [AddTask "a" "" "" "" 1; AddTask "b" "" "" "" 2;
                   AddTask "c" "" "" "" 3] (initialApp 100)) in
  todayTasks 100 (stats s) = Some 1 /\
  todayTasks 100 (stats (toggleAllTasks 100 s)) = Some 3 /\
  tasksCompletedToday (stats (toggleAllTasks 100 s)) = 3.
Proof.
  intros s.
  destruct (toggleAllTasks_counts_each_completion 100 s (Day.mk 100 1 0 1))
    as (T & K & _); [split; reflexivity|reflexivity|reflexivity|].
  split; [reflexivity|]. split; [exact T|exact K].
Defined.

Lemma updateFirst_none {A} (p : A -> bool) (f : A -> A) (l : list A) :
  find p l = None -> Js.updateFirst p f l = l.
Proof.
  induction l as [|x r IH]; [reflexivity|]. cbn [find Js.updateFirst].
  destruct (p x); [discriminate|]. intros H. now rewrite IH.
Qed.

Lemma updateFirst_map_same {A B} (p : A -> bool) (f : A -> A) (g : A -> B) (l : list A) :
  (forall x, g (f x) = g x) -> map g (Js.updateFirst p f l) = map g l.
Proof.
  intros H. induction l as [|x r IH]; [reflexivity|]. cbn [Js.updateFirst].
  destruct (p x); cbn [map]; [now rewrite H|now rewrite IH].
Qed.

Lemma updateFirst_filter_others {A} (p : A -> bool) (f : A -> A) (l : list A) :
  (forall x, p x = true -> p (f x) = true) ->
  filter (fun x => negb (p x)) (Js.updateFirst p f l) = filter (fun x => negb (p x)) l.
Proof.
  intros H. induction l as [|x r IH]; [reflexivity|]. cbn [Js.updateFirst].
  destruct (p x) eqn:E; cbn [filter].
  - now rewrite (H x E), E.
  - now rewrite E, IH.
Qed.

Lemma saveEdit_tasks (i t d h l : string) (s : App) :
  Js.falsy (Js.trim t) = false ->
  tasks (saveEdit i t d h l s)
  = Js.updateFirst (hasId i)
      (fun u => mkTask (id u) (Js.trim t) (completed u) (createdAt u)
                  (Js.orNull d) (Js.orNull h) (Js.orNull (Js.trim l)))
      (tasks s) /\
  editingTaskId (saveEdit i t d h l s) = None.
Proof.
  intros E. unfold saveEdit. rewrite E. fields. rewrite saveState_tasks.
  split; [|reflexivity].
  destruct (find (hasId i) (tasks s)) eqn:F.
  - destruct (Js.orNull (Js.trim l)) as [loc|].
    + match goal with
      | |- context [addRecentLocation loc ?x] =>
          destruct (addRecentLocation_frame loc x) as (_ & T & _)
      end.
      rewrite T. fields. now rewrite ?saveState_tasks.
    + fields. now rewrite ?saveState_tasks.
  - now rewrite ?saveState_tasks, (updateFirst_none _ _ _ F).
Qed.

(** X8: [saveEdit] with a text that is not blank rewrites the first task
    with the id and no other: that task gets the trimmed text, the new due
    date, due time and location (empty fields as [null]) and keeps its id,
    its completed flag and its creation time; the tasks with another id,
    the order, the completed flags and both counters stay as they were,
    and the edit mode is left. *)
Theorem saveEdit_rewrites_one_task
  (i newText newDueDate newDueTime newLocation : string) (s : App) (t : Task) :
  existsb (fun c => negb (Js.isWhite c)) (Js.chars newText) = true ->
  find (hasId i) (tasks s) = Some t ->
  let s' := saveEdit i newText newDueDate newDueTime newLocation s in
  find (hasId i) (tasks s')
  = Some (mkTask (id t) (Js.trim newText) (completed t) (createdAt t)
            (Js.orNull newDueDate) (Js.orNull newDueTime)
            (Js.orNull (Js.trim newLocation))) /\
  filter (fun u => negb (hasId i u)) (tasks s')
  = filter (fun u => negb (hasId i u)) (tasks s) /\
  ids (tasks s') = ids (tasks s) /\
  map completed (tasks s') = map completed (tasks s) /\
  _activeCount s' = _activeCount s /\
  _completedCount s' = _completedCount s /\
  editingTaskId s' = None.
Proof.
  intros H F s'. pose proof (trim_not_blank _ H) as E.
  destruct (saveEdit_tasks i newText newDueDate newDueTime newLocation s E) as [T Ed].
  destruct (saveEdit_view i newText newDueDate newDueTime newLocation s E)
    as (I & _ & _ & A & C).
  fold s' in T, Ed, I, A, C. rewrite T.
  assert (P : forall u, hasId i u = true ->
              hasId i (mkTask (id u) (Js.trim newText) (completed u) (createdAt u)
                         (Js.orNull newDueDate) (Js.orNull newDueTime)
                         (Js.orNull (Js.trim newLocation))) = true)
    by (intros u Hu; exact Hu).
  repeat split; auto.
  - rewrite (find_updateFirst _ _ _ t F); [reflexivity|].
    apply P. apply find_some in F. tauto.
  - now apply updateFirst_filter_others.
  - now rewrite <- T.
  - now apply updateFirst_map_same.
Qed.

Lemma saveEdit_rewrites_one_task_witness :
  let s := toggleTask 100 "1"
             (run [AddTask "a" "" "" "" 1; AddTask "b" "" "" "" 2] (initialApp 100)) in
  let s' := saveEdit "1" " a, again " "2024-05-01" "" "" s in
  find (hasId "1") (tasks s')
  = Some (mkTask "1" "a, again" true 1 (Some "2024-05-01"%string) None None) /\
  ids (tasks s') = ["2"; "1"]%string /\
  _completedCount s' = 1.
Proof.
  intros s s'.
  destruct (saveEdit_rewrites_one_task "1" " a, again " "2024-05-01" "" "" s
              (mkTask "1" "a" true 1 None None None))
    as (F & _ & I & _ & _ & C & _); [reflexivity|reflexivity|].
  split; [exact F|]. split; [exact I|exact C].
Defined.

Lemma findIndexFrom_found {A} (p : A -> bool) (l : list A) (k : Z) (x : A) :
  find p l = Some x ->
  exists n, Js.findIndexFrom p l k = k + Z.of_nat n /\
            nth_error l n = Some x /\ (n < length l)%nat.
Proof.
  revert k. induction l as [|y r IH]; intros k; [discriminate|].
  cbn [find Js.findIndexFrom]. destruct (p y).
  - intros [= <-]. exists 0%nat. cbn. repeat split; lia.
  - intros H. destruct (IH (k + 1) H) as (n & E & N & L).
    exists (S n). cbn [nth_error length]. repeat split; [lia|exact N|lia].
Qed.

Lemma skipn_nth_error {A} (l : list A) (n : nat) (x : A) :
  nth_error l n = Some x -> skipn n l = x :: skipn (S n) l.
Proof.
  revert l. induction n as [|n IH]; intros [|y r]; try discriminate.
  - now intros [= ->].
  - cbn [nth_error]. intros H. rewrite skipn_cons. now rewrite (IH r H).
Qed.

Lemma relIndex_in_range {A} (l : list A) (n : nat) :
  (n <= length l)%nat -> Js.relIndex (Z.of_nat n) l = n.
Proof.
  intros H. unfold Js.relIndex, Js.len.
  destruct (Z.of_nat n <? 0) eqn:E; [apply Z.ltb_lt in E; lia|]. lia.
Qed.

(** X9: a drop of one rendered task item on another puts the dragged task
    at the index the target task had, and permutes the list: no task is
    lost, repeated or changed, and the counters are not touched.  (The
    dragged task lands before the target when it is dragged up the list,
    and after it when it is dragged down.) *)
Theorem handleDrop_moves_to_target_index (dragged target : Element) (s : App) (x y : Task) :
  sameNode target dragged = false ->
  find (hasId (dataId dragged)) (tasks s) = Some x ->
  find (hasId (dataId target)) (tasks s) = Some y ->
  let s' := handleDrop (Some dragged) (Some target) s in
  Js.index (tasks s) (Js.findIndex (hasId (dataId dragged)) (tasks s)) = Some x /\
  Js.index (tasks s') (Js.findIndex (hasId (dataId target)) (tasks s)) = Some x /\
  Permutation (tasks s) (tasks s') /\
  _activeCount s' = _activeCount s /\
  _completedCount s' = _completedCount s.
Proof.
  intros N Fx Fy s'.
  destruct (handleDrop_view (Some dragged) (Some target) s) as (A & C & P).
  fold s' in A, C, P.
  destruct (findIndexFrom_found _ _ 0 _ Fx) as (na & Ea & Na & La).
  destruct (findIndexFrom_found _ _ 0 _ Fy) as (nb & Eb & Nb & Lb).
  cbn [Z.add] in Ea, Eb. unfold Js.findIndex. rewrite Ea, Eb.
  assert (Ix : Js.index (tasks s) (Z.of_nat na) = Some x).
  { unfold Js.index. destruct (Z.of_nat na <? 0) eqn:E; [apply Z.ltb_lt in E; lia|].
    now rewrite Nat2Z.id. }
  repeat split; auto.
  unfold s', handleDrop. rewrite N, saveState_tasks.
  unfold Js.findIndex. rewrite Ea, Eb. unfold Js.spliceOut.
  rewrite (relIndex_in_range (tasks s) na) by lia.
  rewrite (skipn_nth_error _ _ _ Na). cbn [firstn]. fields.
  unfold Js.spliceIn.
  set (rest := firstn na (tasks s) ++ skipn (S na) (tasks s)).
  assert (Lr : (nb <= length rest)%nat).
  { unfold rest. rewrite length_app, length_firstn, length_skipn. lia. }
  rewrite (relIndex_in_range rest nb Lr).
  unfold Js.index. destruct (Z.of_nat nb <? 0) eqn:E; [apply Z.ltb_lt in E; lia|].
  rewrite Nat2Z.id, nth_error_app2; rewrite length_firstn; [|lia].
  replace (nb - Nat.min nb (length rest))%nat with 0%nat by lia. reflexivity.
Qed.

Lemma handleDrop_moves_to_target_index_witness :
  let s := run [AddTask "a" "" "" "" 1; AddTask "b" "" "" "" 2;
                AddTask "c" "" "" "" 3; AddTask "d" "" "" "" 4] (initialApp 100) in
  ids (tasks s) = ["4"; "3"; "2"; "1"]%string /\
  ids (tasks (handleDrop (Some (mkElement 0 "4")) (Some (mkElement 2 "2")) s))
  = ["3"; "2"; "4"; "1"]%string /\
  ids (tasks (handleDrop (Some (mkElement 3 "1")) (Some (mkElement 1 "3")) s))
  = ["4"; "1"; "3"; "2"]%string /\
  Js.index (tasks (handleDrop (Some (mkElement 0 "4")) (Some (mkElement 2 "2")) s)) 2
  = Some (mkTask "4" "d" false 4 None None None).
Proof.
  intros s.
  destruct (handleDrop_moves_to_target_index (mkElement 0 "4") (mkElement 2 "2") s
              (mkTask "4" "d" false 4 None None None)
              (mkTask "2" "b" false 2 None None None))
    as (_ & I & _ & _ & _); [reflexivity|reflexivity|reflexivity|].
  split; [reflexivity|]. split; [reflexivity|]. split; [reflexivity|exact I].
Defined.

(* ================================================================== *)
(** * Further properties of the history and of start-up *)

Lemma undo_history (s : App) : history (undo s) = history s.
Proof.
  unfold undo. destruct (_ <=? _); [reflexivity|].
  pose proof (restoreAt_history (historyIndex s - 1) s) as H.
  unfold historyOf in H. now injection H.
Qed.

Lemma redo_history (s : App) : history (redo s) = history s.
Proof.
  unfold redo. destruct (_ <=? _); [reflexivity|].
  pose proof (restoreAt_history (historyIndex s + 1) s) as H.
  unfold historyOf in H. now injection H.
Qed.

Lemma restoreAt_found (i : Z) (s : App) (l : list Task) :
  Js.index (history s) i = Some l ->
  tasks (restoreAt i s) = l /\
  history (restoreAt i s) = history s /\
  historyIndex (restoreAt i s) = i /\
  countersConsistent (restoreAt i s).
Proof.
  intros H. pose proof (restoreAt_history i s) as R.
  unfold historyOf in R. injection R as R1 R2.
  split; [now apply restoreAt_tasks|]. split; [exact R1|]. split; [exact R2|].
  unfold restoreAt. fields. rewrite H. apply recalculateCounters_consistent.
Qed.

(** X10: in a reachable state with the cursor above 0, [undo] always finds
    the entry before the cursor: it installs that snapshot as the task
    list, moves the cursor back by one, leaves the entries of the history
    alone, and leaves counters that agree with the installed list,
    whatever they were before. *)
Theorem undo_installs_previous_snapshot (s : App) :
  reachable s ->
  0 < historyIndex s ->
  Js.index (history s) (historyIndex s - 1) = Some (tasks (undo s)) /\
  history (undo s) = history s /\
  historyIndex (undo s) = historyIndex s - 1 /\
  countersConsistent (undo s).
Proof.
  intros R P. destruct (reachable_bounded s R) as (B & _).
  destruct (index_in_bounds (history s) (historyIndex s - 1)) as [l H]; [lia|].
  unfold undo. destruct (historyIndex s <=? 0) eqn:E; [apply Z.leb_le in E; lia|].
  destruct (restoreAt_found _ _ _ H) as (T & Hh & Hi & C).
  rewrite T. split; [exact H|]. split; [exact Hh|]. split; [exact Hi|exact C].
Qed.

Lemma undo_installs_previous_snapshot_witness :
  let s := run [AddTask "a" "" "" "" 1; AddTask "b" "" "" "" 2; DeleteTask "1"]
             (initialApp 100) in
  0 < historyIndex s /\
  ids (tasks s) = ["2"]%string /\
  ids (tasks (undo s)) = ["1"]%string /\
  historyIndex (undo s) = historyIndex s - 1 /\
  countersConsistent (undo s).
Proof.
  intros s.
  assert (R : reachable s).
  { exists emptyStorage, 100, (initialApp 100),
      [AddTask "a" "" "" "" 1; AddTask "b" "" "" "" 2; DeleteTask "1"].
    split; reflexivity. }
  assert (P : 0 < historyIndex s) by reflexivity.
  destruct (undo_installs_previous_snapshot s R P) as (_ & _ & I & C).
  split; [exact P|]. split; [reflexivity|]. split; [reflexivity|].
  split; [exact I|exact C].
Defined.

(** X11: in a reachable state with entries after the cursor, [redo] always
    finds the next entry: it installs that snapshot, moves the cursor
    forward by one, leaves the entries of the history alone, and leaves
    counters that agree with the installed list. *)
Theorem redo_installs_next_snapshot (s : App) :
  reachable s ->
  historyIndex s < Js.len (history s) - 1 ->
  Js.index (history s) (historyIndex s + 1) = Some (tasks (redo s)) /\
  history (redo s) = history s /\
  historyIndex (redo s) = historyIndex s + 1 /\
  countersConsistent (redo s).
Proof.
  intros R P. destruct (reachable_bounded s R) as (B & _).
  destruct (index_in_bounds (history s) (historyIndex s + 1)) as [l H]; [lia|].
  unfold redo.
  destruct (Js.len (history s) - 1 <=? historyIndex s) eqn:E;
    [apply Z.leb_le in E; lia|].
  destruct (restoreAt_found _ _ _ H) as (T & Hh & Hi & C).
  rewrite T. split; [exact H|]. split; [exact Hh|]. split; [exact Hi|exact C].
Qed.

Lemma redo_installs_next_snapshot_witness :
  let s := run [AddTask "a" "" "" "" 1; AddTask "b" "" "" "" 2;
                DeleteTask "1"; Undo; Undo] (initialApp 100) in
  historyIndex s < Js.len (history s) - 1 /\
  ids (tasks s) = [] /\
  ids (tasks (redo s)) = ["1"]%string /\
  historyIndex (redo s) = historyIndex s + 1.
Proof.
  intros s.
  assert (R : reachable s).
  { exists emptyStorage, 100, (initialApp 100),
      [AddTask "a" "" "" "" 1; AddTask "b" "" "" "" 2; DeleteTask "1"; Undo; Undo].
    split; reflexivity. }
  assert (P : historyIndex s < Js.len (history s) - 1) by reflexivity.
  destruct (redo_installs_next_snapshot s R P) as (_ & _ & I & _).
  split; [exact P|]. split; [reflexivity|]. split; [reflexivity|exact I].
Defined.

Lemma undo_step (s : App) :
  historyBounded s -> 0 < historyIndex s ->
  Js.index (history s) (historyIndex s - 1) = Some (tasks (undo s)) /\
  history (undo s) = history s /\
  historyIndex (undo s) = historyIndex s - 1.
Proof.
  intros (B & _) P.
  destruct (index_in_bounds (history s) (historyIndex s - 1)) as [l H]; [lia|].
  unfold undo. destruct (historyIndex s <=? 0) eqn:E; [apply Z.leb_le in E; lia|].
  destruct (restoreAt_found _ _ _ H) as (T & Hh & Hi & _).
  rewrite T. now repeat split.
Qed.

Lemma undoTimes_at_start (k : nat) (s : App) :
  historyIndex s <= 0 -> undoTimes k s = s.
Proof.
  intros H. induction k as [|k IH]; [reflexivity|]. cbn [undoTimes].
  assert (E : undo s = s).
  { unfold undo. destruct (historyIndex s <=? 0) eqn:C;
      [reflexivity|apply Z.leb_gt in C; lia]. }
  now rewrite E.
Qed.

(** X12: [k] undos in a row step the cursor back [k] entries and stop at
    the first entry of the history: from a reachable state with the cursor
    above 0, the cursor ends on entry [max 0 (historyIndex - k)], the task
    list is that entry, and the entries of the history are as they were. *)
Theorem undoTimes_steps_back (k : nat) (s : App) :
  reachable s ->
  0 < historyIndex s ->
  (0 < k)%nat ->
  let j := Z.max 0 (historyIndex s - Z.of_nat k) in
  historyIndex (undoTimes k s) = j /\
  history (undoTimes k s) = history s /\
  Js.index (history s) j = Some (tasks (undoTimes k s)).
Proof.
  intros R. revert s R. induction k as [|k IH]; intros s R P K; [lia|].
  cbn [undoTimes]. destruct (undo_step s (reachable_bounded s R) P) as (T & H & I).
  destruct (Z.eq_dec (historyIndex s) 1) as [E1|E1].
  - rewrite undoTimes_at_start by lia. cbn zeta.
    replace (Z.max 0 (historyIndex s - Z.of_nat (S k))) with 0 by lia.
    rewrite I, H. replace (historyIndex s - 1) with 0 in * by lia. now repeat split.
  - destruct k as [|k].
    + cbn [undoTimes]. cbn zeta.
      replace (Z.max 0 (historyIndex s - Z.of_nat 1)) with (historyIndex s - 1) by lia.
      now repeat split.
    + destruct (IH (undo s) (reachable_step Undo s R)) as (I2 & H2 & T2); [lia|lia|].
      cbn zeta in *. rewrite I, H in *.
      replace (Z.max 0 (historyIndex s - Z.of_nat (S (S k))))
        with (Z.max 0 (historyIndex s - 1 - Z.of_nat (S k))) by lia.
      now repeat split.
Qed.

Lemma undoTimes_steps_back_witness :
  let s := run [AddTask "a" "" "" "" 1; AddTask "b" "" "" "" 2;
                AddTask "c" "" "" "" 3; AddTask "d" "" "" "" 4] (initialApp 100) in
  historyIndex s = 3 /\
  ids (tasks (undoTimes 2 s)) = ["1"]%string /\
  historyIndex (undoTimes 2 s) = 1 /\
  historyIndex (undoTimes 7 s) = 0 /\
  tasks (undoTimes 7 s) = [].
Proof.
  intros s.
  assert (R : reachable s).
  { exists emptyStorage, 100, (initialApp 100),
      [AddTask "a" "" "" "" 1; AddTask "b" "" "" "" 2;
       AddTask "c" "" "" "" 3; AddTask "d" "" "" "" 4].
    split; reflexivity. }
  assert (P : 0 < historyIndex s) by reflexivity.
  destruct (undoTimes_steps_back 2 s R P) as (I2 & _ & _); [lia|].
  destruct (undoTimes_steps_back 7 s R P) as (I7 & _ & _); [lia|].
  split; [reflexivity|]. split; [reflexivity|]. split; [exact I2|].
  split; [exact I7|reflexivity].
Defined.

Lemma index_app_left {A} (l r : list A) (j : Z) :
  0 <= j < Js.len l -> Js.index (l ++ r) j = Js.index l j.
Proof.
  intros H. unfold Js.index. destruct (j <? 0); [reflexivity|].
  apply nth_error_app1. unfold Js.len in H. lia.
Qed.

(** X13: while the history has room, no operation alters a snapshot at or
    before the cursor: the entry [j] of the history is the same before and
    after any operation, for every [j] from 0 to the cursor. *)
Theorem step_keeps_earlier_snapshots (o : Op) (s : App) (j : Z) :
  reachable s ->
  historyIndex s + 2 <= maxHistorySize ->
  0 <= j <= historyIndex s ->
  Js.index (history (step o s)) j = Js.index (history s) j.
Proof.
  intros R M J. destruct (reachable_bounded s R) as (B & _).
  destruct (step_history o s) as [E|[E|[E|E]]]; unfold historyOf in E;
    injection E as E _; rewrite E, ?undo_history, ?redo_history; try reflexivity.
  destruct (proj1 (saveState_history s B) M) as [-> _].
  rewrite index_app_left by (rewrite len_firstn; lia).
  apply index_firstn. lia.
Qed.

Lemma step_keeps_earlier_snapshots_witness :
  let s := run [AddTask "a" "" "" "" 1; AddTask "b" "" "" "" 2] (initialApp 100) in
  historyIndex s = 1 /\
  Js.index (history (step (ToggleTask 100 "1") s)) 1 = Js.index (history s) 1 /\
  Js.index (history (step ClearCompletedTasks s)) 0 = Some [].
Proof.
  intros s.
  assert (R : reachable s).
  { exists emptyStorage, 100, (initialApp 100),
      [AddTask "a" "" "" "" 1; AddTask "b" "" "" "" 2].
    split; reflexivity. }
  assert (M : historyIndex s + 2 <= maxHistorySize) by (vm_compute; discriminate).
  split; [reflexivity|]. split.
  - apply (step_keeps_earlier_snapshots (ToggleTask 100 "1") s 1 R M).
    split; vm_compute; discriminate.
  - rewrite (step_keeps_earlier_snapshots ClearCompletedTasks s 0 R M);
      [reflexivity|split; vm_compute; discriminate].
Defined.

Lemma checkDailyReset_date (today : Z) (st st' : Stats) :
  checkDailyReset today st = Some st' -> lastStatsDate st' = today.
Proof.
  unfold checkDailyReset, updateContributionData.
  destruct (lastStatsDate st =? today) eqn:E; cbn [negb].
  - intros [= <-]. now apply Z.eqb_eq.
  - destruct (Js.lastElt _); [|discriminate].
    destruct (negb _); now intros [= <-].
Qed.

(** X14: whatever the storage holds, an application that the constructor
    builds starts with counters that agree with its task list, an empty
    history with the cursor at -1, no focus session, and statistics dated
    today.  The task list is the stored one; a stored list that does not
    parse, like no stored list, gives the empty list. *)
Theorem constructor_starts_consistent (ls : Storage) (today : Z) (s0 : App) :
  constructor ls today = Some s0 ->
  countersConsistent s0 /\
  tasks s0 = match savedTasks ls with Parsed l => l | _ => [] end /\
  history s0 = [] /\
  historyIndex s0 = -1 /\
  focusModeActive s0 = false /\
  lastStatsDate (stats s0) = today.
Proof.
  unfold constructor, loadFromStorage. intros H.
  destruct (checkDailyReset today _) as [st|] eqn:D; [|discriminate].
  apply checkDailyReset_date in D. injection H as <-.
  destruct (savedTasks ls) as [| |l]; destruct (savedLocations ls);
    destruct (savedStats ls);
    unfold countersConsistent; fields;
    rewrite ?recalculateCounters_history;
    try (destruct (recalculateCounters_view (withTasks l (initialApp today)))
           as (-> & -> & ->));
    fields; cbn [initialApp tasks _activeCount _completedCount history];
    repeat split; try exact D; try reflexivity; try lia;
    unfold recalculateCounters; now destruct (recalculateLoop _ 0 0).
Qed.

Lemma constructor_starts_consistent_witness :
  let stored := [mkTask "7" "a" true 7 None None None;
                 mkTask "7" "b" false 7 None None None] in
  exists s0,
    constructor (mkStorage (Parsed stored) Garbled Garbled) 100 = Some s0 /\
    tasks s0 = stored /\ _activeCount s0 = 1 /\ _completedCount s0 = 1 /\
    historyIndex s0 = -1.
Proof.
  intros stored.
  destruct (constructor (mkStorage (Parsed stored) Garbled Garbled) 100)
    as [s0|] eqn:E; [|discriminate E].
  exists s0.
  destruct (constructor_starts_consistent _ _ _ E) as (_ & T & _ & I & _).
  split; [reflexivity|]. split; [exact T|].
  split; [|split; [|exact I]]; injection E as <-; reflexivity.
Defined.

Lemma lastElt_nonempty {A} (l : list A) : l <> [] -> exists x, Js.lastElt l = Some x.
Proof.
  intros N. unfold Js.lastElt. apply index_in_bounds.
  destruct l; [easy|]. rewrite len_cons. pose proof (len_nonneg l). lia.
Qed.

Lemma migrateWeeklyData_length (week : list WeekDay) (cd : list Day.t) :
  length (migrateWeeklyData week cd) = length cd.
Proof.
  unfold migrateWeeklyData. revert cd.
  induction week as [|w r IH]; intros cd; [reflexivity|]. cbn [fold_left].
  rewrite IH. pose proof (updateFirst_len (isDate (weekDate w))
    (fun c => Day.mk (Day.date c) (orZero (weekTasks w)) (orZero (weekPomodoros w))
                (orZero (weekTasks w) + orZero (weekPomodoros w))) cd) as L.
  unfold Js.len in L. lia.
Qed.

Lemma checkDailyReset_fails (today : Z) (st : Stats) :
  checkDailyReset today st = None <->
  lastStatsDate st <> today /\ contributionData st = [].
Proof.
  unfold checkDailyReset, updateContributionData.
  cbn [contributionData withLastStatsDate withTasksCompletedToday].
  destruct (lastStatsDate st =? today) eqn:E; cbn [negb].
  - apply Z.eqb_eq in E. split; [discriminate|tauto].
  - apply Z.eqb_neq in E. destruct (contributionData st) as [|d r] eqn:C.
    + split; [now split|reflexivity].
    + destruct (lastElt_nonempty (d :: r)) as [x ->]; [discriminate|].
      split; [now destruct (negb _)|now intros [_ ?]].
Qed.

(** X15: start-up from what the application stores.  Take a storage whose
    three items are each missing, or not parsable, or of the shape that the
    application writes: an array of tasks, an array of strings, a
    statistics object with its numbers and its date, whose
    [contributionData] or older [weeklyData] may be absent.  On these the
    constructor stops, on the [TypeError] of [updateContributionData],
    exactly when the stored statistics parse, hold an empty
    [contributionData], and are dated another day than today.  (Items that
    parse to a value of another shape, such as [null] or a number, are not
    values of [Storage]; nothing is stated about them.) *)
Theorem stored_shapes_fail_only_on_empty_stale_window (ls : Storage) (today : Z) :
  constructor ls today = None <->
  exists ss, savedStats ls = Parsed ss /\
             savedContributionData ss = Some [] /\
             savedLastStatsDate ss <> today.
Proof.
  unfold constructor, loadFromStorage.
  set (s2 := match savedLocations ls with
             | Missing => _ | Garbled => _ | Parsed l => _ end).
  assert (S2 : stats s2 = stats (initialApp today)).
  { unfold s2. destruct (savedLocations ls); destruct (savedTasks ls);
      fields; try reflexivity;
      unfold recalculateCounters; now destruct (recalculateLoop _ 0 0). }
  assert (N : initContributionData today <> []) by discriminate.
  destruct (savedStats ls) as [| |ss] eqn:SS.
  - rewrite S2. split; [|now intros (ss & [=] & _)].
    destruct (checkDailyReset _ _) eqn:D; [discriminate|].
    apply checkDailyReset_fails in D as [D _]. now cbn in D.
  - rewrite S2. split; [|now intros (ss & [=] & _)].
    destruct (checkDailyReset _ _) eqn:D; [discriminate|].
    apply checkDailyReset_fails in D as [D _]. now cbn in D.
  - fields. split.
    + destruct (checkDailyReset _ _) eqn:D; [discriminate|]. intros _.
      apply checkDailyReset_fails in D as [D C]. exists ss.
      split; [reflexivity|]. split; [|exact D].
      unfold loadStats in C. cbn [contributionData] in C.
      destruct (savedContributionData ss) as [cd|]; [now rewrite C|].
      destruct (savedWeeklyData ss) as [week|]; [|now apply N in C].
      apply (f_equal (@length _)) in C. rewrite migrateWeeklyData_length in C.
      discriminate C.
    + intros (ss' & [= <-] & C & D).
      destruct (checkDailyReset _ _) eqn:K; [|reflexivity].
      assert (F : checkDailyReset today (loadStats today ss) = None).
      { apply checkDailyReset_fails. unfold loadStats. now rewrite C. }
      congruence.
Qed.

Lemma stored_shapes_fail_only_on_empty_stale_window_witness :
  constructor
    (mkStorage Missing Missing
       (Parsed (mkSavedStats 2 (Js.Int 25) 1 99 (Some []) None))) 100 = None /\
  constructor (mkStorage Garbled Garbled Garbled) 100 <> None.
Proof.
  split.
  - apply (proj2 (stored_shapes_fail_only_on_empty_stale_window _ 100)).
    eexists. split; [reflexivity|]. split; [reflexivity|discriminate].
  - intros H.
    apply (proj1 (stored_shapes_fail_only_on_empty_stale_window _ 100)) in H.
    destruct H as (ss & E & _). discriminate E.
Defined.

(* ================================================================== *)
(** * Further properties of the statistics *)

Lemma initContributionLoop_map (n : nat) (today : Z) :
  initContributionLoop n today
  = map (fun k => Day.mk (today - Z.of_nat n + 1 + Z.of_nat k) 0 0 0) (seq 0 n).
Proof.
  induction n as [|i IH]; [reflexivity|].
  cbn [initContributionLoop seq map]. f_equal; [f_equal; lia|].
  rewrite IH, <- seq_shift, map_map. apply map_ext. intros k. f_equal. lia.
Qed.

Lemma consecutiveDays_seq (a : Z) (start n : nat) :
  consecutiveDays (map (fun k => a + Z.of_nat k) (seq start n)).
Proof.
  revert start. induction n as [|n IH]; intros start; [exact I|].
  cbn [seq map consecutiveDays]. specialize (IH (S start)).
  destruct n as [|n]; [exact I|]. cbn [seq map] in *. split; [lia|exact IH].
Qed.

(** X16: a fresh window has 84 entries, one for each of the 84 days that
    end today, in order and without a gap, and every counter in it is 0. *)
Theorem initContributionData_is_84_days (today : Z) :
  initContributionData today
  = map (fun k => Day.mk (today - 83 + Z.of_nat k) 0 0 0) (seq 0 84) /\
  length (initContributionData today) = 84%nat /\
  consecutiveDays (map Day.date (initContributionData today)) /\
  Js.lastElt (initContributionData today) = Some (Day.mk today 0 0 0).
Proof.
  assert (E : initContributionData today
              = map (fun k => Day.mk (today - 83 + Z.of_nat k) 0 0 0) (seq 0 84)).
  { unfold initContributionData, daysToShow. rewrite initContributionLoop_map.
    apply map_ext. intros k. f_equal. lia. }
  split; [exact E|]. split; [apply initContributionLoop_length|]. split.
  - rewrite E, map_map. cbn [Day.date]. apply consecutiveDays_seq.
  - rewrite E. change 84%nat with (83 + 1)%nat. rewrite seq_app, map_app.
    cbn [seq map Nat.add].
    match goal with
    | |- Js.lastElt (?l ++ [?x]) = _ => transitivity (Some x); [exact (lastElt_push l x)|]
    end.
    f_equal. f_equal. lia.
Qed.

(** The loop of [updateStreak], from index [n - 1] down: it adds the length
    of the longest run of active entries that ends at index [n - 1]. *)
Lemma streakLoop_run (cd : list Day.t) (n : nat) (acc : Z) :
  (n <= length cd)%nat ->
  exists m : nat,
    (m <= n)%nat /\
    streakLoop cd n acc = acc + Z.of_nat m /\
    Forall (fun d => 0 < Day.totalActivity d) (firstn m (skipn (n - m) cd)) /\
    (m = n \/
     exists d, nth_error cd (n - m - 1) = Some d /\ Day.totalActivity d <= 0).
Proof.
  revert acc. induction n as [|i IH]; intros acc L.
  - exists 0%nat. split; [lia|]. split; [cbn; lia|].
    split; [constructor|now left].
  - cbn [streakLoop].
    destruct (nth_error cd i) as [d|] eqn:N;
      [|apply nth_error_None in N; lia].
    destruct (0 <? Day.totalActivity d) eqn:E.
    + apply Z.ltb_lt in E.
      destruct (IH (acc + 1) ltac:(lia)) as (m & Lm & R & F & Z).
      exists (S m). split; [lia|]. split; [rewrite R; lia|]. split.
      * replace (S i - S m)%nat with (i - m)%nat by lia.
        assert (Sp : firstn (S m) (skipn (i - m) cd)
                     = firstn m (skipn (i - m) cd) ++ [d]).
        { rewrite <- (firstn_skipn m (firstn (S m) (skipn (i - m) cd))).
          rewrite firstn_firstn, Nat.min_l by lia. f_equal.
          rewrite skipn_firstn_comm. replace (S m - m)%nat with 1%nat by lia.
          rewrite skipn_skipn. replace (m + (i - m))%nat with i by lia.
          now rewrite (skipn_nth_error _ _ _ N). }
        rewrite Sp. apply Forall_app. split; [exact F|]. now constructor.
      * destruct Z as [->|(e & Ne & Le)]; [now left|right].
        exists e. replace (S i - S m - 1)%nat with (i - m - 1)%nat by lia. now split.
    + apply Z.ltb_ge in E. exists 0%nat. split; [lia|]. split; [lia|].
      split; [constructor|]. right. exists d.
      replace (S i - 0 - 1)%nat with i by lia. now split.
Qed.

(** X17: the streak that [updateStreak] stores is the length of the
    longest run of entries with activity at the end of the window: the
    last [streak] entries all have a total activity above 0, and either
    they are the whole window or the entry just before them has none. *)
Theorem updateStreak_is_trailing_run (st : Stats) :
  let cd := contributionData st in
  let k := streak (updateStreak st) in
  0 <= k <= Js.len cd /\
  contributionData (updateStreak st) = cd /\
  Forall (fun d => 0 < Day.totalActivity d) (skipn (length cd - Z.to_nat k) cd) /\
  (k = Js.len cd \/
   exists d, Js.index cd (Js.len cd - k - 1) = Some d /\ Day.totalActivity d <= 0).
Proof.
  intros cd k. unfold k, updateStreak. cbn [streak contributionData withStreak]. fold cd.
  destruct (streakLoop_run cd (length cd) 0 (Nat.le_refl _)) as (m & Lm & R & F & Z).
  rewrite R. cbn [Z.add]. rewrite Nat2Z.id. unfold Js.len.
  split; [lia|]. split; [reflexivity|]. split.
  - rewrite firstn_all2 in F; [exact F|]. rewrite length_skipn. lia.
  - destruct Z as [->|(d & N & Le)]; [now left|right]. exists d. split; [|exact Le].
    unfold Js.index.
    destruct (Z.of_nat (length cd) - Z.of_nat m - 1 <? 0) eqn:E.
    + apply Z.ltb_lt in E. assert (m = length cd) by lia. subst m.
      apply nth_error_In in N. rewrite Nat.sub_diag, skipn_0, firstn_all in F.
      assert (P : 0 < Day.totalActivity d)
        by (clear Le; revert d N; now apply Forall_forall).
      lia.
    + rewrite <- N. f_equal. lia.
Qed.

Lemma filter_length_skipn {A} (p : A -> bool) (n : nat) (l : list A) :
  (length (filter p (skipn n l)) <= length (filter p l))%nat.
Proof.
  rewrite <- (firstn_skipn n l) at 2. rewrite filter_app, length_app. lia.
Qed.

(** X18: the streak is never above the number of active days that the
    statistics show, and that number is never above the length of the
    window. *)
Theorem streak_at_most_activeDays (st : Stats) :
  0 <= streak (updateStreak st) <= activeDays st /\
  activeDays st <= Js.len (contributionData st).
Proof.
  unfold updateStreak, activeDays. cbn [streak withStreak].
  set (cd := contributionData st). set (p := fun d => 0 <? Day.totalActivity d).
  destruct (streakLoop_run cd (length cd) 0 (Nat.le_refl _)) as (m & Lm & R & F & _).
  rewrite R. cbn [Z.add]. unfold Js.len.
  pose proof (filter_length_le p cd) as Le. split; [|lia]. split; [lia|].
  pose proof (filter_length_skipn p (length cd - m) cd) as L.
  rewrite firstn_all2 in F by (rewrite length_skipn; lia).
  rewrite forallb_filter_id in L.
  - rewrite length_skipn in L. lia.
  - apply forallb_forall. intros d H. apply Z.ltb_lt. revert d H. now apply Forall_forall.
Qed.

Lemma updateFirst_Forall {A} (P : A -> Prop) (p : A -> bool) (f : A -> A) (l : list A) :
  (forall x, P x -> P (f x)) -> Forall P l -> Forall P (Js.updateFirst p f l).
Proof.
  intros H F. induction F as [|x r Px Fr IH]; [constructor|].
  cbn [Js.updateFirst]. destruct (p x); constructor; auto.
Qed.

(** X19: [decrementTasksCompleted] never takes a counter below 0: with
    [tasksCompletedToday] and the task counters of the window at 0 or
    above, they are at 0 or above afterwards.  At [tasksCompletedToday]
    0 it changes nothing at all; otherwise it takes exactly one from
    [tasksCompletedToday]. *)
Theorem decrementTasksCompleted_never_negative (today : Z) (st : Stats) :
  0 <= tasksCompletedToday st ->
  Forall (fun d => 0 <= Day.tasks d) (contributionData st) ->
  let st' := decrementTasksCompleted today st in
  0 <= tasksCompletedToday st' /\
  Forall (fun d => 0 <= Day.tasks d) (contributionData st') /\
  ((tasksCompletedToday st = 0 /\ st' = st) \/
   (0 < tasksCompletedToday st /\
    tasksCompletedToday st' = tasksCompletedToday st - 1)).
Proof.
  intros P F st'. unfold st', decrementTasksCompleted.
  destruct (0 <? tasksCompletedToday st) eqn:E.
  - apply Z.ltb_lt in E.
    cbn [tasksCompletedToday contributionData withContributionData
         withTasksCompletedToday].
    split; [lia|]. split; [|right; split; [exact E|reflexivity]].
    apply updateFirst_Forall; [|exact F].
    intros d Pd. destruct (0 <? Day.tasks d) eqn:K; [|exact Pd].
    apply Z.ltb_lt in K. cbn [Day.tasks]. lia.
  - apply Z.ltb_ge in E. split; [exact P|]. split; [exact F|].
    left. split; [lia|reflexivity].
Qed.

Lemma decrementTasksCompleted_never_negative_witness :
  let st := incrementTasksCompleted 100 (stats (initialApp 100)) in
  let st1 := decrementTasksCompleted 100 st in
  let st2 := decrementTasksCompleted 100 st1 in
  tasksCompletedToday st = 1 /\ tasksCompletedToday st1 = 0 /\
  todayTasks 100 st1 = Some 0 /\ st2 = st1.
Proof.
  intros st st1 st2.
  assert (F : Forall (fun d => 0 <= Day.tasks d) (contributionData st1)).
  { apply Forall_forall. intros d H.
    assert (E : forallb (fun d => 0 <=? Day.tasks d) (contributionData st1) = true)
      by reflexivity.
    apply Z.leb_le. revert d H. now apply forallb_forall. }
  destruct (decrementTasksCompleted_never_negative 100 st1) as (_ & _ & [[_ E]|[E _]]);
    [now vm_compute|exact F| |discriminate E].
  split; [reflexivity|]. split; [reflexivity|]. split; [reflexivity|exact E].
Defined.

Lemma updateFirst_dates (today : Z) (f : Day.t -> Day.t) (cd : list Day.t) :
  (forall d, Day.date (f d) = Day.date d) ->
  map Day.date (Js.updateFirst (isDate today) f cd) = map Day.date cd /\
  filter (fun d => negb (isDate today d)) (Js.updateFirst (isDate today) f cd)
  = filter (fun d => negb (isDate today d)) cd.
Proof.
  intros H. split; [now apply updateFirst_map_same|].
  apply updateFirst_filter_others. intros d E. unfold isDate in *. now rewrite H.
Qed.

(** X20: recording activity never reshapes the window.  Counting a
    completed task, taking one back, and counting a focus session each
    leave the dates of the window, in order, and every entry of another
    day than today as they were; adding focus minutes leaves the window
    alone. *)
Theorem recording_keeps_window_dates (today : Z) (minutes : Js.Num) (st : Stats) :
  let same st' :=
    map Day.date (contributionData st') = map Day.date (contributionData st) /\
    filter (fun d => negb (isDate today d)) (contributionData st')
    = filter (fun d => negb (isDate today d)) (contributionData st) in
  same (incrementTasksCompleted today st) /\
  same (decrementTasksCompleted today st) /\
  same (incrementPomodoros today st) /\
  contributionData (addFocusTime minutes st) = contributionData st.
Proof.
  cbn zeta. split; [|split; [|split; [|reflexivity]]].
  - unfold incrementTasksCompleted, updateStreak.
    cbn [contributionData withStreak withContributionData withTasksCompletedToday].
    now apply updateFirst_dates.
  - unfold decrementTasksCompleted. destruct (0 <? tasksCompletedToday st); [|now split].
    cbn [contributionData withContributionData withTasksCompletedToday].
    apply updateFirst_dates. intros d. now destruct (0 <? Day.tasks d).
  - unfold incrementPomodoros. cbn [contributionData withContributionData].
    now apply updateFirst_dates.
Qed.

Lemma consecutiveDays_tl (l : list Z) : consecutiveDays l -> consecutiveDays (tl l).
Proof.
  destruct l as [|a [|b r]]; cbn; tauto.
Qed.

Lemma consecutiveDays_push (l : list Z) (x y : Z) :
  consecutiveDays (l ++ [x]) -> y = x + 1 -> consecutiveDays ((l ++ [x]) ++ [y]).
Proof.
  induction l as [|a r IH]; intros C E.
  - cbn. tauto.
  - destruct r as [|b r].
    + cbn in *. tauto.
    + cbn [app consecutiveDays] in *. destruct C as [C1 C2]. split; [exact C1|].
      now apply IH.
Qed.

Lemma consecutiveDays_shift (l : list Z) (x y : Z) :
  consecutiveDays (l ++ [x]) -> y = x + 1 -> consecutiveDays (tl (l ++ [x]) ++ [y]).
Proof.
  intros C E. pose proof (consecutiveDays_tl _ (consecutiveDays_push l x y C E)) as T.
  destruct l; exact T.
Qed.

Lemma lastElt_split {A} (l : list A) (x : A) :
  Js.lastElt l = Some x -> exists r, l = r ++ [x].
Proof.
  intros H. destruct (exists_last (lastElt_some_nonempty _ _ H)) as (r & y & E).
  exists r. rewrite E in H. change (r ++ [y]) with (Js.push r y) in H.
  rewrite lastElt_push in H. now injection H as ->.
Qed.

(** X21: a rollover on the day after the window's last day keeps the
    window whole: from a window of consecutive days that ends yesterday,
    [updateContributionData] gives a window of the same length, of
    consecutive days, that ends today with a zero entry. *)
Theorem rollover_next_day_keeps_consecutive (today : Z) (st : Stats) :
  consecutiveDays (map Day.date (contributionData st)) ->
  option_map Day.date (Js.lastElt (contributionData st)) = Some (today - 1) ->
  exists st',
    updateContributionData today st = Some st' /\
    length (contributionData st') = length (contributionData st) /\
    consecutiveDays (map Day.date (contributionData st')) /\
    Js.lastElt (contributionData st') = Some (Day.mk today 0 0 0).
Proof.
  intros C L. unfold updateContributionData.
  destruct (Js.lastElt (contributionData st)) as [lastDay|] eqn:E; [|discriminate].
  cbn [option_map] in L. injection L as L.
  destruct (Day.date lastDay =? today) eqn:K; [apply Z.eqb_eq in K; lia|].
  cbn [negb]. eexists. split; [reflexivity|].
  cbn [contributionData withContributionData].
  destruct (lastElt_split _ _ E) as (r & R). rewrite R in *.
  split; [|split; [|apply lastElt_push]].
  - unfold Js.push, Js.shift. rewrite !length_app.
    destruct r; cbn [app tl length]; rewrite ?length_app; cbn [length]; lia.
  - unfold Js.push, Js.shift.
    assert (M : map Day.date (tl (r ++ [lastDay]) ++ [Day.mk today 0 0 0])
                = tl (map Day.date r ++ [Day.date lastDay]) ++ [today]).
    { rewrite map_app. cbn [map Day.date]. f_equal.
      destruct r; [reflexivity|]. cbn [app tl map]. now rewrite map_app. }
    rewrite M. rewrite map_app in C. cbn [map] in C.
    now apply consecutiveDays_shift; [|lia].
Qed.

Lemma rollover_next_day_keeps_consecutive_witness :
  exists st',
    updateContributionData 101 (stats (initialApp 100)) = Some st' /\
    length (contributionData st') = 84%nat /\
    consecutiveDays (map Day.date (contributionData st')) /\
    Js.lastElt (contributionData st') = Some (Day.mk 101 0 0 0).
Proof.
  destruct (rollover_next_day_keeps_consecutive 101 (stats (initialApp 100)))
    as (st' & E & Len' & C' & L');
    [vm_compute; repeat split|reflexivity|].
  exists st'. split; [exact E|]. split; [|split; [exact C'|exact L']].
  rewrite Len'. reflexivity.
Defined.

Lemma fold_max_bounds (l : list Z) (a : Z) :
  a <= fold_left Z.max l a /\ Forall (fun x => x <= fold_left Z.max l a) l.
Proof.
  revert a. induction l as [|x r IH]; intros a; cbn [fold_left].
  - split; [lia|constructor].
  - destruct (IH (Z.max a x)) as [B F]. split; [lia|].
    constructor; [lia|exact F].
Qed.

(** X22: the levels of the contribution graph.  The scale is the largest
    total activity of the window, and at least 1.  A day has level 0
    exactly when it has no activity, every level lies between 0 and 4, a
    day whose activity equals the scale has level 4, and a day with more
    activity never has a lower level. *)
Theorem contributionLevels_are_buckets (st : Stats) :
  let cd := contributionData st in
  let m := maxActivity cd in
  1 <= m /\
  length (contributionLevels st) = length cd /\
  Forall (fun d => Day.totalActivity d <= m /\
                   0 <= activityLevel m d <= 4 /\
                   (activityLevel m d = 0 <-> Day.totalActivity d <= 0) /\
                   (Day.totalActivity d = m -> activityLevel m d = 4)) cd /\
  (forall d e, Day.totalActivity d <= Day.totalActivity e ->
               activityLevel m d <= activityLevel m e).
Proof.
  intros cd m.
  destruct (fold_max_bounds (map Day.totalActivity cd) 1) as [B F]. fold (maxActivity cd) in B, F.
  fold m in B, F.
  assert (Lv : forall d, 0 <= activityLevel m d <= 4 /\
                         (activityLevel m d = 0 <-> Day.totalActivity d <= 0) /\
                         (Day.totalActivity d = m -> activityLevel m d = 4)).
  { intros d. unfold activityLevel.
    destruct (0 <? Day.totalActivity d) eqn:P;
      [apply Z.ltb_lt in P|apply Z.ltb_ge in P].
    - destruct (4 * Day.totalActivity d <=? m) eqn:Q1;
        [apply Z.leb_le in Q1|apply Z.leb_gt in Q1];
        [repeat split; lia|].
      destruct (2 * Day.totalActivity d <=? m) eqn:Q2;
        [apply Z.leb_le in Q2|apply Z.leb_gt in Q2];
        [repeat split; lia|].
      destruct (4 * Day.totalActivity d <=? 3 * m) eqn:Q3;
        [apply Z.leb_le in Q3|apply Z.leb_gt in Q3];
        repeat split; lia.
    - repeat split; lia. }
  split; [exact B|]. split; [unfold contributionLevels; apply length_map|]. split.
  - apply Forall_forall. intros d H. split; [|apply Lv].
    apply (in_map Day.totalActivity) in H.
    exact (proj1 (Forall_forall _ _) F _ H).
  - intros d e H. unfold activityLevel.
    destruct (0 <? Day.totalActivity d) eqn:Pd;
      [apply Z.ltb_lt in Pd|apply Z.ltb_ge in Pd];
      destruct (0 <? Day.totalActivity e) eqn:Pe;
      [apply Z.ltb_lt in Pe|apply Z.ltb_ge in Pe| |]; try lia.
    + repeat match goal with
             | |- context [?a <=? ?b] =>
                 let Q := fresh "Q" in
                 destruct (a <=? b) eqn:Q;
                 [apply Z.leb_le in Q|apply Z.leb_gt in Q]
             end; lia.
    + repeat match goal with
             | |- context [?a <=? ?b] => destruct (a <=? b)
             end; lia.
Qed.

Lemma contributionLevels_are_buckets_witness :
  let st := mkStats 0 (Js.Int 0) 0 100
              [Day.mk 96 0 0 0; Day.mk 97 1 0 1; Day.mk 98 1 1 2;
               Day.mk 99 3 0 3; Day.mk 100 2 2 4] in
  maxActivity (contributionData st) = 4 /\
  contributionLevels st = [0; 1; 2; 3; 4] /\
  activityLevel (maxActivity (contributionData st)) (Day.mk 98 1 1 2)
  <= activityLevel (maxActivity (contributionData st)) (Day.mk 99 3 0 3).
Proof.
  intros st.
  destruct (contributionLevels_are_buckets st) as (_ & _ & _ & M).
  split; [reflexivity|]. split; [reflexivity|].
  apply M. cbn. lia.
Defined.

(* ================================================================== *)
(** * Further properties of the focus timer *)

Lemma tick_paused (today : Z) (g tb : bool) (s : App) :
  timerPaused s = true -> tick today g tb s = (s, []).
Proof. intros H. unfold tick. rewrite H. now destruct (timerInterval s). Qed.

Lemma ticks_paused (n : nat) (today : Z) (g tb : bool) (s : App) :
  timerPaused s = true -> ticks n today g tb s = (s, []).
Proof.
  intros H. induction n as [|n IH]; [reflexivity|].
  cbn [ticks]. now rewrite (tick_paused _ _ _ _ H), IH.
Qed.

(** X23: a paused timer stands still: however often the callback fires
    while the timer is paused, the state stays as it is and nothing is
    shown; and resuming gives back the state that was paused, so the
    countdown goes on from the second where it stopped. *)
Theorem paused_timer_stands_still (n : nat) (today : Z) (granted takeBreak : bool) (s : App) :
  timerPaused s = false ->
  ticks n today granted takeBreak (pauseFocusTimer s) = (pauseFocusTimer s, []) /\
  resumeFocusTimer (fst (ticks n today granted takeBreak (pauseFocusTimer s))) = s.
Proof.
  intros H.
  assert (P : ticks n today granted takeBreak (pauseFocusTimer s) = (pauseFocusTimer s, []))
    by now apply ticks_paused.
  split; [exact P|]. rewrite P. cbn [fst].
  unfold resumeFocusTimer, pauseFocusTimer. destruct s. cbn in *. now subst.
Qed.

Lemma paused_timer_stands_still_witness :
  let s := fst (ticks 10 100 false true
                  (startFocusMode "7" (Some "25"%string)
                     (run [AddTask "a" "" "" "" 7] (initialApp 100)))) in
  timeRemaining s = Js.Int 1490 /\
  timeRemaining (fst (ticks 500 100 false true (pauseFocusTimer s))) = Js.Int 1490 /\
  resumeFocusTimer (fst (ticks 500 100 false true (pauseFocusTimer s))) = s.
Proof.
  intros s.
  destruct (paused_timer_stands_still 500 100 false true s) as [P R]; [reflexivity|].
  split; [reflexivity|]. split; [now rewrite P|exact R].
Defined.


(** The callback that completes a running countdown: with [k] seconds
    left, it is callback number [max 1 k]; the callbacks before it only
    count down. *)
Lemma ticks_finish (n : nat) (today : Z) (g tb : bool) (s : App) (k : Z) :
  timerInterval s = true -> timerPaused s = false ->
  timeRemaining s = Js.Int k -> Z.of_nat n = Z.max 1 k ->
  ticks (n - 1) today g tb s
  = (withTimeRemaining (Js.Int (k - Z.of_nat (n - 1))) s, []) /\
  ticks n today g tb s
  = timerComplete today g tb (withTimeRemaining (Js.Int (k - Z.of_nat (n - 1) - 1)) s).
Proof.
  intros I P R N.
  assert (C : ticks (n - 1) today g tb s
              = (withTimeRemaining (Js.Int (k - Z.of_nat (n - 1))) s, [])).
  { destruct (Nat.eq_dec (n - 1) 0) as [E|E].
    - rewrite E. cbn [ticks]. replace (k - Z.of_nat 0) with k by lia.
      now rewrite <- R, withTimeRemaining_same.
    - apply ticks_countdown; auto. lia. }
  split; [exact C|].
  replace n with ((n - 1) + 1)%nat at 1 by lia.
  rewrite ticks_app, C. cbn [ticks]. unfold tick. fields. rewrite I, P.
  cbn [negb Js.decr Js.leZero].
  destruct (k - Z.of_nat (n - 1) - 1 <=? 0) eqn:E; [|apply Z.leb_gt in E; lia].
  unfold withTimeRemaining, withTimer. fields.
  destruct (timerComplete _ _ _ _) as [x e]. cbn [app]. now rewrite app_nil_r.
Qed.

Lemma timerComplete_work (today : Z) (g tb : bool) (s : App) :
  isBreakTime s = false ->
  pomodoroCount (fst (timerComplete today g tb s)) = pomodoroCount s + 1 /\
  totalFocusTime (stats (fst (timerComplete today g tb s)))
  = Js.plus (totalFocusTime (stats s)) (Js.roundDiv60 (timerDuration s)).
Proof.
  intros B. unfold timerComplete. rewrite B. cbn [negb]. fields.
  unfold cleanupFocusMode, startBreak, addFocusTime, incrementPomodoros. fields.
  destruct g; [now split|]. destruct tb; now split.
Qed.

Lemma timerComplete_break (today : Z) (g tb : bool) (s : App) :
  isBreakTime s = true ->
  timerComplete today g tb s
  = (cleanupFocusMode s,
     if g then [Notification "Break Complete!" "Time to get back to work! 💪"; Alert]
     else [Alert]).
Proof.
  intros B. unfold timerComplete. rewrite B. cbn [negb]. now destruct g.
Qed.

(** X25: a break of [minutes] minutes ends at callback number
    [60 * minutes] and not before: until then the callbacks only count
    down and show nothing; that callback shows the alert (after the
    notification, with the permission), and leaves no session, with the
    pomodoro count, the statistics and the tasks as they were when the
    break started. *)
Theorem break_ends_without_credit
  (minutes : Z) (today : Z) (granted takeBreak : bool) (s : App) :
  0 < minutes ->
  let b := startBreak minutes s in
  let n := Z.to_nat (minutes * 60) in
  ticks (n - 1) today granted takeBreak b = (withTimeRemaining (Js.Int 1) b, []) /\
  snd (ticks n today granted takeBreak b)
  = (if granted
     then [Notification "Break Complete!" "Time to get back to work! 💪"; Alert]
     else [Alert]) /\
  focusModeActive (fst (ticks n today granted takeBreak b)) = false /\
  timerInterval (fst (ticks n today granted takeBreak b)) = false /\
  isBreakTime (fst (ticks n today granted takeBreak b)) = false /\
  pomodoroCount (fst (ticks n today granted takeBreak b)) = pomodoroCount s /\
  stats (fst (ticks n today granted takeBreak b)) = stats s /\
  tasks (fst (ticks n today granted takeBreak b)) = tasks s.
Proof.
  intros P b n.
  destruct (ticks_finish n today granted takeBreak b (minutes * 60))
    as [C F]; try reflexivity; [unfold n; lia|].
  replace (minutes * 60 - Z.of_nat (n - 1)) with 1 in * by (unfold n; lia).
  split; [exact C|]. rewrite F, timerComplete_break by reflexivity.
  now repeat split.
Qed.

Lemma break_ends_without_credit_witness :
  let s := run [AddTask "a" "" "" "" 7] (initialApp 100) in
  snd (ticks 299 100 false true (startBreak 5 s)) = [] /\
  snd (ticks 300 100 false true (startBreak 5 s)) = [Alert] /\
  focusModeActive (fst (ticks 300 100 false true (startBreak 5 s))) = false /\
  pomodoroCount (fst (ticks 300 100 false true (startBreak 5 s))) = 0.
Proof.
  intros s.
  destruct (break_ends_without_credit 5 100 false true s) as (C & E & A & _ & _ & K & _);
    [reflexivity|].
  split; [exact (f_equal snd C)|]. split; [exact E|]. split; [exact A|exact K].
Defined.

(** X26: what a duration that passes the guard of [startFocusMode] runs
    for is decided by [parseInt], not by the number the guard tested.
    The numbers stay where doubles are exact: the seconds [parseInt * 60],
    the pomodoro count before and after, and the focus minutes before and
    after are safe integers.  When [parseInt] gives an integer [z], the
    session completes at callback number [60 * z], or at the first
    callback when [z] is 0 (as for "0.5"), and counts one pomodoro and [z]
    minutes.  When [parseInt] gives [NaN] (as for ".5" or "Infinity"), no
    callback ever completes the session: each leaves the state as it is
    and shows nothing. *)
Theorem accepted_duration_runs_parseInt_minutes
  (taskId minutes : string) (t : Task) (today : Z) (granted takeBreak : bool) (s : App) :
  find (hasId taskId) (tasks s) = Some t ->
  (Js.falsy minutes || Js.isNaN minutes || Js.stringLeZero minutes) = false ->
  isBreakTime s = false ->
  Js.safe (Js.times (Js.parseInt minutes) 60) = true ->
  Js.safe (Js.Int (pomodoroCount s)) = true ->
  Js.safe (Js.Int (pomodoroCount s + 1)) = true ->
  Js.safe (totalFocusTime (stats s)) = true ->
  Js.safe (Js.plus (totalFocusTime (stats s)) (Js.parseInt minutes)) = true ->
  let s1 := startFocusMode taskId (Some minutes) s in
  match Js.parseInt minutes with
  | Js.NaN =>
      focusModeActive s1 = true /\
      forall n, ticks n today granted takeBreak s1 = (s1, [])
  | Js.Int z =>
      let n := Z.to_nat (Z.max 1 (z * 60)) in
      timeRemaining s1 = Js.Int (z * 60) /\
      snd (ticks (n - 1) today granted takeBreak s1) = [] /\
      pomodoroCount (fst (ticks (n - 1) today granted takeBreak s1)) = pomodoroCount s /\
      pomodoroCount (fst (ticks n today granted takeBreak s1)) = pomodoroCount s + 1 /\
      totalFocusTime (stats (fst (ticks n today granted takeBreak s1)))
      = Js.plus (totalFocusTime (stats s)) (Js.Int z)
  end.
Proof.
  intros F G B _ _ _ _ _ s1.
  assert (S1 : s1 = withTimer true true true (Js.times (Js.parseInt minutes) 60)
                      (Js.times (Js.parseInt minutes) 60) false (Some t)
                      (isBreakTime s) s).
  { unfold s1, startFocusMode. now rewrite F, G. }
  destruct (Js.parseInt minutes) as [|z]; cbn [Js.times] in S1.
  - split; [now rewrite S1|]. intros n. induction n as [|n IH]; [reflexivity|].
    cbn [ticks].
    assert (T : tick today granted takeBreak s1 = (s1, [])).
    { unfold tick. rewrite S1. fields. cbn [negb Js.decr Js.leZero]. reflexivity. }
    now rewrite T, IH.
  - cbn zeta. set (n := Z.to_nat (Z.max 1 (z * 60))).
    destruct (ticks_finish n today granted takeBreak s1 (z * 60)) as [C K];
      try (rewrite S1; reflexivity); [unfold n; lia|].
    split; [now rewrite S1|]. rewrite C, K. cbn [fst snd].
    destruct (timerComplete_work today granted takeBreak
                (withTimeRemaining (Js.Int (z * 60 - Z.of_nat (n - 1) - 1)) s1))
      as [W1 W2]; [now rewrite S1, B|].
    rewrite W1, W2, S1. fields. cbn [Js.roundDiv60].
    replace ((z * 60 + 30) / 60) with z
      by (rewrite Z.div_add_l by lia; change (30 / 60) with 0; lia).
    now repeat split.
Qed.

Lemma accepted_duration_runs_parseInt_minutes_witness :
  let s := run [AddTask "a" "" "" "" 7] (initialApp 100) in
  (Js.parseInt "0.5" = Js.Int 0 /\
   pomodoroCount (fst (ticks 1 100 false false
                         (startFocusMode "7" (Some "0.5"%string) s))) = 1) /\
  (Js.parseInt ".5" = Js.NaN /\
   ticks 5000 100 false false (startFocusMode "7" (Some ".5"%string) s)
   = (startFocusMode "7" (Some ".5"%string) s, [])) /\
  (Js.parseInt "2" = Js.Int 2 /\
   snd (ticks 119 100 false false (startFocusMode "7" (Some "2"%string) s)) = [] /\
   totalFocusTime (stats (fst (ticks 120 100 false false
                                 (startFocusMode "7" (Some "2"%string) s)))) = Js.Int 2).
Proof.
  intros s.
  pose proof (accepted_duration_runs_parseInt_minutes "7" "0.5"
                (mkTask "7" "a" false 7 None None None) 100 false false s
                eq_refl eq_refl eq_refl eq_refl eq_refl eq_refl eq_refl eq_refl) as H0.
  pose proof (accepted_duration_runs_parseInt_minutes "7" ".5"
                (mkTask "7" "a" false 7 None None None) 100 false false s
                eq_refl eq_refl eq_refl eq_refl eq_refl eq_refl eq_refl eq_refl) as H1.
  pose proof (accepted_duration_runs_parseInt_minutes "7" "2"
                (mkTask "7" "a" false 7 None None None) 100 false false s
                eq_refl eq_refl eq_refl eq_refl eq_refl eq_refl eq_refl eq_refl) as H2.
  cbn zeta in H0, H1, H2.
  change (Js.parseInt "0.5") with (Js.Int 0) in H0.
  change (Js.parseInt ".5") with Js.NaN in H1.
  change (Js.parseInt "2") with (Js.Int 2) in H2.
  destruct H0 as (_ & _ & _ & P0 & _). destruct H1 as (_ & N1).
  destruct H2 as (_ & E2 & _ & _ & T2).
  split; [split; [reflexivity|exact P0]|].
  split; [split; [reflexivity|exact (N1 5000%nat)]|].
  split; [reflexivity|]. split; [exact E2|exact T2].
Defined.

(* ================================================================== *)
(** * Properties of the filtered view, the celebration, the notifications
      and the recent locations *)

Lemma filter_split_Permutation {A} (p : A -> bool) (l : list A) :
  Permutation (filter (fun x => negb (p x)) l ++ filter p l) l.
Proof.
  induction l as [|x r IH]; [constructor|]. cbn [filter].
  destruct (p x); cbn [negb app].
  - symmetry. apply Permutation_cons_app. now symmetry.
  - now constructor.
Qed.

(** X27: the views agree with the cached counters.  With counters that
    agree with the list, the active view has [_activeCount] tasks and the
    completed view has [_completedCount]; the two views together are the
    tasks of the list, each once; and any filter other than ['active'] and
    ['completed'], as [handleRouting] stores for an unknown hash, shows
    the whole list. *)
Theorem filtered_views_match_counters (hash : string) (s : App) :
  countersConsistent s ->
  Js.len (getFilteredTasks "active" s) = _activeCount s /\
  Js.len (getFilteredTasks "completed" s) = _completedCount s /\
  Permutation (getFilteredTasks "active" s ++ getFilteredTasks "completed" s) (tasks s) /\
  (hash <> "#/active"%string -> hash <> "#/completed"%string ->
   getFilteredTasks (handleRouting hash) s = tasks s).
Proof.
  intros [C1 C2]. unfold getFilteredTasks. cbn [String.eqb Ascii.eqb Bool.eqb].
  change (fun task : Task => completed task) with completed.
  destruct (clear_counts (tasks s)) as [L _].
  split; [rewrite L; lia|]. split; [exact (eq_sym C2)|].
  split; [apply filter_split_Permutation|].
  intros N1 N2. unfold handleRouting.
  destruct (String.eqb_spec hash "#/active"); [easy|].
  destruct (String.eqb_spec hash "#/completed"); [easy|]. reflexivity.
Qed.

Lemma filtered_views_match_counters_witness :
  let s := toggleTask 100 "2"
             (run [AddTask "a" "" "" "" 1; AddTask "b" "" "" "" 2;
                   AddTask "c" "" "" "" 3] (initialApp 100)) in
  ids (getFilteredTasks "active" s) = ["3"; "1"]%string /\
  Js.len (getFilteredTasks "active" s) = _activeCount s /\
  Js.len (getFilteredTasks "completed" s) = _completedCount s /\
  getFilteredTasks (handleRouting "#/other") s = tasks s.
Proof.
  intros s.
  destruct (filtered_views_match_counters "#/other" s) as (A & C & _ & H);
    [split; reflexivity|].
  split; [reflexivity|]. split; [exact A|]. split; [exact C|].
  apply H; discriminate.
Defined.

Lemma filter_nil_forallb {A} (p : A -> bool) (l : list A) :
  forallb p l = true -> filter (fun x => negb (p x)) l = [].
Proof.
  induction l as [|x r IH]; [reflexivity|]. cbn [forallb filter].
  destruct (p x); [exact IH|discriminate].
Qed.

Lemma forallb_filter_nil {A} (p : A -> bool) (l : list A) :
  filter (fun x => negb (p x)) l = [] -> forallb p l = true.
Proof.
  induction l as [|x r IH]; [reflexivity|]. cbn [forallb filter].
  destruct (p x); [exact IH|discriminate].
Qed.

(** X28: the celebration is shown once for a batch.  It is shown only on a
    list that has a task, has all its tasks completed, and for which the
    flag was not set; it sets the flag; and while every later check sees a
    list without an active task, none of them shows it again. *)
Theorem celebration_once_per_batch (flag : bool) (s : App) (later : list App) :
  fst (checkForCompletion flag s) = true ->
  Forall (fun s' => forallb completed (tasks s') = true) later ->
  (tasks s <> [] /\ forallb completed (tasks s) = true /\ flag = false) /\
  snd (checkForCompletion flag s) = true /\
  checkForCompletions (snd (checkForCompletion flag s)) later
  = (repeat false (length later), true).
Proof.
  intros H F. unfold checkForCompletion in *. cbn [fst snd] in *.
  change (fun t : Task => completed t) with completed in *.
  apply andb_true_iff in H as [H Hf]. apply andb_true_iff in H as [Hc Ha].
  apply negb_true_iff in Hf. apply Z.eqb_eq in Ha. apply Z.ltb_lt in Hc.
  apply len_nil_inv in Ha.
  split; [split; [|split; [now apply forallb_filter_nil|exact Hf]]|].
  - intros E. rewrite E in Hc. cbn in Hc. lia.
  - rewrite Ha, Hf. replace (0 <? Js.len (filter completed (tasks s))) with true
      by (symmetry; now apply Z.ltb_lt).
    cbn [Js.len length Z.of_nat Z.eqb Z.ltb Z.compare andb negb].
    split; [reflexivity|].
    induction F as [|x r Hx Fr IH]; [reflexivity|].
    cbn [checkForCompletions length repeat]. unfold checkForCompletion.
    rewrite (filter_nil_forallb _ _ Hx). cbn [negb andb Js.len length Z.of_nat Z.ltb Z.compare].
    rewrite andb_false_r. now rewrite IH.
Qed.

Lemma celebration_once_per_batch_witness :
  let s := run [AddTask "a" "" "" "" 1; ToggleTask 100 "1"] (initialApp 100) in
  let s' := run [AddTask "b" "" "" "" 2; ToggleTask 100 "2"] s in
  checkForCompletion false s = (true, true) /\
  checkForCompletions true [s; saveEdit "1" "a!" "" "" "" s; clearCompletedTasks s]
  = ([false; false; false], true) /\
  fst (checkForCompletions false [s; addTask "b" "" "" "" 2 s; s']) = [true; false; true].
Proof.
  intros s s'.
  destruct (celebration_once_per_batch false s
              [s; saveEdit "1" "a!" "" "" "" s; clearCompletedTasks s])
    as (_ & E & L); [reflexivity|repeat constructor|].
  split; [reflexivity|]. split; [|reflexivity].
  rewrite E in L. exact L.
Defined.

Lemma setHas_setAdd (x y : string) (n : list string) :
  setHas x (setAdd y n) = String.eqb x y || setHas x n.
Proof.
  unfold setAdd, setHas. destruct (existsb (String.eqb y) n) eqn:E.
  - destruct (String.eqb_spec x y) as [->|_]; [now rewrite E|reflexivity].
  - rewrite existsb_app. cbn [existsb]. rewrite orb_false_r. apply orb_comm.
Qed.

Lemma isDue_facts (nowTime : Z) (due : string -> string -> Js.Num)
  (n : list string) (t : Task) :
  isDue nowTime due n t = true -> completed t = false /\ setHas (id t) n = false.
Proof.
  unfold isDue. destruct (completed t); [discriminate|].
  destruct (dueDate t) as [d|]; [|discriminate].
  destruct (dueTime t) as [h|]; [|discriminate].
  destruct (Js.falsy d || Js.falsy h); [discriminate|].
  destruct (setHas (id t) n); [discriminate|]. now split.
Qed.

Lemma isDue_lost (nowTime : Z) (due : string -> string -> Js.Num)
  (n n1 : list string) (t : Task) :
  isDue nowTime due n t = true -> isDue nowTime due n1 t = false ->
  setHas (id t) n1 = true.
Proof.
  unfold isDue. destruct (completed t); [discriminate|].
  destruct (dueDate t) as [d|]; [|discriminate].
  destruct (dueTime t) as [h|]; [|discriminate].
  destruct (Js.falsy d || Js.falsy h); [discriminate|].
  destruct (setHas (id t) n); [discriminate|].
  destruct (setHas (id t) n1); [reflexivity|]. congruence.
Qed.

(** The [forEach] of [checkDueTasks]: the set afterwards is the set before
    with the ids of the tasks notified; no id is notified twice; a task
    notified was not completed and not in the set; and every task of the
    list that was due has its id in the set afterwards. *)
Lemma checkDueLoop_sent (nowTime : Z) (due : string -> string -> Js.Num)
  (l : list Task) (n : list string) :
  let r := checkDueLoop nowTime due l n in
  (forall x, setHas x (fst r) = setHas x n || setHas x (ids (snd r))) /\
  NoDup (ids (snd r)) /\
  forallb (fun t => negb (completed t) && negb (setHas (id t) n)) (snd r) = true /\
  forallb (fun t => implb (isDue nowTime due n t) (setHas (id t) (fst r))) l = true.
Proof.
  revert n. induction l as [|t r IH]; intros n; cbn zeta.
  - cbn. split; [intros x; now rewrite orb_false_r|]. split; [constructor|]. now split.
  - cbn [checkDueLoop forallb]. destruct (isDue nowTime due n t) eqn:D.
    + destruct (isDue_facts _ _ _ _ D) as [Dc Dn].
      specialize (IH (setAdd (id t) n)). cbn zeta in IH.
      destruct (checkDueLoop nowTime due r (setAdd (id t) n)) as [n' sent].
      cbn [fst snd] in *. destruct IH as (S & ND & F & C).
      assert (Fin : forall u, In u sent ->
                completed u = false /\ String.eqb (id u) (id t) = false /\
                setHas (id u) n = false).
      { intros u Hu. pose proof (proj1 (forallb_forall _ _) F u Hu) as K.
        apply andb_true_iff in K as [K1 K2].
        apply negb_true_iff in K1, K2. rewrite setHas_setAdd in K2.
        apply orb_false_iff in K2. tauto. }
      split; [|split; [|split]].
      * intros x. rewrite S, setHas_setAdd. unfold setHas, ids. cbn [map existsb].
        destruct (String.eqb x (id t)); destruct (existsb (String.eqb x) n);
          destruct (existsb (String.eqb x) (map id sent)); reflexivity.
      * cbn [ids map]. constructor; [|exact ND].
        intros H. apply in_map_iff in H as (u & E & Hu).
        destruct (Fin u Hu) as (_ & K & _). rewrite E, String.eqb_refl in K. discriminate.
      * cbn [forallb]. rewrite Dc, Dn. cbn [negb andb].
        apply forallb_forall. intros u Hu. destruct (Fin u Hu) as (K1 & _ & K3).
        now rewrite K1, K3.
      * cbn [implb]. rewrite S, setHas_setAdd, String.eqb_refl. cbn [orb].
        apply forallb_forall. intros u Hu.
        pose proof (proj1 (forallb_forall _ _) C u Hu) as K. cbn beta in K.
        destruct (isDue nowTime due n u) eqn:Du; [|reflexivity]. cbn [implb].
        destruct (isDue nowTime due (setAdd (id t) n) u) eqn:Du1; [exact K|].
        rewrite S. now rewrite (isDue_lost _ _ _ _ _ Du Du1).
    + specialize (IH n). cbn zeta in IH.
      destruct (checkDueLoop nowTime due r n) as [n' sent].
      cbn [fst snd] in *. destruct IH as (S & ND & F & C).
      repeat split; auto.
Qed.

(** X29: no task is notified twice.  One run of [checkDueTasks] sends at
    most one notification for an id, and only for tasks that are not
    completed and whose id was not in the set of notified ids; with the
    permission, every task of the list that was due has its id in the set
    afterwards; the set only grows; and a later run, at any time and on
    any list, that starts from the set the first run left sends nothing
    for an id the first run notified. *)
Theorem checkDueTasks_never_repeats
  (granted : bool) (nowTime laterTime : Z) (due : string -> string -> Js.Num)
  (notified : list string) (s s' : App) :
  let first := checkDueTasks granted nowTime due notified s in
  let second := checkDueTasks granted laterTime due (fst first) s' in
  NoDup (ids (snd first)) /\
  forallb (fun t => negb (completed t) && negb (setHas (id t) notified)) (snd first) = true /\
  forallb (fun t => implb (granted && isDue nowTime due notified t)
                      (setHas (id t) (fst first))) (tasks s) = true /\
  forallb (fun x => setHas x (fst first)) notified = true /\
  forallb (fun t => negb (setHas (id t) (ids (snd first)))) (snd second) = true.
Proof.
  cbn zeta. unfold checkDueTasks. destruct granted; cbn [negb andb].
  - destruct (checkDueLoop_sent nowTime due (tasks s) notified) as (S1 & ND & F1 & C1).
    cbn zeta in *.
    destruct (checkDueLoop_sent laterTime due (tasks s')
                (fst (checkDueLoop nowTime due (tasks s) notified))) as (_ & _ & F2 & _).
    cbn zeta in *.
    split; [exact ND|]. split; [exact F1|]. split; [exact C1|]. split.
    + apply forallb_forall. intros x Hx. rewrite S1.
      assert (E : setHas x notified = true).
      { apply existsb_exists. exists x. split; [exact Hx|apply String.eqb_refl]. }
      now rewrite E.
    + apply forallb_forall. intros u Hu.
      pose proof (proj1 (forallb_forall _ _) F2 u Hu) as K.
      apply andb_true_iff in K as [_ K]. apply negb_true_iff in K.
      rewrite S1 in K. apply orb_false_iff in K as [_ K]. now rewrite K.
  - cbn [fst snd forallb ids map]. split; [constructor|]. split; [reflexivity|].
    split; [apply forallb_forall; now intros|]. split; [|reflexivity].
    apply forallb_forall. intros x Hx. apply existsb_exists.
    exists x. split; [exact Hx|apply String.eqb_refl].
Qed.

Example checkDueTasks_sample :
  let due := fun (d h : string) =>
               if String.eqb d "2024-05-01" then Js.Int 5000000 else Js.NaN in
  let s := run [AddTask "a" "2024-05-01" "10:00" "" 1; AddTask "b" "2024-05-01" "10:00" "" 1;
                AddTask "c" "" "10:00" "" 2; AddTask "d" "soon" "10:00" "Shop" 3]
             (initialApp 100) in
  ids (snd (checkDueTasks true 5030000 due [] s)) = ["1"]%string /\
  fst (checkDueTasks true 5030000 due [] s) = ["1"]%string /\
  snd (checkDueTasks true 5030000 due ["1"]%string s) = [] /\
  snd (checkDueTasks true 5060001 due [] s) = [] /\
  snd (checkDueTasks false 5030000 due [] s) = [].
Proof. vm_compute. repeat split. Qed.

Lemma slice_from_start {A} (n : Z) (l : list A) :
  0 <= n -> Js.slice 0 n l = firstn (Z.to_nat n) l.
Proof.
  intros H. destruct (Z_le_gt_dec n (Js.len l)) as [L|L].
  - apply slice_prefix. lia.
  - unfold Js.slice, Js.relIndex. replace (0 <? 0) with false by reflexivity.
    destruct (n <? 0) eqn:E; [apply Z.ltb_lt in E; lia|].
    pose proof (len_nonneg l). rewrite (Z.min_l 0), (Z.min_r n) by lia.
    cbn [Z.to_nat skipn]. rewrite Nat.sub_0_r.
    unfold Js.len. rewrite Nat2Z.id, firstn_all. symmetry. apply firstn_all2.
    unfold Js.len in L. lia.
Qed.

Lemma NoDup_firstn {A} (n : nat) (l : list A) : NoDup l -> NoDup (firstn n l).
Proof.
  intros H. rewrite <- (firstn_skipn n l) in H. now apply NoDup_app_remove_r in H.
Qed.

(** X30: the list of recent locations.  A location that is not blank goes
    to the head of the list, trimmed; an earlier entry equal to it is
    taken out, so a list without repeats stays without repeats; the other
    entries keep their order, and the list is cut to its first 10.  A
    blank location changes nothing.  Neither touches the tasks, the
    counters or the history. *)
Theorem addRecentLocation_keeps_recent_list (loc blank : string) (s : App) :
  NoDup (recentLocations s) ->
  existsb (fun c => negb (Js.isWhite c)) (Js.chars loc) = true ->
  forallb Js.isWhite (Js.chars blank) = true ->
  let s' := addRecentLocation loc s in
  recentLocations s'
  = firstn 10 (Js.trim loc
               :: filter (fun x => negb (String.eqb x (Js.trim loc))) (recentLocations s)) /\
  hd_error (recentLocations s') = Some (Js.trim loc) /\
  NoDup (recentLocations s') /\
  (length (recentLocations s') <= 10)%nat /\
  tasks s' = tasks s /\ historyOf s' = historyOf s /\
  addRecentLocation blank s = s.
Proof.
  intros ND H B s'.
  destruct (addRecentLocation_frame loc s) as (Hh & T & _). fold s' in Hh, T.
  assert (R : recentLocations s'
              = firstn 10 (Js.trim loc
                           :: filter (fun x => negb (String.eqb x (Js.trim loc)))
                                (recentLocations s))).
  { unfold s', addRecentLocation. rewrite (trim_not_blank _ H). fields.
    unfold Js.unshift. now rewrite slice_from_start by lia. }
  split; [exact R|]. rewrite R. split; [reflexivity|]. split; [|split; [|split; [|split]]].
  - apply NoDup_firstn. constructor; [|now apply NoDup_filter].
    intros K. apply filter_In in K as [_ K]. now rewrite String.eqb_refl in K.
  - rewrite length_firstn. lia.
  - exact T.
  - exact Hh.
  - unfold addRecentLocation. now rewrite (trim_blank _ B).
Qed.

Lemma addRecentLocation_keeps_recent_list_witness :
  let s := run [AddTask "a" "" "" " Home " 1; AddTask "b" "" "" "Office" 2;
                AddTask "c" "" "" "Home" 3] (initialApp 100) in
  recentLocations s = ["Home"; "Office"]%string /\
  recentLocations (addRecentLocation " Office  " s) = ["Office"; "Home"]%string /\
  NoDup (recentLocations (addRecentLocation " Office  " s)) /\
  addRecentLocation "  " s = s.
Proof.
  intros s.
  assert (E : recentLocations s = ["Home"; "Office"]%string) by reflexivity.
  assert (N : NoDup (recentLocations s)).
  { rewrite E. constructor; [|constructor; [|constructor]]; cbn; intuition discriminate. }
  destruct (addRecentLocation_keeps_recent_list " Office  " "  " s N)
    as (R & _ & ND & _ & _ & _ & B); [reflexivity|reflexivity|].
  split; [exact E|]. split; [exact R|]. split; [exact ND|exact B].
Defined.
